(** * Anomaly Events backend: contacts, phone verification, SMS log, RSVPs

    A shallow embedding of [src/main.py] and [src/schemas.py].

    - Python [str] values are sequences of Unicode code points ([list N]).
    - A MongoDB document is a finite map from field names to values, a
      collection is the list of its documents in natural (insertion) order.
    - The clock, the random generator and the SMS provider are inputs of the
      operation that consults them. *)

From Stdlib Require Import ZArith NArith Ascii String.
From stdpp Require Import gmap strings list fin_maps.

Open Scope N_scope.

(** ** Python strings *)

Abbreviation pystr := (list N).

(** An ASCII literal of the source as a sequence of code points. *)
Definition py (s : string) : pystr :=
  List.map N_of_ascii (list_ascii_of_string s).

(** The parts of the Unicode database the program consults through
    [str.isdigit], [str.strip], [str.lower] and [str.upper].  On ASCII the
    two classifications are fixed below; above U+007F they are whatever the
    interpreter's tables say.  Case conversion is not character-wise in
    Python (final sigma), so it is taken on whole strings. *)
Class PyUnicode := {
  isdigit_ext : N → bool;
  isspace_ext : N → bool;
  str_lower : pystr → pystr;
  str_upper : pystr → pystr
}.

Section Strings.
Context `{PyUnicode}.

(** [ch.isdigit()] *)
Definition isdigit (c : N) : bool :=
  if c <? 128 then (48 <=? c) && (c <=? 57) else isdigit_ext c.

(** [ch.isspace()]: on ASCII, TAB..CR, FS..US and SPACE. *)
Definition isspace (c : N) : bool :=
  if c <? 128 then ((9 <=? c) && (c <=? 13)) || ((28 <=? c) && (c <=? 32))
  else isspace_ext c.

Fixpoint lstrip (s : pystr) : pystr :=
  match s with
  | c :: s' => if isspace c then lstrip s' else s
  | [] => []
  end.

Definition rstrip (s : pystr) : pystr := rev (lstrip (rev s)).

(** [s.strip()] *)
Definition strip (s : pystr) : pystr := rstrip (lstrip s).

(** [s.startswith(p)] *)
Fixpoint startswith (p s : pystr) : bool :=
  match p, s with
  | [], _ => true
  | a :: p', b :: s' => (a =? b) && startswith p' s'
  | _ :: _, [] => false
  end.

(** [src/main.py], [_normalize_phone]. *)
Definition _normalize_phone (phone : pystr) : pystr :=
  let digits := List.filter isdigit phone in
  if startswith (py "+") (strip phone) then py "+" ++ digits
  else if (length digits =? 10)%nat then py "+1" ++ digits
  else if negb (startswith (py "+") digits) then py "+" ++ digits
  else digits.

(** The normalizer as spec section 4.1 words it, without the last guard. *)
Definition normalize_by_spec (raw : pystr) : pystr :=
  let digits := List.filter isdigit raw in
  if startswith (py "+") (strip raw) then py "+" ++ digits
  else if (length digits =? 10)%nat then py "+1" ++ digits
  else py "+" ++ digits.

End Strings.

(** ** Integers, random codes and object identifiers *)

(** Decimal digits of [n], most significant first, pushed in front of
    [acc]; the fuel bounds the number of digits. *)
Fixpoint dec_digits (fuel : nat) (n : N) (acc : pystr) : pystr :=
  match fuel with
  | O => acc
  | S fuel' =>
      let acc' := (48 + n mod 10) :: acc in
      if n / 10 =? 0 then acc' else dec_digits fuel' (n / 10) acc'
  end.

(** [str(n)] for a Python [int]. *)
Definition str_int (z : Z) : pystr :=
  let n := Z.abs_N z in
  let ds := dec_digits (S (N.to_nat (N.log2 n))) n [] in
  if (z <? 0)%Z then 45 :: ds else ds.

(** [random.randint(lo, hi)]: the generator's draw is the input [entropy];
    every draw lands in the closed interval, as the library promises. *)
Definition randint (lo hi : Z) (entropy : N) : Z :=
  (lo + Z.of_N entropy mod (hi - lo + 1))%Z.

(** [str(random.randint(100000, 999999))], as written three times in
    [src/main.py]. *)
Definition new_code (entropy : N) : pystr :=
  str_int (randint 100000 999999 entropy).

(** [bson.ObjectId]: twelve bytes, written as 24 hexadecimal characters. *)
Definition hexval (c : N) : option N :=
  if (48 <=? c) && (c <=? 57) then Some (c - 48)
  else if (97 <=? c) && (c <=? 102) then Some (c - 87)
  else if (65 <=? c) && (c <=? 70) then Some (c - 55)
  else None.

(** The characters [bytes.fromhex] skips: TAB, LF, VT, FF, CR and SPACE. *)
Definition hexspace (c : N) : bool :=
  ((9 <=? c) && (c <=? 13)) || (c =? 32).

(** [bytes.fromhex(s)]: blanks are skipped in front of a byte, a byte is two
    hexadecimal digits side by side; [None] stands for [ValueError]. *)
Fixpoint fromhex (s : pystr) : option (list N) :=
  match s with
  | [] => Some []
  | c :: s' =>
      if hexspace c then fromhex s'
      else
        match hexval c, s' with
        | Some hi, c' :: s'' =>
            match hexval c' with
            | Some lo => cons (16 * hi + lo) <$> fromhex s''
            | None => None
            end
        | _, _ => None
        end
  end.

Definition bytes_value (b : list N) : N :=
  fold_left (λ acc x, 256 * acc + x) b 0.

(** An identifier is kept as a number.  Twelve bytes are the number they
    spell, below [2 ^ 96]: the identifiers of stored documents are of this
    kind.  [bytes.fromhex] leaves fewer than twelve bytes when the 24
    characters hold blanks; an identifier of [k < 12] bytes equals no
    identifier of twelve bytes, and is kept at [(12 - k) * 2 ^ 96] and
    above, apart from those of any other length. *)
Definition oid_of_bytes (b : list N) : N :=
  2 ^ 96 * N.of_nat (12 - List.length b) + bytes_value b.

(** [ObjectId(s)] for a string [s]: the length is checked, then the string
    goes through [bytes.fromhex]; [None] stands for [InvalidId]. *)
Definition ObjectId (s : pystr) : option N :=
  if (List.length s =? 24)%nat then oid_of_bytes <$> fromhex s else None.

Definition hexchar (v : N) : N := if v <? 10 then 48 + v else 87 + v.

Fixpoint hex_digits (k : nat) (n : N) : pystr :=
  match k with
  | O => []
  | S k' => hex_digits k' (n / 16) ++ [hexchar (n mod 16)]
  end.

(** [str(oid)] *)
Definition str_oid (n : N) : pystr := hex_digits 24 n.

(** The [k] low bytes of [n], most significant first: the bytes behind
    [str_oid n] when [k] is twelve. *)
Fixpoint bytes_of (k : nat) (n : N) : list N :=
  match k with
  | O => []
  | S k' => bytes_of k' (n / 256) ++ [n mod 256]
  end.

(** ** Documents and collections *)

(** One element of the [logs] array of an SMS row. *)
Record log_entry := LogEntry {
  log_status : option pystr;
  log_at : Z;
  log_to : option pystr;
  log_error_code : option pystr
}.

Inductive value :=
| VNull
| VBool (b : bool)
| VStr (s : pystr)
| VTime (t : Z)
| VLogs (l : list log_entry).

#[global] Instance log_entry_eq_dec : EqDecision log_entry.
Proof. solve_decision. Defined.

#[global] Instance value_eq_dec : EqDecision value.
Proof. solve_decision. Defined.

(** An optional string as a stored value ([None] is stored as null). *)
Definition opt_str (o : option pystr) : value :=
  match o with Some s => VStr s | None => VNull end.

(** A stored document: the [_id] the store gave it and its other fields. *)
Record doc := Doc { _id : N; fields : gmap string value }.

(** The database: its collections by name, each in natural order, and the
    next object identifier the store hands out. *)
Record database := Database {
  colls : gmap string (list doc);
  next_oid : N
}.

Definition empty_database : database := Database ∅ 0.

(** [db[name]] *)
Definition coll (d : database) (name : string) : list doc :=
  default [] (colls d !! name).

Definition set_coll (name : string) (c : list doc) (d : database) : database :=
  Database (<[name := c]> (colls d)) (next_oid d).

(** The two shapes of filter the program uses: by [_id], or by equality on
    a list of fields. *)
Inductive query :=
| ById (n : N)
| ByFields (l : list (string * value)).

Definition matches (q : query) (x : doc) : bool :=
  match q with
  | ById n => _id x =? n
  | ByFields l =>
      forallb (λ kv, bool_decide (fields x !! kv.1 = Some kv.2)) l
  end.

(** [collection.find_one(q)]: the first match in natural order. *)
Definition find_one (q : query) (c : list doc) : option doc :=
  List.find (matches q) c.

(** [{"$set": ...}] *)
Definition set_fields (l : list (string * value)) (f : gmap string value)
  : gmap string value :=
  foldr (λ kv acc, <[kv.1 := kv.2]> acc) f l.

(** An update document: a [$set] part and at most one [$push]. *)
Record update := Update {
  u_set : list (string * value);
  u_push : option (string * log_entry)
}.

(** Applying an update to the fields of a document.  [$push] creates the
    array when the field is missing and is refused by the store when the
    field holds something that is not an array ([None]). *)
Definition apply_update (u : update) (f : gmap string value)
  : option (gmap string value) :=
  let f1 := set_fields (u_set u) f in
  match u_push u with
  | None => Some f1
  | Some (k, e) =>
      match f1 !! k with
      | None => Some (<[k := VLogs [e]]> f1)
      | Some (VLogs l) => Some (<[k := VLogs (l ++ [e])]> f1)
      | Some _ => None
      end
  end.

Inductive upd_result :=
| NoMatch
| Refused
| Updated (c : list doc).

(** The first matching document is rewritten where it stands. *)
Fixpoint update_first (q : query) (u : update) (c : list doc) : upd_result :=
  match c with
  | [] => NoMatch
  | x :: c' =>
      if matches q x then
        match apply_update u (fields x) with
        | Some f' => Updated (Doc (_id x) f' :: c')
        | None => Refused
        end
      else
        match update_first q u c' with
        | Updated c'' => Updated (x :: c'')
        | r => r
        end
  end.

(** [collection.insert_one(fields)]: the store picks a fresh [_id]. *)
Definition insert_one (name : string) (f : gmap string value) (d : database)
  : N * database :=
  let i := next_oid d in
  (i, Database (<[name := coll d name ++ [Doc i f]]> (colls d)) (i + 1)).

(** [collection.update_one(q, u, upsert=...)]; [None] is the store's
    [WriteError].  An upsert that matches nothing inserts the equality
    fields of the filter with the update applied to them. *)
Definition update_one (name : string) (q : query) (u : update)
    (upsert : bool) (d : database) : option database :=
  match update_first q u (coll d name) with
  | Updated c => Some (set_coll name c d)
  | Refused => None
  | NoMatch =>
      if upsert then
        let base := match q with
                    | ById _ => ∅
                    | ByFields l => set_fields l ∅
                    end in
        match apply_update u base with
        | None => None
        | Some f =>
            match q with
            | ById n => Some (set_coll name (coll d name ++ [Doc n f]) d)
            | ByFields _ => Some (insert_one name f d).2
            end
        end
      else Some d
  end.

(** Modelled from the spec: [create_document] of the absent [database]
    module, the store's insert (section 1: "a document store supporting
    find-one, insert, and field-level update-by-filter").  It stores the
    dumped model with its creation and update timestamps and returns the
    new identifier as a string. *)
Definition create_document (name : string) (f : gmap string value) (now : Z)
    (d : database) : pystr * database :=
  let r := insert_one name
             (<["created_at" := VTime now]> (<["updated_at" := VTime now]> f)) d in
  (str_oid r.1, r.2).

(** ** Exceptions and results *)

Inductive exn :=
| HTTPException (code : N) (detail : pystr)
| ValidationError (model field : string)
| ProviderError (msg : pystr)
| WriteError.

(** [str(e)].  Only the provider's message is ever stored. *)
Definition str_exn (e : exn) : pystr :=
  match e with
  | HTTPException _ detail => detail
  | ValidationError model field => py model ++ py "." ++ py field
  | ProviderError msg => msg
  | WriteError => py "write error"
  end.

Inductive result (A : Type) :=
| Returned (a : A)
| Raised (e : exn).
Arguments Returned {A} a.
Arguments Raised {A} e.

(** A JSON object of a response, in the order the source writes it. *)
Abbreviation body := (list (string * value)).

(** [_collection]: every access to a collection goes through this guard. *)
Definition _collection {A} (db : option database)
    (k : database → result A * option database) : result A * option database :=
  match db with
  | None => (Raised (HTTPException 500 (py "Database not available")), None)
  | Some d => k d
  end.

(** ** Schemas ([src/schemas.py]) *)

(** Membership in a [Literal[...]] type. *)
Definition one_of (s : pystr) (l : list string) : bool :=
  existsb (λ x, bool_decide (py x = s)) l.

(** [x or dflt] for an optional string: [None] and the empty string are
    both falsy. *)
Definition py_or (o : option pystr) (dflt : pystr) : pystr :=
  match o with
  | Some (c :: s) => c :: s
  | _ => dflt
  end.

Definition truthy (o : option pystr) : bool :=
  match o with
  | Some (_ :: _) => true
  | _ => false
  end.

(** The fields of a dumped [Smsmessage]; [error_code] and [logs] keep their
    defaults. *)
Definition Smsmessage_fields (to body purpose status : pystr)
    (provider_message_sid error_message : option pystr) : gmap string value :=
  set_fields
    [("to", VStr to); ("body", VStr body); ("purpose", VStr purpose);
     ("status", VStr status);
     ("provider_message_sid", opt_str provider_message_sid);
     ("error_code", VNull);
     ("error_message", opt_str error_message);
     ("logs", VLogs [])] ∅.

(** The members of the [purpose] literal type. *)
Definition purposes : list string :=
  ["verify"; "invite"; "reminder"; "gate_code"].

(** [Smsmessage(...).model_dump()], or the validation error of the
    constructor. *)
Definition Smsmessage (to body purpose status : pystr)
    (provider_message_sid error_message : option pystr)
  : result (gmap string value) :=
  if negb (one_of purpose purposes) then
    Raised (ValidationError "Smsmessage" "purpose")
  else if negb (one_of status ["queued"; "sent"; "delivered"; "failed"]) then
    Raised (ValidationError "Smsmessage" "status")
  else
    Returned (Smsmessage_fields to body purpose status
                provider_message_sid error_message).

(** [Rsvp(contact_id=..., event_id=..., status=...).model_dump()] *)
Definition Rsvp (contact_id event_id status : pystr)
  : result (gmap string value) :=
  if negb (one_of status ["yes"; "not_this_time"; "no_response"]) then
    Raised (ValidationError "Rsvp" "status")
  else
    Returned (set_fields
      [("contact_id", VStr contact_id); ("event_id", VStr event_id);
       ("status", VStr status); ("qr_code_token", VNull);
       ("sent_gate_code", VBool false)] ∅).

(** [Contact(...).model_dump()] with the arguments [register_contact]
    passes; [referral_code] keeps its default. *)
Definition Contact (name phone : pystr)
    (email headshot_url city state : option pystr)
    (brand_queue segment status : pystr) (phone_verified : bool)
    (referred_by : option pystr) (verification_code : pystr)
  : result (gmap string value) :=
  if negb (one_of segment ["local"; "out_of_state"]) then
    Raised (ValidationError "Contact" "segment")
  else if negb (one_of brand_queue ["anomaly"; "arcane"]) then
    Raised (ValidationError "Contact" "brand_queue")
  else if negb (one_of status ["pending"; "approved"; "rejected"]) then
    Raised (ValidationError "Contact" "status")
  else
    Returned (set_fields
      [("name", VStr name); ("phone", VStr phone); ("email", opt_str email);
       ("headshot_url", opt_str headshot_url); ("city", opt_str city);
       ("state", opt_str state); ("segment", VStr segment);
       ("brand_queue", VStr brand_queue); ("status", VStr status);
       ("phone_verified", VBool phone_verified);
       ("referral_code", VNull); ("referred_by", opt_str referred_by);
       ("verification_code", VStr verification_code)] ∅).

(** ** Request models ([src/main.py]) *)

Module RegistrationRequest.
Record t := Make {
  name : pystr;
  phone : pystr;
  email : option pystr;
  headshot_url : option pystr;
  city : option pystr;
  state : option pystr;
  brand_queue : option pystr;
  referred_by : option pystr
}.
End RegistrationRequest.

Module VerifySendRequest.
Record t := Make { phone : pystr }.
End VerifySendRequest.

Module VerifyConfirmRequest.
Record t := Make { phone : pystr; code : pystr }.
End VerifyConfirmRequest.

Module RsvpRequest.
Record t := Make { contact_id : pystr; event_id : pystr; status : pystr }.
End RsvpRequest.

(** The form of a delivery-status callback; a missing key reads as [None]. *)
Module StatusForm.
Record t := Make {
  MessageSid : option pystr;
  MessageStatus : option pystr;
  To : option pystr;
  ErrorCode : option pystr
}.
End StatusForm.

(** ** The SMS provider and the process configuration *)

(** What [twilio_client.messages.create] does with one request: it returns
    a message with a [sid], or it raises. *)
Inductive send_outcome :=
| Delivered (sid : pystr)
| SendRaised (msg : pystr).

(** A client, by what it answers to [to], [from_], [body] and
    [status_callback]. *)
Definition Client := pystr → pystr → pystr → option pystr → send_outcome.

Record Env := {
  twilio_client : option Client;
  TWILIO_FROM_NUMBER : option pystr;
  TWILIO_STATUS_WEBHOOK : option pystr
}.

(** ** The SMS gateway and the routes ([src/main.py]) *)

(** The filter [{"contact_id": c, "event_id": e}] of [upsert_rsvp]. *)
Definition rsvp_query (contact_id event_id : pystr) : query :=
  ByFields [("contact_id", VStr contact_id); ("event_id", VStr event_id)].

Section Routes.
Context `{PyUnicode} (env : Env).

(** [_send_sms].  The first component of a failed attempt is the
    exception the [try] block raised, the second is [sid] as the block
    left it. *)
Definition _send_sms (to body purpose : pystr) (now : Z) (d : database)
  : result (option pystr) * database :=
  let to_norm := _normalize_phone to in
  let log_only : (exn * option pystr) + (option pystr * database) :=
    match Smsmessage to_norm body purpose (py "queued") None None with
    | Raised e => inl (e, None)
    | Returned m => inr (None, (create_document "smsmessage" m now d).2)
    end in
  let attempt :=
    match twilio_client env with
    | Some client =>
        if truthy (TWILIO_FROM_NUMBER env) then
          match client to_norm (default [] (TWILIO_FROM_NUMBER env)) body
                  (if truthy (TWILIO_STATUS_WEBHOOK env)
                   then TWILIO_STATUS_WEBHOOK env else None) with
          | SendRaised msg => inl (ProviderError msg, None)
          | Delivered sid =>
              match Smsmessage to_norm body purpose (py "sent")
                      (Some sid) None with
              | Raised e => inl (e, Some sid)
              | Returned m =>
                  inr (Some sid, (create_document "smsmessage" m now d).2)
              end
          end
        else log_only
    | None => log_only
    end in
  match attempt with
  | inr (sid, d') => (Returned sid, d')
  | inl (e, sid) =>
      match Smsmessage to_norm body purpose (py "failed")
              None (Some (str_exn e)) with
      | Raised e' => (Raised e', d)
      | Returned m =>
          (Returned sid, (create_document "smsmessage" m now d).2)
      end
  end.

(** The resend steps shared, line for line, by [register_contact] and
    [send_verification]: a new code is stored on the contact and sent. *)
Definition resend (contact : doc) (phone : pystr) (ok : body)
    (entropy : N) (now now_sms : Z) (d : database)
  : result body * option database :=
  let code := new_code entropy in
  match update_one "contact" (ById (_id contact))
          (Update [("verification_code", VStr code);
                   ("updated_at", VTime now)] None) false d with
  | None => (Raised WriteError, Some d)
  | Some d1 =>
      match _send_sms phone (py "Anomaly verification code: " ++ code)
              (py "verify") now_sms d1 with
      | (Raised e, d2) => (Raised e, Some d2)
      | (Returned _, d2) => (Returned ok, Some d2)
      end
  end.

(** The [Contact(...)] that [register_contact] builds for a new phone. *)
Definition contact_of_payload (payload : RegistrationRequest.t)
    (phone code : pystr) : result (gmap string value) :=
  let segment :=
    if one_of
         (str_upper (strip (py_or (RegistrationRequest.state payload) [])))
         ["CA"; "NY"; "NV"; "WA"; "OR"; "TX"; "FL"]
    then py "local" else py "out_of_state" in
  Contact (RegistrationRequest.name payload) phone
    (RegistrationRequest.email payload)
    (RegistrationRequest.headshot_url payload)
    (RegistrationRequest.city payload)
    (RegistrationRequest.state payload)
    (str_lower (py_or (RegistrationRequest.brand_queue payload)
                  (py "anomaly")))
    segment (py "pending") false
    (RegistrationRequest.referred_by payload) code.

(** [POST /contacts/register] *)
Definition register_contact (payload : RegistrationRequest.t)
    (entropy : N) (now now_sms : Z) (db : option database)
  : result body * option database :=
  let phone := _normalize_phone (RegistrationRequest.phone payload) in
  _collection db (λ d,
    match find_one (ByFields [("phone", VStr phone)]) (coll d "contact") with
    | Some existing =>
        resend existing phone
          [("id", VStr (str_oid (_id existing))); ("phone", VStr phone);
           ("message", VStr (py "Contact exists, verification re-sent"))]
          entropy now now_sms d
    | None =>
        let code := new_code entropy in
        match contact_of_payload payload phone code with
        | Raised e => (Raised e, Some d)
        | Returned contact =>
            let created := create_document "contact" contact now d in
            match _send_sms phone (py "Anomaly verification code: " ++ code)
                    (py "verify") now_sms created.2 with
            | (Raised e, d2) => (Raised e, Some d2)
            | (Returned _, d2) =>
                (Returned
                   [("id", VStr created.1); ("phone", VStr phone);
                    ("message",
                     VStr (py "Registration received. Verification sent."))],
                 Some d2)
            end
        end
    end).

(** [POST /contacts/verify/send] *)
Definition send_verification (payload : VerifySendRequest.t)
    (entropy : N) (now now_sms : Z) (db : option database)
  : result body * option database :=
  let phone := _normalize_phone (VerifySendRequest.phone payload) in
  _collection db (λ d,
    match find_one (ByFields [("phone", VStr phone)]) (coll d "contact") with
    | None => (Raised (HTTPException 404 (py "Contact not found")), Some d)
    | Some contact =>
        resend contact phone [("message", VStr (py "Verification sent"))]
          entropy now now_sms d
    end).

(** [POST /contacts/verify/confirm] *)
Definition confirm_verification (payload : VerifyConfirmRequest.t)
    (now : Z) (db : option database) : result body * option database :=
  let phone := _normalize_phone (VerifyConfirmRequest.phone payload) in
  _collection db (λ d,
    match find_one (ByFields [("phone", VStr phone)]) (coll d "contact") with
    | None => (Raised (HTTPException 404 (py "Contact not found")), Some d)
    | Some contact =>
        if negb (bool_decide (fields contact !! "verification_code"
                              = Some (VStr (VerifyConfirmRequest.code payload))))
        then (Raised (HTTPException 400 (py "Invalid verification code")),
              Some d)
        else
          match update_one "contact" (ById (_id contact))
                  (Update [("phone_verified", VBool true);
                           ("verification_code", VNull);
                           ("updated_at", VTime now)] None) false d with
          | None => (Raised WriteError, Some d)
          | Some d1 =>
              (Returned [("message", VStr (py "Phone verified"));
                         ("contact_id", VStr (str_oid (_id contact)))],
               Some d1)
          end
    end).

(** [POST /rsvps] *)
Definition upsert_rsvp (payload : RsvpRequest.t) (now : Z)
    (db : option database) : result body * option database :=
  match ObjectId (RsvpRequest.contact_id payload),
        ObjectId (RsvpRequest.event_id payload) with
  | Some contact_id, Some event_id =>
      _collection db (λ d,
        if negb (bool_decide
                   (is_Some (find_one (ById contact_id) (coll d "contact"))))
        then (Raised (HTTPException 404 (py "Contact not found")), Some d)
        else if negb (bool_decide
                   (is_Some (find_one (ById event_id) (coll d "event"))))
        then (Raised (HTTPException 404 (py "Event not found")), Some d)
        else
          let ok rsvp_id : body :=
            [("id", VStr rsvp_id);
             ("status", VStr (RsvpRequest.status payload))] in
          match find_one
                  (rsvp_query (RsvpRequest.contact_id payload)
                     (RsvpRequest.event_id payload))
                  (coll d "rsvp") with
          | Some r =>
              match update_one "rsvp" (ById (_id r))
                      (Update [("status", VStr (RsvpRequest.status payload));
                               ("updated_at", VTime now)] None) false d with
              | None => (Raised WriteError, Some d)
              | Some d1 => (Returned (ok (str_oid (_id r))), Some d1)
              end
          | None =>
              match Rsvp (RsvpRequest.contact_id payload)
                      (RsvpRequest.event_id payload)
                      (RsvpRequest.status payload) with
              | Raised e => (Raised e, Some d)
              | Returned rsvp =>
                  let created := create_document "rsvp" rsvp now d in
                  (Returned (ok created.1), Some created.2)
              end
          end)
  | _, _ => (Raised (HTTPException 400 (py "Invalid IDs")), db)
  end.

(** [POST /sms/webhook]; the clock is read once for [updated_at] and
    once for the log entry. *)
Definition sms_status_webhook (form : StatusForm.t) (now_set now_log : Z)
    (db : option database) : result body * option database :=
  let message_sid := StatusForm.MessageSid form in
  let message_status := StatusForm.MessageStatus form in
  let to := StatusForm.To form in
  let error_code := StatusForm.ErrorCode form in
  if negb (truthy message_sid) then (Returned [("ok", VBool true)], db)
  else
    _collection db (λ d,
      match update_one "smsmessage"
              (ByFields [("provider_message_sid", opt_str message_sid)])
              (Update [("status", opt_str message_status);
                       ("updated_at", VTime now_set)]
                 (Some ("logs",
                        LogEntry message_status now_log to error_code)))
              true d with
      | None => (Raised WriteError, Some d)
      | Some d1 => (Returned [("ok", VBool true)], Some d1)
      end).

End Routes.

(** ** Operations and runs *)

Inductive operation :=
| Register (payload : RegistrationRequest.t) (entropy : N) (now now_sms : Z)
| SendVerification (payload : VerifySendRequest.t) (entropy : N)
    (now now_sms : Z)
| Confirm (payload : VerifyConfirmRequest.t) (now : Z)
| UpsertRsvp (payload : RsvpRequest.t) (now : Z)
| StatusCallback (form : StatusForm.t) (now_set now_log : Z)
| SendSms (to body purpose : pystr) (now : Z).

Section Runs.
Context `{PyUnicode} (env : Env).

(** The store after one operation, whatever it answered. *)
Definition step (o : operation) (db : option database) : option database :=
  match o with
  | Register p e t t' => (register_contact env p e t t' db).2
  | SendVerification p e t t' => (send_verification env p e t t' db).2
  | Confirm p t => (confirm_verification p t db).2
  | UpsertRsvp p t => (upsert_rsvp p t db).2
  | StatusCallback f t t' => (sms_status_webhook f t t' db).2
  | SendSms to body purpose t =>
      match db with
      | Some d => Some (_send_sms env to body purpose t d).2
      | None => None
      end
  end.

Definition run (ops : list operation) (db : option database)
  : option database :=
  foldl (λ acc o, step o acc) db ops.

End Runs.

(** ** Invariants of the store *)

(** Within a collection no two documents share an [_id], and every [_id]
    was handed out by the store. *)
Definition unique_ids (d : database) : Prop :=
  map_Forall (λ _ c, NoDup (List.map _id c)
                     ∧ Forall (λ x, _id x < next_oid d) c) (colls d).

Definition array_or_missing (o : option value) : bool :=
  match o with
  | None | Some (VLogs _) => true
  | Some _ => false
  end.

(** The [logs] field of every SMS row is an array or is missing. *)
Definition logs_ok (d : database) : Prop :=
  Forall (λ x, array_or_missing (fields x !! "logs") = true)
         (coll d "smsmessage").

(** The RSVP records stored for a pair. *)
Definition rsvps_for (contact_id event_id : pystr) (d : database) : list doc :=
  List.filter (matches (rsvp_query contact_id event_id)) (coll d "rsvp").

Definition rsvp_unique (d : database) : Prop :=
  ∀ c e, (List.length (rsvps_for c e d) ≤ 1)%nat.

Definition verified (x : doc) : Prop :=
  fields x !! "phone_verified" = Some (VBool true).

(** ** Relations used in the statements *)

(** Document by document, what a [$set] of the fields [l] may do. *)
Definition set_rel (l : list (string * value)) (x x' : doc) : Prop :=
  _id x' = _id x ∧ (fields x' = fields x ∨ fields x' = set_fields l (fields x)).

Section Outcome.
Context `{PyUnicode} (env : Env).

(** What one call of the gateway stores and returns: the returned [sid],
    and the [status] and [error_message] of the row it writes. *)
Inductive sms_outcome (to_norm body : pystr)
  : option pystr → pystr → option pystr → Prop :=
| sms_sent client sid :
    twilio_client env = Some client →
    truthy (TWILIO_FROM_NUMBER env) = true →
    client to_norm (default [] (TWILIO_FROM_NUMBER env)) body
      (if truthy (TWILIO_STATUS_WEBHOOK env)
       then TWILIO_STATUS_WEBHOOK env else None) = Delivered sid →
    sms_outcome to_norm body (Some sid) (py "sent") None
| sms_failed client msg :
    twilio_client env = Some client →
    truthy (TWILIO_FROM_NUMBER env) = true →
    client to_norm (default [] (TWILIO_FROM_NUMBER env)) body
      (if truthy (TWILIO_STATUS_WEBHOOK env)
       then TWILIO_STATUS_WEBHOOK env else None) = SendRaised msg →
    sms_outcome to_norm body None (py "failed") (Some msg)
| sms_queued :
    (twilio_client env = None ∨ truthy (TWILIO_FROM_NUMBER env) = false) →
    sms_outcome to_norm body None (py "queued") None.

End Outcome.

(** The [logs] array of an SMS row; a row without the field has none. *)
Definition logs_of (x : doc) : list log_entry :=
  match fields x !! "logs" with
  | Some (VLogs l) => l
  | _ => []
  end.

(** What an operation may do to a contact that is already stored: the
    resend paths touch [verification_code] and [updated_at] only, a
    confirmation leaves the contact alone or marks it verified, and the
    other operations do not touch contacts. *)
Definition contact_change (o : operation) (x x' : doc) : Prop :=
  _id x' = _id x
  ∧ match o with
    | Register _ _ _ _ | SendVerification _ _ _ _ =>
        ∀ k, k ≠ "verification_code" → k ≠ "updated_at" →
             fields x' !! k = fields x !! k
    | Confirm _ _ =>
        fields x' = fields x ∨ fields x' !! "phone_verified" = Some (VBool true)
    | _ => fields x' = fields x
    end.

(** The contacts of [c], position by position, as [c'] has them; [c'] may
    hold new contacts after them. *)
Definition contacts_changed (R : doc → doc → Prop) (c c' : list doc) : Prop :=
  ∃ c1 extra, c' = c1 ++ extra ∧ Forall2 R c c1.

(** Identifier kept, and verification kept once it is there. *)
Definition keeps_verified (x x' : doc) : Prop :=
  _id x' = _id x ∧ (verified x → verified x').

(** What the operation [o] keeps when it takes the store from [d] to [d']:
    the stored contacts up to [contact_change], unique identifiers,
    well-formed [logs], and at most one RSVP per pair. *)
Definition preserved (o : operation) (d d' : database) : Prop :=
  contacts_changed (contact_change o) (coll d "contact") (coll d' "contact")
  ∧ (unique_ids d → unique_ids d')
  ∧ (logs_ok d → logs_ok d')
  ∧ (rsvp_unique d → rsvp_unique d').

(** ** Sample data *)

Definition ascii_lower (c : N) : N :=
  if (65 <=? c) && (c <=? 90) then c + 32 else c.

Definition ascii_upper (c : N) : N :=
  if (97 <=? c) && (c <=? 122) then c - 32 else c.

(** The tables of an interpreter that only ever sees ASCII text. *)
Definition ascii_only : PyUnicode :=
  {| isdigit_ext := λ _, false;
     isspace_ext := λ _, false;
     str_lower := List.map ascii_lower;
     str_upper := List.map ascii_upper |}.

Definition no_provider : Env := Build_Env None None None.

Definition failing_provider : Env :=
  Build_Env (Some (λ _ _ _ _, SendRaised (py "provider down")))
            (Some (py "+15550009999")) None.

Definition ana : RegistrationRequest.t :=
  RegistrationRequest.Make (py "Ana") (py "555-000-1111") None None None
    (Some (py "ca")) None None.

(** A verified contact whose last code is still stored. *)
Definition sample_contact : doc :=
  Doc 0 (set_fields [("phone", VStr (py "+15550001111"));
                     ("phone_verified", VBool true);
                     ("verification_code", VStr (py "123456"))] ∅).

(** A store with that contact, one event and nothing else. *)
Definition sample_db : database :=
  Database
    (<["contact" := [sample_contact]]>
       (<["event" := [Doc 1 (set_fields [("name", VStr (py "Opening"))] ∅)]]>
          ∅))
    2.

Definition confirm_ana : VerifyConfirmRequest.t :=
  VerifyConfirmRequest.Make (py "(555) 000-1111") (py "123456").

Definition rsvp_yes : RsvpRequest.t :=
  RsvpRequest.Make (str_oid 0) (str_oid 1) (py "yes").

(** A callback that carries a message sid. *)
Definition delivered_form : StatusForm.t :=
  StatusForm.Make (Some (py "SM1")) (Some (py "delivered"))
    (Some (py "+15550001111")) None.

(** Three operations on the sample store: a resend, a confirmation with a
    stale code, and a status callback. *)
Definition sample_ops : list operation :=
  [Register ana 5 10 11; Confirm confirm_ana 20;
   StatusCallback delivered_form 30 31].

(** ** Further sample data *)

(** A store whose contact has a letter in its identifier. *)
Definition hex_db : database :=
  Database
    (<["contact" := [Doc 10 (set_fields [("phone", VStr (py "+15550002222"))] ∅)]]>
       (<["event" := [Doc 11 (set_fields [("name", VStr (py "Closing"))] ∅)]]>
          ∅))
    12.

(** The same contact and event, the contact id in lower and in upper case. *)
Definition rsvp_lower : RsvpRequest.t :=
  RsvpRequest.Make (py "00000000000000000000000a") (str_oid 11) (py "yes").

Definition rsvp_upper : RsvpRequest.t :=
  RsvpRequest.Make (py "00000000000000000000000A") (str_oid 11) (py "yes").

(** A status outside the literal type of the schema. *)
Definition rsvp_maybe : RsvpRequest.t :=
  RsvpRequest.Make (str_oid 0) (str_oid 1) (py "maybe").

(** An RSVP for a contact that is not stored. *)
Definition rsvp_stranger : RsvpRequest.t :=
  RsvpRequest.Make (str_oid 7) (str_oid 1) (py "yes").

Definition send_ana : VerifySendRequest.t :=
  VerifySendRequest.Make (py "555 000 1111").

(** A confirmation with the code of the draw 7. *)
Definition confirm_fresh : VerifyConfirmRequest.t :=
  VerifyConfirmRequest.Make (py "+15550001111") (py "100007").

(** A registration for a pipeline that does not exist. *)
Definition vip : RegistrationRequest.t :=
  RegistrationRequest.Make (py "Bo") (py "555-000-3333") None None None None
    (Some (py "VIP")) None.

(** A registration for a phone the sample store does not hold. *)
Definition bo : RegistrationRequest.t :=
  RegistrationRequest.Make (py "Bo") (py "555-000-3333") None None None None
    (Some (py "Arcane")) None.

Definition confirm_bo : VerifyConfirmRequest.t :=
  VerifyConfirmRequest.Make (py "(555) 000 3333") (py "100009").

(** A provider that accepts every message under the sid [SM1]. *)
Definition accepting_provider : Env :=
  Build_Env (Some (λ _ _ _ _, Delivered (py "SM1")))
            (Some (py "+15550009999")) None.

(** The sample store after one message that the provider accepted: one
    logged row, [sent], with the sid [SM1] and an empty [logs] array. *)
Definition sent_db : database :=
  (@_send_sms ascii_only accepting_provider (py "+15550001111")
     (py "Your code is 123456") (py "verify") 3 sample_db).2.

(** The same row as a store that was not written by the program can hold
    it: the schema admits a null [logs]. *)
Definition null_logs_db : database :=
  set_coll "smsmessage"
    [Doc 2 (<["logs" := VNull]>
              (Smsmessage_fields (py "+15550001111") (py "Your code is 123456")
                 (py "verify") (py "sent") (Some (py "SM1")) None))]
    (Database (colls sample_db) 3).

(** A second callback for the same message. *)
Definition failed_form : StatusForm.t :=
  StatusForm.Make (Some (py "SM1")) (Some (py "failed"))
    (Some (py "+15550001111")) (Some (py "30003")).

(** ** Further invariants and frames *)

(** At most one contact per stored phone. *)
Definition phone_unique (d : database) : Prop :=
  ∀ p, (List.length
          (List.filter (matches (ByFields [("phone", VStr p)]))
             (coll d "contact")) ≤ 1)%nat.

(** The collections an operation may write to. *)
Definition writes (o : operation) : list string :=
  match o with
  | Register _ _ _ _ | SendVerification _ _ _ _ => ["contact"; "smsmessage"]
  | Confirm _ _ => ["contact"]
  | UpsertRsvp _ _ => ["rsvp"]
  | StatusCallback _ _ _ | SendSms _ _ _ _ => ["smsmessage"]
  end.

(** Every collection of [d'] starts with the documents of [d], by
    identifier, in their order; the store never takes an identifier back. *)
Definition grows (d d' : database) : Prop :=
  next_oid d <= next_oid d'
  ∧ ∀ name, ∃ extra,
      List.map _id (coll d' name) = List.map _id (coll d name) ++ extra.

(** What the operation [o] keeps beyond [preserved]: the collections it
    does not write, the documents that are there, and one contact per
    phone. *)
Definition kept (o : operation) (d d' : database) : Prop :=
  (∀ name, name ∉ writes o → coll d' name = coll d name)
  ∧ grows d d'
  ∧ (phone_unique d → phone_unique d').

(** ** Listing contacts ([src/main.py]) *)



(** An RSVP of the contact that the registration [bo] creates on the
    sample store. *)
Definition rsvp_bo : RsvpRequest.t :=
  RsvpRequest.Make (str_oid 2) (str_oid 1) (py "not_this_time").

(** * Properties *)

Section StringFacts.
Context `{PyUnicode}.

Lemma isdigit_plus : isdigit 43 = false.
Proof. reflexivity. Qed.

Lemma isspace_plus : isspace 43 = false.
Proof. reflexivity. Qed.

Lemma filter_isdigit_all (s : pystr) :
  forallb isdigit (List.filter isdigit s) = true.
Proof.
  induction s as [|c s IH]; simpl; [done|].
  destruct (isdigit c) eqn:E; simpl; [by rewrite E|done].
Qed.

Lemma filter_isdigit_id (s : pystr) :
  forallb isdigit s = true → List.filter isdigit s = s.
Proof.
  induction s as [|c s IH]; simpl; [done|].
  intros [Hc Hs]%andb_prop. rewrite Hc. f_equal. by apply IH.
Qed.

(** A filtered string never starts with the plus sign. *)
Lemma digits_no_plus (s : pystr) :
  startswith (py "+") (List.filter isdigit s) = false.
Proof.
  pose proof (filter_isdigit_all s) as Hall.
  destruct (List.filter isdigit s) as [|c ds]; [done|].
  simpl in Hall. apply andb_prop in Hall as [Hc _].
  change (startswith (py "+") (c :: ds)) with ((43 =? c) && true).
  destruct (N.eqb_spec 43 c) as [<-|]; [|done].
  by rewrite isdigit_plus in Hc.
Qed.

(** Stripping on the left keeps a final plus sign in place. *)
Lemma lstrip_snoc_plus (s : pystr) :
  ∃ t, lstrip (s ++ [43]) = t ++ [43].
Proof.
  induction s as [|c s [t Ht]]; simpl.
  - by exists [].
  - destruct (isspace c); [by exists t|]. by exists (c :: s).
Qed.

Lemma strip_plus (ds : pystr) :
  startswith (py "+") (strip (43 :: ds)) = true.
Proof.
  unfold strip. change (lstrip (43 :: ds)) with (43 :: ds).
  unfold rstrip. simpl rev.
  destruct (lstrip_snoc_plus (rev ds)) as [t ->].
  by rewrite rev_app_distr.
Qed.

Lemma normalize_plus_digits (ds : pystr) :
  _normalize_phone (43 :: List.filter isdigit ds) = 43 :: List.filter isdigit ds.
Proof.
  unfold _normalize_phone. rewrite strip_plus.
  change (List.filter isdigit (43 :: List.filter isdigit ds))
    with (List.filter isdigit (List.filter isdigit ds)).
  by rewrite (filter_isdigit_id (List.filter isdigit ds) (filter_isdigit_all ds)).
Qed.

(** Every result is a plus sign followed by the digits of some string. *)
Lemma normalize_shape (s : pystr) :
  ∃ ds, _normalize_phone s = 43 :: List.filter isdigit ds.
Proof.
  unfold _normalize_phone. rewrite digits_no_plus. simpl negb.
  destruct (startswith _ (strip s)); [by exists s|].
  destruct (_ =? _)%nat; [|by exists s].
  exists (49 :: List.filter isdigit s).
  change (List.filter isdigit (49 :: List.filter isdigit s))
    with (49 :: List.filter isdigit (List.filter isdigit s)).
  by rewrite (filter_isdigit_id (List.filter isdigit s) (filter_isdigit_all s)).
Qed.

(** C4: the normalizer is a total function that agrees on every input
    with the three cases of spec section 4.1 (an explicit plus keeps the
    digits, ten digits get the default country prefix, anything else gets
    a plus), and it maps both sample numbers to [+15551234567]. *)
Theorem normalize_phone_spec :
  (∀ raw, _normalize_phone raw = normalize_by_spec raw)
  ∧ _normalize_phone (py "+15551234567") = py "+15551234567"
  ∧ _normalize_phone (py "5551234567") = py "+15551234567"
  ∧ _normalize_phone [] = py "+".
Proof.
  split; [|done].
  intros raw. unfold _normalize_phone, normalize_by_spec.
  by rewrite digits_no_plus.
Qed.

(** C10: normalizing twice is the same as normalizing once; every result
    is a plus sign followed only by digits, and every such string is a
    fixed point of the normalizer. *)
Theorem normalize_phone_idempotent :
  (∀ s, _normalize_phone (_normalize_phone s) = _normalize_phone s)
  ∧ (∀ s, ∃ ds, _normalize_phone s = 43 :: ds ∧ forallb isdigit ds = true)
  ∧ (∀ ds, _normalize_phone (43 :: List.filter isdigit ds)
           = 43 :: List.filter isdigit ds).
Proof.
  split; [|split].
  - intros s. destruct (normalize_shape s) as [ds ->].
    apply normalize_plus_digits.
  - intros s. destruct (normalize_shape s) as [ds ->].
    eexists; split; [done|]. apply filter_isdigit_all.
  - apply normalize_plus_digits.
Qed.

End StringFacts.

(** ** Collections under the store operations *)

Lemma coll_set_coll (n m : string) (c : list doc) (d : database) :
  coll (set_coll n c d) m = if decide (n = m) then c else coll d m.
Proof.
  unfold coll, set_coll; simpl. rewrite lookup_insert.
  by destruct (decide (n = m)).
Qed.

Lemma coll_insert_one (n m : string) (f : gmap string value) (d : database) :
  coll (insert_one n f d).2 m
  = if decide (n = m) then coll d n ++ [Doc (next_oid d) f] else coll d m.
Proof.
  unfold insert_one; simpl. unfold coll at 1; simpl. rewrite lookup_insert.
  by destruct (decide (n = m)).
Qed.

Lemma coll_create_document (n m : string) (f : gmap string value) (now : Z)
    (d : database) :
  coll (create_document n f now d).2 m
  = if decide (n = m)
    then coll d n ++ [Doc (next_oid d)
                        (<["created_at" := VTime now]>
                           (<["updated_at" := VTime now]> f))]
    else coll d m.
Proof. unfold create_document. simpl. apply coll_insert_one. Qed.

Lemma create_document_id (n : string) (f : gmap string value) (now : Z)
    (d : database) :
  (create_document n f now d).1 = str_oid (next_oid d).
Proof. reflexivity. Qed.

Lemma find_one_split (q : query) (c : list doc) (r : doc) :
  find_one q c = Some r →
  ∃ pre post, c = pre ++ r :: post ∧ matches q r = true
              ∧ Forall (λ x, matches q x = false) pre.
Proof.
  unfold find_one. induction c as [|x c IH]; simpl; [done|].
  destruct (matches q x) eqn:E.
  - intros [= ->]. by exists [], c.
  - intros (pre & post & -> & Hr & Hpre)%IH.
    exists (x :: pre), post. split; [done|]. split; [done|]. by constructor.
Qed.

Lemma find_one_none (q : query) (c : list doc) :
  find_one q c = None ↔ Forall (λ x, matches q x = false) c.
Proof.
  unfold find_one. induction c as [|x c IH]; simpl.
  - split; [constructor|done].
  - destruct (matches q x) eqn:E.
    + split; [done|]. intros Hf. inversion Hf; congruence.
    + rewrite IH. split; [by constructor|]. intros Hf. by inversion Hf.
Qed.

(** An update without [$push] is never refused. *)
Lemma update_first_set (q : query) (l : list (string * value)) (c : list doc) :
  update_first q (Update l None) c ≠ Refused.
Proof.
  induction c as [|x c IH]; simpl; [done|].
  destruct (matches q x); [done|].
  by destruct (update_first q (Update l None) c).
Qed.

(** Where identifiers are unique, updating by the [_id] of a document of
    the collection rewrites that very document, where it stands. *)
Lemma update_first_by_id (u : update) (pre post : list doc) (r : doc) :
  NoDup (List.map _id (pre ++ r :: post)) →
  update_first (ById (_id r)) u (pre ++ r :: post)
  = match apply_update u (fields r) with
    | Some f' => Updated (pre ++ Doc (_id r) f' :: post)
    | None => Refused
    end.
Proof.
  induction pre as [|x pre IH]; simpl; intros Hnd.
  - rewrite N.eqb_refl. by destruct (apply_update u (fields r)).
  - apply NoDup_cons in Hnd as [Hx Hnd].
    destruct (N.eqb_spec (_id x) (_id r)) as [Heq|Hne].
    + exfalso. apply Hx. rewrite Heq, List.map_app. simpl.
      apply list_elem_of_In, in_or_app. right. by left.
    + rewrite (IH Hnd). by destruct (apply_update u (fields r)).
Qed.

Lemma ids_update (pre post : list doc) (r : doc) (f : gmap string value) :
  List.map _id (pre ++ Doc (_id r) f :: post) = List.map _id (pre ++ r :: post).
Proof. by rewrite !List.map_app. Qed.

(** ** Unique identifiers are kept by the store operations *)

Lemma unique_ids_coll (d : database) (name : string) :
  unique_ids d →
  NoDup (List.map _id (coll d name))
  ∧ Forall (λ x, _id x < next_oid d) (coll d name).
Proof.
  intros Hu. unfold coll. destruct (colls d !! name) as [c|] eqn:E; simpl.
  - exact (Hu name c E).
  - split; constructor.
Qed.

Lemma unique_ids_set_coll (d : database) (name : string) (c : list doc) :
  unique_ids d →
  List.map _id c = List.map _id (coll d name) →
  unique_ids (set_coll name c d).
Proof.
  intros Hu Hids. destruct (unique_ids_coll d name Hu) as [Hnd Hlt].
  unfold unique_ids, set_coll; simpl. apply map_Forall_insert_2; [|exact Hu].
  split; [by rewrite Hids|].
  apply Forall_forall. intros x Hx.
  assert (_id x ∈ List.map _id (coll d name)) as Hin.
  { rewrite <- Hids. apply list_elem_of_In, in_map. by apply list_elem_of_In. }
  apply list_elem_of_In, in_map_iff in Hin as (y & Hy & Hin).
  rewrite <- Hy. rewrite Forall_forall in Hlt. apply Hlt.
  by apply list_elem_of_In.
Qed.

Lemma unique_ids_insert_one (d : database) (name : string)
    (f : gmap string value) :
  unique_ids d → unique_ids (insert_one name f d).2.
Proof.
  intros Hu. destruct (unique_ids_coll d name Hu) as [Hnd Hlt].
  unfold unique_ids, insert_one; simpl. apply map_Forall_insert_2.
  - split.
    + rewrite List.map_app. simpl. apply NoDup_app. split; [done|].
      split; [|apply NoDup_singleton].
      intros i Hi ->%list_elem_of_singleton.
      apply list_elem_of_In, in_map_iff in Hi as (y & Hy & Hin).
      rewrite Forall_forall in Hlt. apply list_elem_of_In, Hlt in Hin. lia.
    + apply Forall_app. split.
      * eapply Forall_impl; [exact Hlt|]. simpl. intros; lia.
      * constructor; [simpl; lia|constructor].
  - intros k c Hk. destruct (Hu k c Hk) as [Hnd' Hlt']. split; [done|].
    eapply Forall_impl; [exact Hlt'|]. simpl. intros; lia.
Qed.

Lemma unique_ids_create_document (d : database) (name : string)
    (f : gmap string value) (now : Z) :
  unique_ids d → unique_ids (create_document name f now d).2.
Proof. apply unique_ids_insert_one. Qed.

(** ** The SMS gateway *)

Lemma Smsmessage_ok (to body purpose status : pystr) (sid err : option pystr) :
  one_of purpose purposes = true →
  one_of status ["queued"; "sent"; "delivered"; "failed"] = true →
  Smsmessage to body purpose status sid err
  = Returned (Smsmessage_fields to body purpose status sid err).
Proof. unfold Smsmessage. by intros -> ->. Qed.

Section Gateway.
Context `{PyUnicode} (env : Env).

Lemma send_sms_valid (to body purpose : pystr) (now : Z) (d : database) :
  one_of purpose purposes = true →
  ∃ sid status err,
    sms_outcome env (_normalize_phone to) body sid status err
    ∧ _send_sms env to body purpose now d
      = (Returned sid,
         (create_document "smsmessage"
            (Smsmessage_fields (_normalize_phone to) body purpose status
               sid err) now d).2).
Proof.
  intros Hp. unfold _send_sms.
  rewrite !(Smsmessage_ok _ _ _ _ _ _ Hp) by reflexivity.
  destruct (twilio_client env) as [client|] eqn:Hc.
  - destruct (truthy (TWILIO_FROM_NUMBER env)) eqn:Hf.
    + destruct (client _ _ _ _) as [sid|msg] eqn:Hs.
      * rewrite (Smsmessage_ok _ _ _ _ _ _ Hp) by reflexivity.
        exists (Some sid), (py "sent"), None. split; [|done].
        by eapply sms_sent.
      * rewrite (Smsmessage_ok _ _ _ _ _ _ Hp) by reflexivity.
        exists None, (py "failed"), (Some msg). split; [|done].
        by eapply sms_failed.
    + exists None, (py "queued"), None. split; [|done].
      apply sms_queued. by right.
  - exists None, (py "queued"), None. split; [|done].
    apply sms_queued. by left.
Qed.

(** A purpose outside the literal type is rejected by the schema, in the
    handler as in the [try] block: nothing is stored. *)
Lemma send_sms_invalid (to body purpose : pystr) (now : Z) (d : database) :
  one_of purpose purposes = false →
  _send_sms env to body purpose now d
  = (Raised (ValidationError "Smsmessage" "purpose"), d).
Proof.
  intros Hp. unfold _send_sms, Smsmessage. rewrite Hp. simpl.
  destruct (twilio_client env) as [client|]; [|done].
  destruct (truthy _); [|done]. by destruct (client _ _ _ _).
Qed.

(** The gateway leaves every collection but the SMS log alone. *)
Lemma send_sms_frame (to body purpose : pystr) (now : Z) (d : database)
    (name : string) :
  name ≠ "smsmessage" →
  coll (_send_sms env to body purpose now d).2 name = coll d name.
Proof.
  intros Hn. destruct (one_of purpose purposes) eqn:Hp.
  - destruct (send_sms_valid to body purpose now d Hp)
      as (sid & status & err & _ & ->).
    cbn [snd]. rewrite coll_create_document. by rewrite decide_False.
  - by rewrite send_sms_invalid.
Qed.

Lemma send_sms_unique_ids (to body purpose : pystr) (now : Z) (d : database) :
  unique_ids d → unique_ids (_send_sms env to body purpose now d).2.
Proof.
  intros Hu. destruct (one_of purpose purposes) eqn:Hp.
  - destruct (send_sms_valid to body purpose now d Hp)
      as (sid & status & err & _ & ->).
    by apply unique_ids_create_document.
  - by rewrite send_sms_invalid.
Qed.

(** C5: every call of the gateway with a purpose of the schema appends
    exactly one row to the SMS log and changes nothing else: the row is
    [sent] with the provider's sid (which is returned) when a configured
    provider accepts the message, [failed] with the error message (and
    nothing returned) when the send raises, and [queued] (nothing
    returned) when no provider is configured. *)
Theorem send_sms_one_row (to body purpose : pystr) (now : Z) (d : database) :
  one_of purpose purposes = true →
  ∃ sid status err row,
    sms_outcome env (_normalize_phone to) body sid status err
    ∧ (_send_sms env to body purpose now d).1 = Returned sid
    ∧ fields row !! "status" = Some (VStr status)
    ∧ fields row !! "provider_message_sid" = Some (opt_str sid)
    ∧ fields row !! "error_message" = Some (opt_str err)
    ∧ fields row !! "to" = Some (VStr (_normalize_phone to))
    ∧ _id row = next_oid d
    ∧ ∀ name,
        coll (_send_sms env to body purpose now d).2 name
        = if decide (name = "smsmessage") then coll d name ++ [row]
          else coll d name.
Proof.
  intros Hp.
  destruct (send_sms_valid to body purpose now d Hp)
    as (sid & status & err & Hout & ->).
  exists sid, status, err.
  exists (Doc (next_oid d)
            (<["created_at" := VTime now]>
               (<["updated_at" := VTime now]>
                  (Smsmessage_fields (_normalize_phone to) body purpose
                     status sid err)))).
  split; [exact Hout|]. split; [done|].
  do 5 (split; [done|]).
  intros name. cbn [snd]. rewrite coll_create_document.
  destruct (decide ("smsmessage" = name)) as [<-|Hn].
  - by rewrite decide_True.
  - by rewrite decide_False.
Qed.

End Gateway.

(** The run of the gateway on the sample store when the provider is down:
    nothing is returned and one [failed] row is logged. *)
Lemma send_sms_one_row_witness :
  one_of (py "verify") purposes = true
  ∧ ∃ sid row,
      (@_send_sms ascii_only failing_provider (py "555-000-1111")
         (py "hello") (py "verify") 7 sample_db).1 = Returned sid
      ∧ coll (@_send_sms ascii_only failing_provider (py "555-000-1111")
                (py "hello") (py "verify") 7 sample_db).2 "smsmessage"
        = [row].
Proof.
  split; [reflexivity|].
  destruct (@send_sms_one_row ascii_only failing_provider
              (py "555-000-1111") (py "hello") (py "verify") 7 sample_db
              eq_refl)
    as (sid & status & err & row & _ & Hret & _ & _ & _ & _ & _ & Hcoll).
  exists sid, row. split; [exact Hret|]. exact (Hcoll "smsmessage").
Defined.

(** ** Updates that only [$set] *)

Lemma set_rel_refl (l : list (string * value)) (c : list doc) :
  Forall2 (set_rel l) c c.
Proof.
  induction c as [|x c IH]; [constructor|].
  constructor; [unfold set_rel; auto|done].
Qed.

Lemma set_rel_ids (l : list (string * value)) (c c' : list doc) :
  Forall2 (set_rel l) c c' → List.map _id c' = List.map _id c.
Proof. induction 1 as [|x x' c c' [Hid _] _ IH]; simpl; [done|]. by f_equal. Qed.

Lemma update_first_pointwise (q : query) (l : list (string * value))
    (c : list doc) :
  match update_first q (Update l None) c with
  | Updated c' => Forall2 (set_rel l) c c'
  | Refused => False
  | NoMatch => True
  end.
Proof.
  induction c as [|x c IH]; simpl; [done|].
  destruct (matches q x).
  - constructor; [unfold set_rel; auto|apply set_rel_refl].
  - destruct (update_first q (Update l None) c); [done|done|].
    constructor; [unfold set_rel; auto|done].
Qed.

Lemma update_one_set (name : string) (q : query) (l : list (string * value))
    (d : database) :
  ∃ d1, update_one name q (Update l None) false d = Some d1
        ∧ next_oid d1 = next_oid d
        ∧ Forall2 (set_rel l) (coll d name) (coll d1 name)
        ∧ (∀ m, m ≠ name → coll d1 m = coll d m)
        ∧ (unique_ids d → unique_ids d1).
Proof.
  unfold update_one.
  pose proof (update_first_pointwise q l (coll d name)) as Hc.
  destruct (update_first q (Update l None) (coll d name)) as [| |c].
  - exists d. split; [done|]. split; [done|]. split; [apply set_rel_refl|].
    by split.
  - done.
  - exists (set_coll name c d). split; [done|]. split; [done|].
    split; [|split].
    + rewrite coll_set_coll. by rewrite decide_True.
    + intros m Hm. rewrite coll_set_coll. by rewrite decide_False.
    + intros Hu. apply unique_ids_set_coll; [done|]. by apply (set_rel_ids l).
Qed.

(** With unique identifiers, a [$set] by the [_id] of a stored document
    rewrites exactly that document. *)
Lemma update_one_by_id (name : string) (l : list (string * value))
    (d : database) (pre post : list doc) (r : doc) :
  unique_ids d →
  coll d name = pre ++ r :: post →
  update_one name (ById (_id r)) (Update l None) false d
  = Some (set_coll name
            (pre ++ Doc (_id r) (set_fields l (fields r)) :: post) d).
Proof.
  intros Hu Hc. unfold update_one. rewrite Hc.
  rewrite update_first_by_id; [done|].
  rewrite <- Hc. apply unique_ids_coll, Hu.
Qed.

(** ** Registration and resend *)

Section Verification.
Context `{PyUnicode} (env : Env).

Lemma verify_is_purpose : one_of (py "verify") purposes = true.
Proof. reflexivity. Qed.

Lemma send_sms_verify_eq (to body : pystr) (t : Z) (d : database) :
  ∃ sid,
    _send_sms env to body (py "verify") t d
    = (Returned sid, (_send_sms env to body (py "verify") t d).2).
Proof.
  destruct (send_sms_valid env to body (py "verify") t d verify_is_purpose)
    as (sid & status & err & _ & ->).
  by exists sid.
Qed.

(** The resend steps always answer [ok]: the contact is updated, then the
    gateway runs on the updated store. *)
Lemma resend_eq (contact : doc) (phone : pystr) (ok : body) (entropy : N)
    (now now_sms : Z) (d : database) :
  ∃ d1,
    update_one "contact" (ById (_id contact))
      (Update [("verification_code", VStr (new_code entropy));
               ("updated_at", VTime now)] None) false d = Some d1
    ∧ resend env contact phone ok entropy now now_sms d
      = (Returned ok,
         Some (_send_sms env phone
                 (py "Anomaly verification code: " ++ new_code entropy)
                 (py "verify") now_sms d1).2).
Proof.
  unfold resend.
  destruct (update_one_set "contact" (ById (_id contact))
              [("verification_code", VStr (new_code entropy));
               ("updated_at", VTime now)] d) as (d1 & -> & _).
  exists d1. split; [done|].
  destruct (send_sms_valid env phone
              (py "Anomaly verification code: " ++ new_code entropy)
              (py "verify") now_sms d1 verify_is_purpose)
    as (sid & status & err & _ & ->).
  done.
Qed.

(** C6: a failing send never reaches the caller.  The gateway returns in
    each of its three outcomes, the raising provider among them; the only
    exception that leaves it is the schema's rejection of a purpose outside
    its literal type, which the routes never pass.  The answer of
    [register_contact] and of [send_verification] is fixed by the request
    and the contacts alone, whatever the provider does: the success body
    whenever the request gets as far as the send. *)
Theorem sms_failure_absorbed (payload : RegistrationRequest.t)
    (resend_payload : VerifySendRequest.t) (entropy : N) (now now_sms : Z)
    (d : database) :
  (∀ to body purpose t d0,
      (∃ sid status err,
          sms_outcome env (_normalize_phone to) body sid status err
          ∧ (_send_sms env to body purpose t d0).1 = Returned sid)
      ∨ (one_of purpose purposes = false
         ∧ _send_sms env to body purpose t d0
           = (Raised (ValidationError "Smsmessage" "purpose"), d0)))
  ∧ one_of (py "verify") purposes = true
  ∧ (register_contact env payload entropy now now_sms (Some d)).1
    = (let phone := _normalize_phone (RegistrationRequest.phone payload) in
       match find_one (ByFields [("phone", VStr phone)]) (coll d "contact") with
       | Some existing =>
           Returned
             [("id", VStr (str_oid (_id existing))); ("phone", VStr phone);
              ("message", VStr (py "Contact exists, verification re-sent"))]
       | None =>
           match contact_of_payload payload phone (new_code entropy) with
           | Raised e => Raised e
           | Returned _ =>
               Returned
                 [("id", VStr (str_oid (next_oid d))); ("phone", VStr phone);
                  ("message",
                   VStr (py "Registration received. Verification sent."))]
           end
       end)
  ∧ (send_verification env resend_payload entropy now now_sms (Some d)).1
    = match find_one
              (ByFields
                 [("phone",
                   VStr (_normalize_phone
                           (VerifySendRequest.phone resend_payload)))])
              (coll d "contact") with
      | Some _ => Returned [("message", VStr (py "Verification sent"))]
      | None => Raised (HTTPException 404 (py "Contact not found"))
      end.
Proof.
  split; [|split; [done|split]].
  - intros to body purpose t d0. destruct (one_of purpose purposes) eqn:Hp.
    + left. destruct (send_sms_valid env to body purpose t d0 Hp)
        as (sid & status & err & Hout & ->).
      by exists sid, status, err.
    + right. split; [done|]. by apply send_sms_invalid.
  - unfold register_contact, _collection. cbv zeta.
    destruct (find_one _ (coll d "contact")) as [existing|].
    + by destruct (resend_eq existing
                     (_normalize_phone (RegistrationRequest.phone payload))
                     [("id", VStr (str_oid (_id existing)));
                      ("phone", VStr (_normalize_phone
                                        (RegistrationRequest.phone payload)));
                      ("message",
                       VStr (py "Contact exists, verification re-sent"))]
                     entropy now now_sms d) as (d1 & _ & ->).
    + destruct (contact_of_payload _ _ _) as [contact|e]; [|done].
      destruct (send_sms_valid env
                  (_normalize_phone (RegistrationRequest.phone payload))
                  (py "Anomaly verification code: " ++ new_code entropy)
                  (py "verify") now_sms
                  (create_document "contact" contact now d).2
                  verify_is_purpose)
        as (sid & status & err & _ & ->).
      done.
  - unfold send_verification, _collection. cbv zeta.
    destruct (find_one _ (coll d "contact")) as [contact|]; [|done].
    by destruct (resend_eq contact
                   (_normalize_phone (VerifySendRequest.phone resend_payload))
                   [("message", VStr (py "Verification sent"))]
                   entropy now now_sms d) as (d1 & _ & ->).
Qed.

Lemma find_one_middle (q : query) (pre post : list doc) (r : doc) :
  Forall (λ x, matches q x = false) pre →
  matches q r = true →
  find_one q (pre ++ r :: post) = Some r.
Proof.
  unfold find_one. induction 1 as [|x pre Hx _ IH]; simpl; intros Hr.
  - by rewrite Hr.
  - rewrite Hx. by apply IH.
Qed.

Lemma find_one_snoc (q : query) (c : list doc) (r : doc) :
  find_one q c = None →
  matches q r = true →
  find_one q (c ++ [r]) = Some r.
Proof. intros Hn%find_one_none Hr. by apply find_one_middle. Qed.

Lemma matches_phone (phone : pystr) (x : doc) :
  matches (ByFields [("phone", VStr phone)]) x = true
  ↔ fields x !! "phone" = Some (VStr phone).
Proof.
  simpl. rewrite andb_true_r. apply bool_decide_eq_true.
Qed.

(** The dumped contact carries the phone it was built with and starts
    unverified. *)
Lemma contact_of_payload_fields (payload : RegistrationRequest.t)
    (phone code : pystr) (c : gmap string value) :
  contact_of_payload payload phone code = Returned c →
  c !! "phone" = Some (VStr phone)
  ∧ c !! "phone_verified" = Some (VBool false)
  ∧ c !! "verification_code" = Some (VStr code).
Proof.
  unfold contact_of_payload, Contact.
  repeat match goal with |- context [if ?b then _ else _] => destruct b end;
    try done.
  all: by intros [= <-].
Qed.

(** The resend path of [register_contact], on a store with unique
    identifiers. *)
Lemma register_existing (payload : RegistrationRequest.t) (entropy : N)
    (now now_sms : Z) (d : database) (existing : doc) :
  unique_ids d →
  find_one
    (ByFields [("phone",
                VStr (_normalize_phone (RegistrationRequest.phone payload)))])
    (coll d "contact") = Some existing →
  ∃ pre post d',
    coll d "contact" = pre ++ existing :: post
    ∧ register_contact env payload entropy now now_sms (Some d)
      = (Returned
           [("id", VStr (str_oid (_id existing)));
            ("phone",
             VStr (_normalize_phone (RegistrationRequest.phone payload)));
            ("message", VStr (py "Contact exists, verification re-sent"))],
         Some d')
    ∧ coll d' "contact"
      = pre ++ Doc (_id existing)
                 (<["verification_code" := VStr (new_code entropy)]>
                    (<["updated_at" := VTime now]> (fields existing)))
            :: post
    ∧ unique_ids d'
    ∧ Forall
        (λ x, matches
                (ByFields
                   [("phone",
                     VStr (_normalize_phone
                             (RegistrationRequest.phone payload)))]) x
              = false) pre.
Proof.
  intros Hu Hf. unfold register_contact, _collection. cbv zeta. rewrite Hf.
  destruct (find_one_split _ _ _ Hf) as (pre & post & Hc & _ & Hpre).
  destruct (resend_eq existing
              (_normalize_phone (RegistrationRequest.phone payload))
              [("id", VStr (str_oid (_id existing)));
               ("phone",
                VStr (_normalize_phone (RegistrationRequest.phone payload)));
               ("message", VStr (py "Contact exists, verification re-sent"))]
              entropy now now_sms d) as (d1 & Hup & ->).
  rewrite (update_one_by_id "contact" _ d pre post existing Hu Hc) in Hup.
  injection Hup as <-.
  exists pre, post. eexists. split; [done|]. split; [done|].
  split; [|split; [|done]].
  - rewrite send_sms_frame by done. rewrite coll_set_coll.
    by rewrite decide_True.
  - apply send_sms_unique_ids. apply unique_ids_set_coll; [done|].
    rewrite Hc. apply ids_update.
Qed.

(** The creation path of [register_contact]. *)
Lemma register_new (payload : RegistrationRequest.t) (entropy : N)
    (now now_sms : Z) (d : database) (c : gmap string value) :
  unique_ids d →
  find_one
    (ByFields [("phone",
                VStr (_normalize_phone (RegistrationRequest.phone payload)))])
    (coll d "contact") = None →
  contact_of_payload payload
    (_normalize_phone (RegistrationRequest.phone payload))
    (new_code entropy) = Returned c →
  ∃ d',
    register_contact env payload entropy now now_sms (Some d)
    = (Returned
         [("id", VStr (str_oid (next_oid d)));
          ("phone",
           VStr (_normalize_phone (RegistrationRequest.phone payload)));
          ("message",
           VStr (py "Registration received. Verification sent."))],
       Some d')
    ∧ coll d' "contact"
      = coll d "contact"
        ++ [Doc (next_oid d)
              (<["created_at" := VTime now]> (<["updated_at" := VTime now]> c))]
    ∧ unique_ids d'.
Proof.
  intros Hu Hf Hc. unfold register_contact, _collection. cbv zeta.
  rewrite Hf, Hc.
  destruct (send_sms_verify_eq
              (_normalize_phone (RegistrationRequest.phone payload))
              (py "Anomaly verification code: " ++ new_code entropy)
              now_sms (create_document "contact" c now d).2) as [sid ->].
  eexists. split; [done|]. split.
  - rewrite send_sms_frame by done.
    rewrite coll_create_document. by rewrite decide_True.
  - by apply send_sms_unique_ids, unique_ids_create_document.
Qed.

(** C3: registering a phone that already has a contact answers with that
    contact's id, stores the new code and the new timestamp on that
    contact where it stands, and adds no contact; hence a second
    registration of the same phone answers with the id of the first and
    leaves the number of contacts as the first left it. *)
Theorem register_contact_idempotent (payload again : RegistrationRequest.t)
    (entropy entropy' : N) (now now_sms now' now_sms' : Z) (d : database) :
  unique_ids d →
  let phone := _normalize_phone (RegistrationRequest.phone payload) in
  (∀ existing,
     find_one (ByFields [("phone", VStr phone)]) (coll d "contact")
       = Some existing →
     ∃ pre post d',
       coll d "contact" = pre ++ existing :: post
       ∧ register_contact env payload entropy now now_sms (Some d)
         = (Returned
              [("id", VStr (str_oid (_id existing))); ("phone", VStr phone);
               ("message", VStr (py "Contact exists, verification re-sent"))],
            Some d')
       ∧ coll d' "contact"
         = pre ++ Doc (_id existing)
                    (<["verification_code" := VStr (new_code entropy)]>
                       (<["updated_at" := VTime now]> (fields existing)))
               :: post)
  ∧ (∀ b1 db1,
       _normalize_phone (RegistrationRequest.phone again) = phone →
       register_contact env payload entropy now now_sms (Some d)
         = (Returned b1, db1) →
       ∃ id msg d1 d2,
         db1 = Some d1
         ∧ b1 = [("id", VStr id); ("phone", VStr phone); ("message", VStr msg)]
         ∧ register_contact env again entropy' now' now_sms' db1
           = (Returned
                [("id", VStr id); ("phone", VStr phone);
                 ("message",
                  VStr (py "Contact exists, verification re-sent"))],
              Some d2)
         ∧ List.length (coll d2 "contact") = List.length (coll d1 "contact")).
Proof.
  intros Hu phone. split.
  - intros existing Hf.
    destruct (register_existing payload entropy now now_sms d existing Hu Hf)
      as (pre & post & d' & ? & ? & ? & _ & _).
    by exists pre, post, d'.
  - intros b1 db1 Hagain Hreg.
    assert (∃ d1 x id msg,
               db1 = Some d1 ∧ unique_ids d1
               ∧ b1 = [("id", VStr id); ("phone", VStr phone);
                       ("message", VStr msg)]
               ∧ find_one (ByFields [("phone", VStr phone)]) (coll d1 "contact")
                 = Some x
               ∧ id = str_oid (_id x)) as (d1 & x & id & msg & -> & Hu1 & -> & Hf1 & ->).
    { destruct (find_one (ByFields [("phone", VStr phone)]) (coll d "contact"))
        as [existing|] eqn:Hf.
      - destruct (register_existing payload entropy now now_sms d existing
                    Hu Hf) as (pre & post & d1 & Hc & Heq & Hc1 & Hu1 & Hpre).
        fold phone in Heq. rewrite Heq in Hreg. injection Hreg as <- <-.
        destruct (find_one_split _ _ _ Hf) as (_ & _ & _ & Hm & _).
        exists d1,
          (Doc (_id existing)
             (<["verification_code" := VStr (new_code entropy)]>
                (<["updated_at" := VTime now]> (fields existing)))).
        eexists _, _. split; [done|]. split; [done|]. split; [done|].
        split; [|done].
        rewrite Hc1.
        apply find_one_middle; [done|].
        apply matches_phone. simpl. rewrite !lookup_insert_ne by done.
        by apply matches_phone.
      - destruct (contact_of_payload payload phone (new_code entropy))
          as [c|e] eqn:Hcp.
        + destruct (register_new payload entropy now now_sms d c Hu Hf Hcp)
            as (d1 & Heq & Hc1 & Hu1).
          fold phone in Heq. rewrite Heq in Hreg. injection Hreg as <- <-.
          exists d1,
            (Doc (next_oid d)
               (<["created_at" := VTime now]>
                  (<["updated_at" := VTime now]> c))).
          eexists _, _. split; [done|]. split; [done|].
          split; [done|]. split; [|done].
          rewrite Hc1. apply find_one_snoc; [done|].
          apply matches_phone. simpl. rewrite !lookup_insert_ne by done.
          by apply (contact_of_payload_fields payload phone (new_code entropy)).
        + exfalso. revert Hreg.
          unfold register_contact, _collection. cbv zeta. fold phone.
          by rewrite Hf, Hcp. }
    rewrite <- Hagain in Hf1.
    destruct (register_existing again entropy' now' now_sms' d1 x Hu1 Hf1)
      as (pre & post & d2 & Hc & Heq & Hc2 & _).
    rewrite Hagain in Heq.
    exists (str_oid (_id x)), msg, d1, d2.
    split; [done|]. split; [done|]. split; [done|].
    rewrite Hc2, Hc. by rewrite !length_app.
Qed.

(** ** Confirmation *)

(** C2: [confirm_verification] answers 404 when no contact has the
    normalized phone, 400 when the submitted code is not the very string
    stored as [verification_code] (nothing else is consulted, the clock is
    only written), and on an exact match it sets [phone_verified], nulls
    [verification_code], stamps [updated_at] on that contact, where it
    stands, and answers with its id. *)
Theorem confirm_verification_spec (payload : VerifyConfirmRequest.t)
    (now : Z) (d : database) :
  unique_ids d →
  let q := ByFields
             [("phone",
               VStr (_normalize_phone (VerifyConfirmRequest.phone payload)))] in
  (find_one q (coll d "contact") = None →
   confirm_verification payload now (Some d)
   = (Raised (HTTPException 404 (py "Contact not found")), Some d))
  ∧ (∀ contact,
       find_one q (coll d "contact") = Some contact →
       fields contact !! "verification_code"
         ≠ Some (VStr (VerifyConfirmRequest.code payload)) →
       confirm_verification payload now (Some d)
       = (Raised (HTTPException 400 (py "Invalid verification code")),
          Some d))
  ∧ (∀ contact,
       find_one q (coll d "contact") = Some contact →
       fields contact !! "verification_code"
         = Some (VStr (VerifyConfirmRequest.code payload)) →
       ∃ pre post,
         coll d "contact" = pre ++ contact :: post
         ∧ confirm_verification payload now (Some d)
           = (Returned [("message", VStr (py "Phone verified"));
                        ("contact_id", VStr (str_oid (_id contact)))],
              Some (set_coll "contact"
                      (pre ++ Doc (_id contact)
                                (<["phone_verified" := VBool true]>
                                   (<["verification_code" := VNull]>
                                      (<["updated_at" := VTime now]>
                                         (fields contact)))) :: post) d))).
Proof.
  intros Hu q. unfold confirm_verification, _collection. fold q.
  split; [|split].
  - by intros ->.
  - intros contact -> Hne. by rewrite bool_decide_eq_false_2.
  - intros contact Hf Heq. rewrite Hf. rewrite bool_decide_eq_true_2 by done.
    destruct (find_one_split _ _ _ Hf) as (pre & post & Hc & _ & _).
    exists pre, post. split; [done|].
    by rewrite (update_one_by_id "contact" _ d pre post contact Hu Hc).
Qed.

End Verification.

Lemma sample_db_unique_ids : unique_ids sample_db.
Proof. apply (bool_decide_unpack _). vm_compute. exact I. Defined.

(** Confirming the sample contact with its stored code. *)
Lemma confirm_verification_spec_witness :
  unique_ids sample_db
  ∧ ∃ db',
      @confirm_verification ascii_only confirm_ana 30 (Some sample_db)
      = (Returned [("message", VStr (py "Phone verified"));
                   ("contact_id", VStr (str_oid 0))], db').
Proof.
  split; [exact sample_db_unique_ids|].
  destruct (@confirm_verification_spec ascii_only confirm_ana 30 sample_db
              sample_db_unique_ids) as (_ & _ & Hok).
  destruct (Hok sample_contact) as (pre & post & _ & Heq).
  - vm_compute. reflexivity.
  - vm_compute. reflexivity.
  - eexists. exact Heq.
Defined.

(** ** RSVP upsert *)

Lemma matches_rsvp_query (c e : pystr) (x : doc) :
  matches (rsvp_query c e) x = true
  ↔ fields x !! "contact_id" = Some (VStr c)
    ∧ fields x !! "event_id" = Some (VStr e).
Proof.
  simpl. rewrite andb_true_r, andb_true_iff, !bool_decide_eq_true. done.
Qed.

(** A [$set] of [status] and [updated_at] does not move a record from one
    pair to another. *)
Lemma matches_rsvp_query_set (c e : pystr) (r : doc) (s : value) (t : value) :
  matches (rsvp_query c e)
    (Doc (_id r) (<["status" := s]> (<["updated_at" := t]> (fields r))))
  = matches (rsvp_query c e) r.
Proof. simpl. by rewrite !lookup_insert_ne by done. Qed.

Lemma filter_none (q : query) (c : list doc) :
  Forall (λ x, matches q x = false) c → List.filter (matches q) c = [].
Proof.
  induction 1 as [|x c Hx _ IH]; simpl; [done|]. by rewrite Hx.
Qed.

Lemma Rsvp_fields (c e s : pystr) (f : gmap string value) :
  Rsvp c e s = Returned f →
  f !! "contact_id" = Some (VStr c) ∧ f !! "event_id" = Some (VStr e)
  ∧ f !! "status" = Some (VStr s).
Proof.
  unfold Rsvp. destruct (negb _); [done|]. by intros [= <-].
Qed.

Lemma Rsvp_valid (c e s : pystr) :
  one_of s ["yes"; "not_this_time"; "no_response"] = true →
  Rsvp c e s
  = Returned (set_fields
                [("contact_id", VStr c); ("event_id", VStr e);
                 ("status", VStr s); ("qr_code_token", VNull);
                 ("sent_gate_code", VBool false)] ∅).
Proof. unfold Rsvp. by intros ->. Qed.

(** With no match before [r] and none after it, [r] is the one match. *)
Lemma filter_middle (q : query) (pre post : list doc) (r : doc) :
  Forall (λ x, matches q x = false) pre →
  matches q r = true →
  List.filter (matches q) post = [] →
  List.filter (matches q) (pre ++ r :: post) = [r].
Proof.
  intros Hpre Hr Hpost. rewrite List.filter_app, (filter_none _ _ Hpre).
  cbn [List.filter app]. by rewrite Hr, Hpost.
Qed.

Lemma filter_after_first (q : query) (pre post : list doc) (r : doc) :
  matches q r = true →
  (List.length (List.filter (matches q) (pre ++ r :: post)) ≤ 1)%nat →
  List.filter (matches q) post = [].
Proof.
  intros Hr. rewrite List.filter_app, length_app. cbn [List.filter].
  rewrite Hr. destruct (List.filter (matches q) post); [done|simpl; lia].
Qed.

Section RsvpUpsert.
Variables (payload : RsvpRequest.t) (now : Z) (d : database).
Variables (c e : N).
Hypothesis Hu : unique_ids d.
Hypothesis Hc : ObjectId (RsvpRequest.contact_id payload) = Some c.
Hypothesis He : ObjectId (RsvpRequest.event_id payload) = Some e.
Hypothesis Hcontact : is_Some (find_one (ById c) (coll d "contact")).
Hypothesis Hevent : is_Some (find_one (ById e) (coll d "event")).

(** The update path: the first record of the pair is rewritten where it
    stands. *)
Lemma upsert_rsvp_update (pre post : list doc) (r : doc) :
  coll d "rsvp" = pre ++ r :: post →
  Forall (λ x, matches (rsvp_query (RsvpRequest.contact_id payload)
                          (RsvpRequest.event_id payload)) x = false) pre →
  matches (rsvp_query (RsvpRequest.contact_id payload)
             (RsvpRequest.event_id payload)) r = true →
  upsert_rsvp payload now (Some d)
  = (Returned [("id", VStr (str_oid (_id r)));
               ("status", VStr (RsvpRequest.status payload))],
     Some (set_coll "rsvp"
             (pre ++ Doc (_id r)
                       (<["status" := VStr (RsvpRequest.status payload)]>
                          (<["updated_at" := VTime now]> (fields r)))
                  :: post) d)).
Proof.
  intros Hr Hpre Hm. unfold upsert_rsvp, _collection. rewrite Hc, He.
  rewrite !bool_decide_eq_true_2 by done. cbn [negb].
  rewrite Hr, (find_one_middle _ _ _ _ Hpre Hm).
  by rewrite (update_one_by_id "rsvp" _ d pre post r Hu Hr).
Qed.

(** The insert path: one record is appended. *)
Lemma upsert_rsvp_insert (f : gmap string value) :
  find_one (rsvp_query (RsvpRequest.contact_id payload)
              (RsvpRequest.event_id payload)) (coll d "rsvp") = None →
  Rsvp (RsvpRequest.contact_id payload) (RsvpRequest.event_id payload)
    (RsvpRequest.status payload) = Returned f →
  upsert_rsvp payload now (Some d)
  = (Returned [("id", VStr (str_oid (next_oid d)));
               ("status", VStr (RsvpRequest.status payload))],
     Some (create_document "rsvp" f now d).2).
Proof.
  intros Hn Hf. unfold upsert_rsvp, _collection. rewrite Hc, He.
  rewrite !bool_decide_eq_true_2 by done. cbn [negb].
  by rewrite Hn, Hf.
Qed.

End RsvpUpsert.

Lemma upsert_rsvp_cases (payload : RsvpRequest.t) (now : Z) (d : database) :
  (∃ err, upsert_rsvp payload now (Some d) = (Raised err, Some d))
  ∨ ∃ c e,
      ObjectId (RsvpRequest.contact_id payload) = Some c
      ∧ ObjectId (RsvpRequest.event_id payload) = Some e
      ∧ is_Some (find_one (ById c) (coll d "contact"))
      ∧ is_Some (find_one (ById e) (coll d "event"))
      ∧ ((∃ pre r post,
            coll d "rsvp" = pre ++ r :: post
            ∧ Forall (λ x, matches (rsvp_query (RsvpRequest.contact_id payload)
                                      (RsvpRequest.event_id payload)) x = false)
                pre
            ∧ matches (rsvp_query (RsvpRequest.contact_id payload)
                         (RsvpRequest.event_id payload)) r = true)
         ∨ (∃ f,
              find_one (rsvp_query (RsvpRequest.contact_id payload)
                          (RsvpRequest.event_id payload)) (coll d "rsvp") = None
              ∧ Rsvp (RsvpRequest.contact_id payload)
                  (RsvpRequest.event_id payload) (RsvpRequest.status payload)
                = Returned f)).
Proof.
  unfold upsert_rsvp, _collection.
  destruct (ObjectId (RsvpRequest.contact_id payload)) as [c|]; [|by left; eexists].
  destruct (ObjectId (RsvpRequest.event_id payload)) as [e|]; [|by left; eexists].
  case_bool_decide as Hc; [|by left; eexists].
  case_bool_decide as He; [|by left; eexists].
  cbn [negb].
  destruct (find_one (rsvp_query _ _) (coll d "rsvp")) as [r|] eqn:Hf.
  - right. exists c, e. do 4 (split; [done|]). left.
    destruct (find_one_split _ _ _ Hf) as (pre & post & ? & ? & ?).
    by exists pre, r, post.
  - destruct (Rsvp _ _ _) as [f|err] eqn:Hr; [|by left; eexists].
    right. exists c, e. do 4 (split; [done|]). right. by exists f.
Qed.

Lemma rsvp_unique_update (d : database) (pre post : list doc) (r : doc)
    (s t : value) :
  coll d "rsvp" = pre ++ r :: post →
  rsvp_unique d →
  rsvp_unique
    (set_coll "rsvp"
       (pre ++ Doc (_id r) (<["status" := s]> (<["updated_at" := t]> (fields r)))
            :: post) d).
Proof.
  intros Hc Hr c e. specialize (Hr c e). unfold rsvps_for in *.
  rewrite coll_set_coll, decide_True by done. rewrite Hc in Hr.
  rewrite List.filter_app in *. cbn [List.filter] in *.
  rewrite matches_rsvp_query_set.
  destruct (matches (rsvp_query c e) r); by rewrite length_app in *.
Qed.

Lemma rsvp_unique_insert (d : database) (f : gmap string value) (now : Z)
    (cid eid : pystr) :
  find_one (rsvp_query cid eid) (coll d "rsvp") = None →
  f !! "contact_id" = Some (VStr cid) →
  f !! "event_id" = Some (VStr eid) →
  rsvp_unique d →
  rsvp_unique (create_document "rsvp" f now d).2.
Proof.
  intros Hn Hfc Hfe Hr c e. specialize (Hr c e). unfold rsvps_for in *.
  rewrite coll_create_document, decide_True by done.
  rewrite List.filter_app, length_app. cbn [List.filter].
  destruct (matches (rsvp_query c e) _) eqn:Hm; [|simpl; lia].
  apply matches_rsvp_query in Hm as [Hm1 Hm2]. simpl in Hm1, Hm2.
  rewrite !lookup_insert_ne in Hm1, Hm2 by done.
  assert (c = cid) as -> by congruence. assert (e = eid) as -> by congruence.
  rewrite filter_none; [simpl; lia|]. by apply find_one_none.
Qed.

Lemma rsvp_unique_frame (d d' : database) :
  coll d' "rsvp" = coll d "rsvp" → rsvp_unique d → rsvp_unique d'.
Proof. intros Hc Hr c e. unfold rsvps_for. rewrite Hc. apply Hr. Qed.

(** A [$set] of [status] and [updated_at], on whichever records, changes
    the number of records of no pair. *)
Lemma rsvps_for_set_rel (c e : pystr) (s t : value) (l l' : list doc) :
  Forall2 (set_rel [("status", s); ("updated_at", t)]) l l' →
  List.length (List.filter (matches (rsvp_query c e)) l')
  = List.length (List.filter (matches (rsvp_query c e)) l).
Proof.
  induction 1 as [|x x' l l' [_ Hf] _ IH]; [done|]. cbn [List.filter].
  assert (matches (rsvp_query c e) x' = matches (rsvp_query c e) x) as ->.
  { destruct Hf as [Hf|Hf]; simpl; rewrite Hf; [done|]. simpl.
    by rewrite !lookup_insert_ne by done. }
  destruct (matches (rsvp_query c e) x); simpl; by rewrite IH.
Qed.

(** Registering the phone of the sample contact again. *)
Lemma register_contact_idempotent_witness :
  unique_ids sample_db
  ∧ ∃ db',
      @register_contact ascii_only failing_provider ana 5 10 11 (Some sample_db)
      = (Returned
           [("id", VStr (str_oid 0)); ("phone", VStr (py "+15550001111"));
            ("message", VStr (py "Contact exists, verification re-sent"))],
         db').
Proof.
  split; [exact sample_db_unique_ids|].
  destruct (@register_contact_idempotent ascii_only failing_provider ana ana
              5 6 10 11 12 13 sample_db sample_db_unique_ids) as [Hex _].
  destruct (Hex sample_contact) as (pre & post & d' & _ & Heq & _).
  - vm_compute. reflexivity.
  - exists (Some d'). exact Heq.
Defined.

(** ** Verification codes *)

Ltac div_lia := zify; Z.to_euclidean_division_equations; lia.

Lemma dec_digits_six (fuel : nat) (n : N) :
  100000 <= n <= 999999 →
  dec_digits (6 + fuel) n []
  = [48 + n / 100000; 48 + n / 10000 mod 10; 48 + n / 1000 mod 10;
     48 + n / 100 mod 10; 48 + n / 10 mod 10; 48 + n mod 10].
Proof.
  intros Hn. cbn [dec_digits Nat.add].
  assert (n / 10 / 10 = n / 100) as E2 by (rewrite N.Div0.div_div; reflexivity).
  assert (n / 100 / 10 = n / 1000) as E3 by (rewrite N.Div0.div_div; reflexivity).
  assert (n / 1000 / 10 = n / 10000) as E4 by (rewrite N.Div0.div_div; reflexivity).
  assert (n / 10000 / 10 = n / 100000) as E5 by (rewrite N.Div0.div_div; reflexivity).
  assert (n / 100000 / 10 = 0) as E6
    by (rewrite N.Div0.div_div; apply N.div_small; lia).
  assert (n / 100000 mod 10 = n / 100000) as E7
    by (apply N.mod_small; div_lia).
  rewrite (proj2 (N.eqb_neq (n / 10) 0)) by div_lia.
  rewrite E2. rewrite (proj2 (N.eqb_neq (n / 100) 0)) by div_lia.
  rewrite E3. rewrite (proj2 (N.eqb_neq (n / 1000) 0)) by div_lia.
  rewrite E4. rewrite (proj2 (N.eqb_neq (n / 10000) 0)) by div_lia.
  rewrite E5. rewrite (proj2 (N.eqb_neq (n / 100000) 0)) by div_lia.
  rewrite E6, E7. reflexivity.
Qed.

(** A number below one million is the value of its six decimal digits. *)
Lemma six_digits_value (n : N) :
  n < 1000000 →
  n = 100000 * (n / 100000) + 10000 * (n / 10000 mod 10)
      + 1000 * (n / 1000 mod 10) + 100 * (n / 100 mod 10)
      + 10 * (n / 10 mod 10) + n mod 10.
Proof.
  intros Hn.
  pose proof (N.div_mod' n 10) as D1.
  pose proof (N.div_mod' (n / 10) 10) as D2.
  pose proof (N.div_mod' (n / 100) 10) as D3.
  pose proof (N.div_mod' (n / 1000) 10) as D4.
  pose proof (N.div_mod' (n / 10000) 10) as D5.
  rewrite N.Div0.div_div in D2, D3, D4, D5.
  change (10 * 10) with 100 in D2. change (100 * 10) with 1000 in D3.
  change (1000 * 10) with 10000 in D4. change (10000 * 10) with 100000 in D5.
  revert D1 D2 D3 D4 D5.
  generalize (n / 100000), (n / 10000 mod 10), (n / 10000), (n / 1000 mod 10),
    (n / 1000), (n / 100 mod 10), (n / 100), (n / 10 mod 10), (n / 10),
    (n mod 10).
  intros. lia.
Qed.

Lemma log2_fuel (n : N) :
  100000 <= n → ∃ fuel, S (N.to_nat (N.log2 n)) = (6 + fuel)%nat.
Proof.
  intros Hn. assert (16 <= N.log2 n).
  { change 16 with (N.log2 65536). apply N.log2_le_mono. lia. }
  exists (N.to_nat (N.log2 n) - 5)%nat. lia.
Qed.

(** The draw behind a code, as a natural number. *)
Lemma randint_code (e : N) :
  randint 100000 999999 e = Z.of_N (100000 + e mod 900000).
Proof.
  unfold randint. change (999999 - 100000 + 1)%Z with (Z.of_N 900000).
  by rewrite N2Z.inj_add, N2Z.inj_mod.
Qed.

Lemma code_number_range (e : N) : 100000 <= 100000 + e mod 900000 <= 999999.
Proof.
  pose proof (N.mod_upper_bound e 900000) as Hm.
  generalize dependent (e mod 900000). intros. lia.
Qed.

Lemma new_code_digits (e : N) :
  let n := 100000 + e mod 900000 in
  new_code e
  = [48 + n / 100000; 48 + n / 10000 mod 10; 48 + n / 1000 mod 10;
     48 + n / 100 mod 10; 48 + n / 10 mod 10; 48 + n mod 10].
Proof.
  intros n. unfold new_code. rewrite randint_code. fold n. unfold str_int.
  rewrite Zabs2N.id. replace (Z.of_N n <? 0)%Z with false by lia.
  pose proof (code_number_range e) as Hn. fold n in Hn.
  destruct (log2_fuel n) as [fuel ->]; [lia|].
  by apply dec_digits_six.
Qed.

Lemma new_code_inj (e1 e2 : N) :
  new_code e1 = new_code e2 → e1 mod 900000 = e2 mod 900000.
Proof.
  rewrite !new_code_digits. cbv zeta. intros [= H1 H2 H3 H4 H5 H6].
  pose proof (code_number_range e1) as R1.
  pose proof (code_number_range e2) as R2.
  apply (N.add_cancel_l _ _ 100000).
  rewrite (six_digits_value (100000 + e1 mod 900000)) by lia.
  rewrite (six_digits_value (100000 + e2 mod 900000)) by lia.
  apply N.add_cancel_l in H1, H2, H3, H4, H5, H6.
  by rewrite H1, H2, H3, H4, H5, H6.
Qed.

(** C8, as the code has it: a verification code is the decimal string of
    the draw, a number from 100000 to 999999; it is six ASCII digits wide
    and its first digit is never zero; each number of the range is the code
    of some draw, and draws that differ modulo 900000 give different
    codes. *)
Theorem new_code_six_digits (entropy : N) :
  new_code entropy = str_int (100000 + Z.of_N (entropy mod 900000))
  ∧ (∃ d1 d2 d3 d4 d5 d6,
       new_code entropy
       = [48 + d1; 48 + d2; 48 + d3; 48 + d4; 48 + d5; 48 + d6]
       ∧ 1 <= d1 <= 9 ∧ d2 <= 9 ∧ d3 <= 9 ∧ d4 <= 9 ∧ d5 <= 9 ∧ d6 <= 9
       ∧ 100000 * d1 + 10000 * d2 + 1000 * d3 + 100 * d4 + 10 * d5 + d6
         = 100000 + entropy mod 900000)
  ∧ (∀ other, new_code entropy = new_code other ↔
              entropy mod 900000 = other mod 900000).
Proof.
  split; [|split].
  - unfold new_code. rewrite randint_code. f_equal. lia.
  - pose proof (new_code_digits entropy) as Hd. cbv zeta in Hd.
    pose proof (code_number_range entropy) as Hr.
    set (n := 100000 + entropy mod 900000) in *.
    exists (n / 100000), (n / 10000 mod 10), (n / 1000 mod 10),
      (n / 100 mod 10), (n / 10 mod 10), (n mod 10).
    split; [exact Hd|].
    split; [div_lia|].
    do 5 (split; [pose proof (N.mod_upper_bound (n / 10000) 10);
                  pose proof (N.mod_upper_bound (n / 1000) 10);
                  pose proof (N.mod_upper_bound (n / 100) 10);
                  pose proof (N.mod_upper_bound (n / 10) 10);
                  pose proof (N.mod_upper_bound n 10); lia|]).
    symmetry. apply six_digits_value. lia.
  - intros other. split; [apply new_code_inj|].
    intros Heq. unfold new_code. by rewrite !randint_code, Heq.
Qed.

(** The six-digit string [012345] is the code of no draw. *)
Lemma leading_zero_never_issued : ¬ ∃ entropy, new_code entropy = py "012345".
Proof.
  intros [entropy Heq]. rewrite new_code_digits in Heq. cbv zeta in Heq.
  pose proof (code_number_range entropy) as Hr.
  injection Heq as H1 _.
  change (48 + (100000 + entropy mod 900000) / 100000 = 48) in H1.
  revert H1 Hr. generalize (100000 + entropy mod 900000). intros n H1 Hr.
  div_lia.
Qed.

(** ** Delivery-status callbacks *)

Lemma update_first_split (q : query) (u : update) (pre post : list doc)
    (r : doc) :
  Forall (λ x, matches q x = false) pre →
  matches q r = true →
  update_first q u (pre ++ r :: post)
  = match apply_update u (fields r) with
    | Some f' => Updated (pre ++ Doc (_id r) f' :: post)
    | None => Refused
    end.
Proof.
  induction 1 as [|x pre Hx _ IH]; simpl; intros Hr.
  - rewrite Hr. by destruct (apply_update u (fields r)).
  - rewrite Hx, (IH Hr). by destruct (apply_update u (fields r)).
Qed.

Lemma update_first_nomatch (q : query) (u : update) (c : list doc) :
  Forall (λ x, matches q x = false) c → update_first q u c = NoMatch.
Proof.
  induction 1 as [|x c Hx _ IH]; simpl; [done|]. by rewrite Hx, IH.
Qed.

(** The update of a callback on a row whose [logs] is an array or missing. *)
Lemma apply_status_update (s t : value) (e : log_entry) (x : doc) :
  array_or_missing (fields x !! "logs") = true →
  apply_update (Update [("status", s); ("updated_at", t)] (Some ("logs", e)))
    (fields x)
  = Some (<["logs" := VLogs (logs_of x ++ [e])]>
            (<["status" := s]> (<["updated_at" := t]> (fields x)))).
Proof.
  intros Hl. unfold apply_update, logs_of. simpl.
  rewrite !lookup_insert_ne by done.
  destruct (fields x !! "logs") as [[| | | |l]|]; done.
Qed.

Lemma logs_ok_elem (d : database) (x : doc) :
  logs_ok d → x ∈ coll d "smsmessage" →
  array_or_missing (fields x !! "logs") = true.
Proof. intros Hl Hx. unfold logs_ok in Hl. rewrite Forall_forall in Hl. auto. Qed.

(** The store refuses the [$push] of a callback on a row whose [logs] is
    there and is no array. *)
Lemma apply_status_update_refused (s t : value) (e : log_entry) (x : doc) :
  array_or_missing (fields x !! "logs") = false →
  apply_update (Update [("status", s); ("updated_at", t)] (Some ("logs", e)))
    (fields x)
  = None.
Proof.
  intros Hl. unfold apply_update. simpl.
  rewrite !lookup_insert_ne by done.
  destruct (fields x !! "logs") as [[| | | |l]|]; done.
Qed.

(** C7, case by case.  A callback without a [MessageSid] is acknowledged
    and changes nothing, with or without a store.  A callback with one is
    answered 500 by the collection guard when there is no store.  On a
    store, the first row with that sid gets the status, the timestamp and
    one more log entry, where it stands, and the callback is acknowledged,
    when the [logs] of that row is an array or is missing; when it holds
    anything else, the store refuses the update, the callback fails and
    nothing changes.  When no row has the sid, one new row is appended with
    the sid, the status, the timestamp and that single log entry, and the
    callback is acknowledged. *)
Theorem sms_status_webhook_spec (form : StatusForm.t) (now_set now_log : Z)
    (d : database) :
  let entry := LogEntry (StatusForm.MessageStatus form) now_log
                 (StatusForm.To form) (StatusForm.ErrorCode form) in
  let stamp f :=
    <["status" := opt_str (StatusForm.MessageStatus form)]>
      (<["updated_at" := VTime now_set]> f) in
  (truthy (StatusForm.MessageSid form) = false →
   ∀ db, sms_status_webhook form now_set now_log db
         = (Returned [("ok", VBool true)], db))
  ∧ (truthy (StatusForm.MessageSid form) = true →
     sms_status_webhook form now_set now_log None
     = (Raised (HTTPException 500 (py "Database not available")), None))
  ∧ (∀ sid,
       StatusForm.MessageSid form = Some sid → sid ≠ [] →
       let q := ByFields [("provider_message_sid", VStr sid)] in
       (∀ row,
          find_one q (coll d "smsmessage") = Some row →
          ∃ pre post,
            coll d "smsmessage" = pre ++ row :: post
            ∧ Forall (λ x, matches q x = false) pre
            ∧ sms_status_webhook form now_set now_log (Some d)
              = if array_or_missing (fields row !! "logs")
                then
                  (Returned [("ok", VBool true)],
                   Some (set_coll "smsmessage"
                           (pre ++ Doc (_id row)
                                     (<["logs" :=
                                          VLogs (logs_of row ++ [entry])]>
                                        (stamp (fields row))) :: post) d))
                else (Raised WriteError, Some d))
       ∧ (find_one q (coll d "smsmessage") = None →
          sms_status_webhook form now_set now_log (Some d)
          = (Returned [("ok", VBool true)],
             Some (insert_one "smsmessage"
                     (<["logs" := VLogs [entry]]>
                        (stamp (<["provider_message_sid" := VStr sid]> ∅)))
                     d).2))).
Proof.
  intros entry stamp. split; [|split].
  - intros Hsid db. unfold sms_status_webhook. by rewrite Hsid.
  - intros Hsid. unfold sms_status_webhook. by rewrite Hsid.
  - intros sid Hsid Hne q. unfold sms_status_webhook, _collection.
    rewrite Hsid. destruct sid as [|ch sid]; [done|]. cbn [truthy negb opt_str].
    fold q. split.
    + intros row Hf.
      destruct (find_one_split _ _ _ Hf) as (pre & post & Hc & Hm & Hpre).
      exists pre, post. split; [done|]. split; [done|].
      unfold update_one. rewrite Hc, (update_first_split _ _ _ _ _ Hpre Hm).
      destruct (array_or_missing (fields row !! "logs")) eqn:Hl.
      * by rewrite apply_status_update.
      * by rewrite apply_status_update_refused.
    + intros Hn%find_one_none. unfold update_one.
      by rewrite (update_first_nomatch _ _ _ Hn).
Qed.

(** Without a store, a callback that carries a sid is answered with the
    error of the collection guard, not with an acknowledgement. *)
Lemma webhook_without_store :
  sms_status_webhook delivered_form 1 2 None
  = (Raised (HTTPException 500 (py "Database not available")), None).
Proof. reflexivity. Qed.

(** On a store, a callback for a row whose [logs] is null is not
    acknowledged either. *)
Example webhook_on_null_logs :
  sms_status_webhook delivered_form 1 2 (Some null_logs_db)
  = (Raised WriteError, Some null_logs_db).
Proof. vm_compute. reflexivity. Qed.

(** The callback for the row of [sent_db]: the row is rewritten where it
    stands, from [sent] to [delivered], with the one log entry of the
    callback, and no row is added. *)
Lemma sms_status_webhook_spec_witness :
  ∃ row d',
    coll sent_db "smsmessage" = [row]
    ∧ fields row !! "provider_message_sid" = Some (VStr (py "SM1"))
    ∧ fields row !! "status" = Some (VStr (py "sent"))
    ∧ fields row !! "logs" = Some (VLogs [])
    ∧ sms_status_webhook delivered_form 1 2 (Some sent_db)
      = (Returned [("ok", VBool true)], Some d')
    ∧ coll d' "smsmessage"
      = [Doc (_id row)
           (<["logs" := VLogs [LogEntry (Some (py "delivered")) 2
                                 (Some (py "+15550001111")) None]]>
              (<["status" := VStr (py "delivered")]>
                 (<["updated_at" := VTime 1]> (fields row))))].
Proof.
  destruct (sms_status_webhook_spec delivered_form 1 2 sent_db)
    as (_ & _ & Hsid).
  destruct (Hsid (py "SM1")) as [Hrow _]; [reflexivity|discriminate|].
  destruct (coll sent_db "smsmessage") as [|row rest] eqn:Hc;
    [by vm_compute in Hc|].
  assert (rest = []) as -> by (vm_compute in Hc; congruence).
  assert (fields row !! "provider_message_sid" = Some (VStr (py "SM1")))
    as Hs by (vm_compute in Hc; injection Hc as <-; reflexivity).
  assert (fields row !! "status" = Some (VStr (py "sent")))
    as Hst by (vm_compute in Hc; injection Hc as <-; reflexivity).
  assert (fields row !! "logs" = Some (VLogs []))
    as Hl by (vm_compute in Hc; injection Hc as <-; reflexivity).
  destruct (Hrow row) as (pre & post & Hsplit & Hpre & Hup).
  { unfold find_one. cbn [List.find matches forallb fst snd].
    by rewrite Hs, bool_decide_eq_true_2. }
  assert (pre = [] ∧ post = []) as [-> ->].
  { destruct pre as [|x pre]; [split; [done|simpl in Hsplit; congruence]|].
    destruct pre; discriminate. }
  rewrite Hl in Hup. cbn [array_or_missing] in Hup.
  eexists row, _. do 4 (split; [done|]). split; [exact Hup|].
  rewrite coll_set_coll, decide_True by done.
  unfold logs_of. by rewrite Hl.
Defined.

(** ** What every operation keeps *)

Lemma contacts_changed_refl (R : doc → doc → Prop) (c : list doc) :
  (∀ x, R x x) → contacts_changed R c c.
Proof.
  intros HR. exists c, []. split; [by rewrite app_nil_r|].
  induction c; constructor; auto.
Qed.

Lemma contacts_changed_eq (R : doc → doc → Prop) (c c' : list doc) :
  (∀ x, R x x) → c' = c → contacts_changed R c c'.
Proof. intros HR ->. by apply contacts_changed_refl. Qed.

Lemma contacts_changed_snoc (R : doc → doc → Prop) (c : list doc) (x : doc) :
  (∀ x, R x x) → contacts_changed R c (c ++ [x]).
Proof.
  intros HR. exists c, [x]. split; [done|]. induction c; constructor; auto.
Qed.

Lemma contacts_changed_impl (R R' : doc → doc → Prop) (c c' : list doc) :
  (∀ x x', R x x' → R' x x') →
  contacts_changed R c c' → contacts_changed R' c c'.
Proof.
  intros HR (c1 & extra & -> & Hf). exists c1, extra. split; [done|].
  eapply Forall2_impl; eauto.
Qed.

Lemma contacts_changed_trans (R : doc → doc → Prop) (c1 c2 c3 : list doc) :
  (∀ x, R x x) →
  (∀ x y z, R x y → R y z → R x z) →
  contacts_changed R c1 c2 → contacts_changed R c2 c3 →
  contacts_changed R c1 c3.
Proof.
  intros Hrefl Htrans (a & ea & -> & Ha) (b & eb & -> & Hb).
  apply Forall2_app_inv_l in Hb as (b1 & b2 & Hb1 & Hb2 & ->).
  exists b1, (b2 ++ eb). split; [by rewrite app_assoc|].
  clear Hb2. revert b1 Hb1.
  induction Ha as [|x y c a Hxy _ IH]; intros b1 Hb1.
  - inversion Hb1. constructor.
  - inversion Hb1 as [|? z ? b1' Hyz Hrest]; subst.
    constructor; [by eapply Htrans|by apply IH].
Qed.

Lemma logs_ok_frame (d d' : database) :
  coll d' "smsmessage" = coll d "smsmessage" → logs_ok d → logs_ok d'.
Proof. unfold logs_ok. by intros ->. Qed.

Lemma apply_update_push_logs (l : list (string * value)) (k : string)
    (e : log_entry) (f f' : gmap string value) :
  apply_update (Update l (Some (k, e))) f = Some f' →
  array_or_missing (f' !! k) = true.
Proof.
  unfold apply_update. simpl.
  destruct (set_fields l f !! k) as [[| | | |old]|]; intros [= <-];
    by rewrite lookup_insert_eq.
Qed.

Lemma update_first_updated (q : query) (u : update) (c c' : list doc) :
  update_first q u c = Updated c' →
  Forall2 (λ x x', _id x' = _id x
                   ∧ (x' = x ∨ apply_update u (fields x) = Some (fields x')))
    c c'.
Proof.
  revert c'. induction c as [|x c IH]; simpl; intros c'; [done|].
  destruct (matches q x).
  - destruct (apply_update u (fields x)) as [f'|] eqn:Ha; [|done].
    intros [= <-]. constructor; [by split; [|right]|].
    clear. induction c; constructor; auto.
  - destruct (update_first q u c) as [| |c0]; [done|done|].
    intros [= <-]. constructor; [by split; [|left]|]. by apply IH.
Qed.

(** An upsert that pushes on [logs] keeps identifiers unique and the
    [logs] fields arrays, and touches no other collection. *)
Lemma update_one_push_effect (fl l : list (string * value)) (e : log_entry)
    (d d1 : database) :
  update_one "smsmessage" (ByFields fl) (Update l (Some ("logs", e))) true d
  = Some d1 →
  (∀ m, m ≠ "smsmessage" → coll d1 m = coll d m)
  ∧ (unique_ids d → unique_ids d1)
  ∧ (logs_ok d → logs_ok d1).
Proof.
  unfold update_one.
  destruct (update_first _ _ (coll d "smsmessage")) as [| |c'] eqn:Hup.
  - destruct (apply_update _ _) as [f|] eqn:Ha; [|done]. intros Heq.
    assert (d1 = (insert_one "smsmessage" f d).2) as -> by congruence.
    clear Heq. split; [|split].
    + intros m Hm. rewrite coll_insert_one. by rewrite decide_False.
    + apply unique_ids_insert_one.
    + intros Hl. unfold logs_ok. rewrite coll_insert_one, decide_True by done.
      apply Forall_app. split; [done|]. constructor; [|constructor].
      simpl. by eapply apply_update_push_logs.
  - done.
  - intros Heq.
    assert (d1 = set_coll "smsmessage" c' d) as -> by congruence.
    clear Heq. apply update_first_updated in Hup.
    split; [|split].
    + intros m Hm. rewrite coll_set_coll. by rewrite decide_False.
    + intros Hu. apply unique_ids_set_coll; [done|].
      clear -Hup. induction Hup as [|x x' c c' [Hid _] _ IH]; simpl; [done|].
      by f_equal.
    + intros Hl. unfold logs_ok in *. rewrite coll_set_coll, decide_True by done.
      clear -Hup Hl. induction Hup as [|x x' c c' [_ Hx] _ IH]; [done|].
      inversion Hl; subst. constructor; [|by apply IH].
      destruct Hx as [->|Hx]; [done|]. by eapply apply_update_push_logs.
Qed.

Lemma contact_change_refl (o : operation) (x : doc) : contact_change o x x.
Proof. split; [done|]. destruct o; auto. Qed.

Lemma contact_change_keeps (o : operation) (x x' : doc) :
  contact_change o x x' → keeps_verified x x'.
Proof.
  intros [Hid Hc]. split; [done|]. unfold verified. intros Hv.
  destruct o; try (by rewrite Hc); try (by rewrite Hc by done).
  by destruct Hc as [->|Hc].
Qed.

Lemma preserved_refl (o : operation) (d : database) : preserved o d d.
Proof.
  split; [|done]. apply contacts_changed_refl, contact_change_refl.
Qed.

Section Preservation.
Context `{PyUnicode} (env : Env).

Lemma send_sms_logs_ok (to body purpose : pystr) (now : Z) (d : database) :
  logs_ok d → logs_ok (_send_sms env to body purpose now d).2.
Proof.
  intros Hl. destruct (one_of purpose purposes) eqn:Hp.
  - destruct (send_sms_valid env to body purpose now d Hp)
      as (sid & status & err & _ & ->).
    cbn [snd]. unfold logs_ok.
    rewrite coll_create_document, decide_True by done.
    apply Forall_app. split; [done|]. by constructor.
  - by rewrite send_sms_invalid.
Qed.

(** The gateway may follow any step: it leaves the contacts alone. *)
Lemma preserved_then_send (o : operation) (d d1 : database)
    (to body purpose : pystr) (now : Z) :
  preserved o d d1 →
  preserved o d (_send_sms env to body purpose now d1).2.
Proof.
  intros (Hc & Hu & Hl & Hr). split; [|split; [|split]].
  - by rewrite send_sms_frame.
  - intros ?. by apply send_sms_unique_ids, Hu.
  - intros ?. by apply send_sms_logs_ok, Hl.
  - intros ?. eapply rsvp_unique_frame; [|by apply Hr].
    by rewrite send_sms_frame.
Qed.

Lemma preserved_update_contact (o : operation) (q : query)
    (l : list (string * value)) (d d1 : database) :
  update_one "contact" q (Update l None) false d = Some d1 →
  (∀ x x', set_rel l x x' → contact_change o x x') →
  preserved o d d1.
Proof.
  intros Hup Hrel.
  destruct (update_one_set "contact" q l d) as (d1' & Hup' & _ & Hf & Hm & Hu).
  rewrite Hup in Hup'. injection Hup' as <-.
  split; [|split; [|split]].
  - exists (coll d1 "contact"), []. split; [by rewrite app_nil_r|].
    eapply Forall2_impl; eauto.
  - done.
  - apply logs_ok_frame. by apply Hm.
  - apply rsvp_unique_frame. by apply Hm.
Qed.

Lemma preserved_update_rsvp (o : operation) (q : query) (s t : value)
    (d d1 : database) :
  update_one "rsvp" q (Update [("status", s); ("updated_at", t)] None) false d
  = Some d1 →
  preserved o d d1.
Proof.
  intros Hup.
  destruct (update_one_set "rsvp" q [("status", s); ("updated_at", t)] d)
    as (d1' & Hup' & _ & Hf & Hm & Hu).
  rewrite Hup in Hup'. injection Hup' as <-.
  split; [|split; [|split]].
  - apply contacts_changed_eq; [apply contact_change_refl|]. by apply Hm.
  - done.
  - apply logs_ok_frame. by apply Hm.
  - intros Hr c e. unfold rsvps_for.
    rewrite (rsvps_for_set_rel c e s t _ _ Hf). apply Hr.
Qed.

Lemma preserved_create_contact (o : operation) (f : gmap string value)
    (now : Z) (d : database) :
  preserved o d (create_document "contact" f now d).2.
Proof.
  split; [|split; [|split]].
  - rewrite coll_create_document, decide_True by done.
    apply contacts_changed_snoc, contact_change_refl.
  - apply unique_ids_create_document.
  - apply logs_ok_frame. rewrite coll_create_document. by rewrite decide_False.
  - apply rsvp_unique_frame. rewrite coll_create_document.
    by rewrite decide_False.
Qed.

Lemma preserved_create_rsvp (o : operation) (cid eid status : pystr)
    (f : gmap string value) (now : Z) (d : database) :
  find_one (rsvp_query cid eid) (coll d "rsvp") = None →
  Rsvp cid eid status = Returned f →
  preserved o d (create_document "rsvp" f now d).2.
Proof.
  intros Hn Hf. destruct (Rsvp_fields _ _ _ _ Hf) as (Hfc & Hfe & _).
  split; [|split; [|split]].
  - rewrite coll_create_document, decide_False by done.
    apply contacts_changed_refl, contact_change_refl.
  - apply unique_ids_create_document.
  - apply logs_ok_frame. rewrite coll_create_document. by rewrite decide_False.
  - by apply (rsvp_unique_insert d f now cid eid).
Qed.

Lemma preserved_resend (o : operation) (contact : doc) (phone : pystr)
    (ok : body) (entropy : N) (now now_sms : Z) (d : database) :
  (∀ x x',
     set_rel [("verification_code", VStr (new_code entropy));
              ("updated_at", VTime now)] x x' →
     contact_change o x x') →
  ∃ d', (resend env contact phone ok entropy now now_sms d).2 = Some d'
        ∧ preserved o d d'.
Proof.
  intros Hrel.
  destruct (resend_eq env contact phone ok entropy now now_sms d)
    as (d1 & Hup & ->).
  eexists. split; [done|].
  apply preserved_then_send. by eapply preserved_update_contact.
Qed.

Lemma resend_change (o : operation) (entropy : N) (now : Z) (x x' : doc) :
  (∃ p e t t', o = Register p e t t') ∨ (∃ p e t t', o = SendVerification p e t t') →
  set_rel [("verification_code", VStr (new_code entropy));
           ("updated_at", VTime now)] x x' →
  contact_change o x x'.
Proof.
  intros Ho [Hid Hf]. split; [done|].
  assert (∀ k, k ≠ "verification_code" → k ≠ "updated_at" →
               fields x' !! k = fields x !! k) as Hk.
  { intros k Hk1 Hk2. destruct Hf as [->| ->]; [done|].
    simpl. by rewrite !lookup_insert_ne. }
  by destruct Ho as [(? & ? & ? & ? & ->)|(? & ? & ? & ? & ->)].
Qed.

(** Every operation runs on an available store and keeps what [preserved]
    lists. *)
Lemma step_preserved (o : operation) (d : database) :
  ∃ d', step env o (Some d) = Some d' ∧ preserved o d d'.
Proof.
  destruct o as [p e t t'|p e t t'|p t|p t|f t t'|to body purpose t];
    unfold step.
  - unfold register_contact, _collection. cbv zeta.
    destruct (find_one _ (coll d "contact")) as [existing|].
    + apply preserved_resend. intros x x'. apply resend_change.
      left. by eexists _, _, _, _.
    + destruct (contact_of_payload _ _ _) as [c|err].
      * destruct (send_sms_verify_eq env
                    (_normalize_phone (RegistrationRequest.phone p))
                    (py "Anomaly verification code: " ++ new_code e) t'
                    (create_document "contact" c t d).2) as [sid ->].
        eexists. split; [done|].
        apply preserved_then_send, preserved_create_contact.
      * exists d. split; [done|]. apply preserved_refl.
  - unfold send_verification, _collection. cbv zeta.
    destruct (find_one _ (coll d "contact")) as [contact|].
    + apply preserved_resend. intros x x'. apply resend_change.
      right. by eexists _, _, _, _.
    + exists d. split; [done|]. apply preserved_refl.
  - unfold confirm_verification, _collection. cbv zeta.
    destruct (find_one _ (coll d "contact")) as [contact|];
      [|exists d; split; [done|apply preserved_refl]].
    case_bool_decide; cbn [negb];
      [|exists d; split; [done|apply preserved_refl]].
    destruct (update_one "contact" _ _ false d) as [d1|] eqn:Hup;
      [|exists d; split; [done|apply preserved_refl]].
    exists d1. split; [done|]. eapply preserved_update_contact; [exact Hup|].
    intros x x' [Hid Hf]. split; [done|]. destruct Hf as [->| ->]; [by left|].
    right. simpl. by rewrite lookup_insert_eq.
  - unfold upsert_rsvp, _collection.
    destruct (ObjectId _) as [c|]; [|exists d; split; [done|apply preserved_refl]].
    destruct (ObjectId _) as [ev|]; [|exists d; split; [done|apply preserved_refl]].
    case_bool_decide; cbn [negb];
      [|exists d; split; [done|apply preserved_refl]].
    case_bool_decide; cbn [negb];
      [|exists d; split; [done|apply preserved_refl]].
    destruct (find_one _ (coll d "rsvp")) as [r|] eqn:Hf.
    + destruct (update_one "rsvp" _ _ false d) as [d1|] eqn:Hup;
        [|exists d; split; [done|apply preserved_refl]].
      exists d1. split; [done|]. by eapply preserved_update_rsvp.
    + destruct (Rsvp _ _ _) as [rsvp|err] eqn:Hr;
        [|exists d; split; [done|apply preserved_refl]].
      eexists. split; [done|]. by eapply preserved_create_rsvp.
  - unfold sms_status_webhook, _collection.
    destruct (truthy _); cbn [negb];
      [|exists d; split; [done|apply preserved_refl]].
    destruct (update_one "smsmessage" _ _ true d) as [d1|] eqn:Hup;
      [|exists d; split; [done|apply preserved_refl]].
    exists d1. split; [done|].
    destruct (update_one_push_effect _ _ _ _ _ Hup) as (Hm & Hu & Hl).
    split; [|split; [done|split; [done|]]].
    + apply contacts_changed_eq; [apply contact_change_refl|]. by apply Hm.
    + apply rsvp_unique_frame. by apply Hm.
  - eexists. split; [done|]. apply preserved_then_send, preserved_refl.
Qed.

Lemma keeps_verified_refl (x : doc) : keeps_verified x x.
Proof. by split. Qed.

Lemma keeps_verified_trans (x y z : doc) :
  keeps_verified x y → keeps_verified y z → keeps_verified x z.
Proof. intros [H1 H2] [H3 H4]. split; [congruence|auto]. Qed.

(** Runs never lose the store, the contacts they started with, unique
    identifiers, well-formed [logs], or the bound of one RSVP per pair. *)
Lemma run_preserved (ops : list operation) (d : database) :
  ∃ d', run env ops (Some d) = Some d'
        ∧ contacts_changed keeps_verified
            (coll d "contact") (coll d' "contact")
        ∧ (unique_ids d → unique_ids d')
        ∧ (logs_ok d → logs_ok d')
        ∧ (rsvp_unique d → rsvp_unique d').
Proof.
  revert d. induction ops as [|o ops IH]; intros d.
  - exists d. split; [done|]. split; [|done].
    apply contacts_changed_refl, keeps_verified_refl.
  - destruct (step_preserved o d) as (d1 & Hstep & Hc & Hu & Hl & Hr).
    destruct (IH d1) as (d' & Hrun & Hc' & Hu' & Hl' & Hr').
    exists d'. split; [|split; [|split; [|split]]].
    + unfold run in *. simpl. by rewrite Hstep.
    + eapply contacts_changed_trans;
        [apply keeps_verified_refl|apply keeps_verified_trans| |exact Hc'].
      eapply contacts_changed_impl; [apply contact_change_keeps|exact Hc].
    + auto.
    + auto.
    + auto.
Qed.

(** C9: along any run of the operations a verified contact stays where it
    is, keeps its identifier and stays verified; and each single operation
    changes the stored contacts at most as [contact_change] allows: the
    resend paths of [register_contact] and [send_verification] leave every
    field but [verification_code] and [updated_at] as it was, a
    confirmation leaves a contact alone or marks it verified, and no other
    operation touches a contact. *)
Theorem verified_stays_verified (ops : list operation) (d : database)
    (i : nat) (x : doc) :
  coll d "contact" !! i = Some x →
  verified x →
  (∃ d' x',
     run env ops (Some d) = Some d'
     ∧ coll d' "contact" !! i = Some x'
     ∧ _id x' = _id x
     ∧ verified x')
  ∧ (∀ o, ∃ d',
       step env o (Some d) = Some d'
       ∧ contacts_changed (contact_change o)
           (coll d "contact") (coll d' "contact")).
Proof.
  intros Hx Hv. split.
  - destruct (run_preserved ops d) as (d' & Hrun & (c1 & extra & Hc & Hf) & _).
    destruct (Forall2_lookup_l _ _ _ _ _ Hf Hx) as (x' & Hx' & Hid & Hk).
    exists d', x'. split; [done|]. split; [|by auto].
    rewrite Hc. by apply lookup_app_l_Some.
  - intros o. destruct (step_preserved o d) as (d' & Hstep & Hc & _).
    by exists d'.
Qed.

(** C1: from a store with unique identifiers and at most one RSVP per pair,
    every run of the operations, repeated upserts among them, ends with at
    most one RSVP per pair; so does a single [upsert_rsvp], whatever it
    answers.  And the upsert does answer with a record: when both ids are
    read, the contact and the event are stored, and the pair has a record
    or the status is one of the schema, it returns the id and the status,
    and the store then holds exactly one record for the pair, carrying the
    pair and the status: the first record of the pair rewritten where it
    stood, or a new record appended under a fresh id; the other collections
    are as they were.  A further upsert of the same pair answers with the
    same record id and rewrites the status and the update timestamp of that
    record where it stands: the pair still has exactly one record and no
    record is added, so that the same status leaves the status as it
    was. *)
Theorem upsert_rsvp_at_most_one (payload again : RsvpRequest.t) (now now' : Z)
    (d : database) :
  unique_ids d →
  rsvp_unique d →
  (∀ ops, ∃ d'', run env ops (Some d) = Some d'' ∧ rsvp_unique d'')
  ∧ (∃ d',
    (upsert_rsvp payload now (Some d)).2 = Some d'
    ∧ unique_ids d'
    ∧ rsvp_unique d'
    ∧ (RsvpRequest.contact_id again = RsvpRequest.contact_id payload →
       RsvpRequest.event_id again = RsvpRequest.event_id payload →
       ∀ b, (upsert_rsvp payload now (Some d)).1 = Returned b →
         ∃ pre r post,
           coll d' "rsvp" = pre ++ r :: post
           ∧ b = [("id", VStr (str_oid (_id r)));
                  ("status", VStr (RsvpRequest.status payload))]
           ∧ fields r !! "status" = Some (VStr (RsvpRequest.status payload))
           ∧ upsert_rsvp again now' (Some d')
             = (Returned [("id", VStr (str_oid (_id r)));
                          ("status", VStr (RsvpRequest.status again))],
                Some (set_coll "rsvp"
                        (pre ++ Doc (_id r)
                                  (<["status" := VStr (RsvpRequest.status again)]>
                                     (<["updated_at" := VTime now']> (fields r)))
                             :: post) d'))))
  ∧ (∀ c e,
       ObjectId (RsvpRequest.contact_id payload) = Some c →
       ObjectId (RsvpRequest.event_id payload) = Some e →
       is_Some (find_one (ById c) (coll d "contact")) →
       is_Some (find_one (ById e) (coll d "event")) →
       is_Some (find_one (rsvp_query (RsvpRequest.contact_id payload)
                            (RsvpRequest.event_id payload)) (coll d "rsvp"))
       ∨ one_of (RsvpRequest.status payload)
           ["yes"; "not_this_time"; "no_response"] = true →
       ∃ d' pre r post,
         upsert_rsvp payload now (Some d)
         = (Returned [("id", VStr (str_oid (_id r)));
                      ("status", VStr (RsvpRequest.status payload))],
            Some d')
         ∧ coll d' "rsvp" = pre ++ r :: post
         ∧ (∀ name, name ≠ "rsvp" → coll d' name = coll d name)
         ∧ rsvps_for (RsvpRequest.contact_id payload)
             (RsvpRequest.event_id payload) d' = [r]
         ∧ fields r !! "contact_id"
           = Some (VStr (RsvpRequest.contact_id payload))
         ∧ fields r !! "event_id" = Some (VStr (RsvpRequest.event_id payload))
         ∧ fields r !! "status" = Some (VStr (RsvpRequest.status payload))
         ∧ match find_one (rsvp_query (RsvpRequest.contact_id payload)
                             (RsvpRequest.event_id payload)) (coll d "rsvp")
           with
           | Some r0 =>
               coll d "rsvp" = pre ++ r0 :: post
               ∧ r = Doc (_id r0)
                       (<["status" := VStr (RsvpRequest.status payload)]>
                          (<["updated_at" := VTime now]> (fields r0)))
           | None =>
               coll d "rsvp" = pre ∧ post = []
               ∧ r = Doc (next_oid d)
                       (<["created_at" := VTime now]>
                          (<["updated_at" := VTime now]>
                             (set_fields
                                [("contact_id",
                                  VStr (RsvpRequest.contact_id payload));
                                 ("event_id",
                                  VStr (RsvpRequest.event_id payload));
                                 ("status", VStr (RsvpRequest.status payload));
                                 ("qr_code_token", VNull);
                                 ("sent_gate_code", VBool false)] ∅)))
           end
         ∧ (RsvpRequest.contact_id again = RsvpRequest.contact_id payload →
            RsvpRequest.event_id again = RsvpRequest.event_id payload →
            ∃ r' d'',
              r' = Doc (_id r)
                     (<["status" := VStr (RsvpRequest.status again)]>
                        (<["updated_at" := VTime now']> (fields r)))
              ∧ d'' = set_coll "rsvp" (pre ++ r' :: post) d'
              ∧ upsert_rsvp again now' (Some d')
                = (Returned [("id", VStr (str_oid (_id r)));
                             ("status", VStr (RsvpRequest.status again))],
                   Some d'')
              ∧ rsvps_for (RsvpRequest.contact_id payload)
                  (RsvpRequest.event_id payload) d'' = [r']
              ∧ List.length (coll d'' "rsvp")
                = List.length (coll d' "rsvp"))).
Proof.
  intros Hu Hr. split; [|split].
  { intros ops. destruct (run_preserved ops d) as (d'' & Hrun & _ & _ & _ & Hk).
    exists d''. split; [done|by apply Hk]. }
  { destruct (upsert_rsvp_cases payload now d)
      as [[err Herr]|(c & e & Hc & He & Hcontact & Hevent & Hcase)].
    { exists d. rewrite Herr. do 3 (split; [done|]). by intros _ _ b [=]. }
    destruct Hcase as [(pre & r & post & Hsplit & Hpre & Hm)|(f & Hn & Hf)].
    - rewrite (upsert_rsvp_update payload now d c e Hu Hc He Hcontact Hevent
                 pre post r Hsplit Hpre Hm).
      set (r' := Doc (_id r) _).
      assert (unique_ids (set_coll "rsvp" (pre ++ r' :: post) d)) as Hu'.
      { apply unique_ids_set_coll; [done|]. rewrite Hsplit. apply ids_update. }
      eexists. split; [done|]. split; [done|].
      split; [by apply rsvp_unique_update|].
      intros Hac Hae b [= <-]. exists pre, r', post.
      split; [by rewrite coll_set_coll, decide_True|]. split; [done|].
      split; [subst r'; simpl; by rewrite lookup_insert_eq|].
      apply (upsert_rsvp_update again now' _ c e Hu').
      + by rewrite Hac.
      + by rewrite Hae.
      + by rewrite coll_set_coll, decide_False.
      + by rewrite coll_set_coll, decide_False.
      + by rewrite coll_set_coll, decide_True.
      + by rewrite Hac, Hae.
      + rewrite Hac, Hae. subst r'. by rewrite matches_rsvp_query_set.
    - rewrite (upsert_rsvp_insert payload now d c e Hc He Hcontact Hevent f Hn Hf).
      destruct (Rsvp_fields _ _ _ _ Hf) as (Hfc & Hfe & Hfs).
      pose proof (unique_ids_create_document d "rsvp" f now Hu) as Hu'.
      eexists. split; [done|]. split; [done|].
      split; [by apply (rsvp_unique_insert d f now _ _ Hn)|].
      intros Hac Hae b [= <-].
      exists (coll d "rsvp"),
        (Doc (next_oid d)
           (<["created_at" := VTime now]> (<["updated_at" := VTime now]> f))), [].
      split; [by rewrite coll_create_document, decide_True|]. split; [done|].
      split; [by simpl; rewrite !lookup_insert_ne by done|].
      apply (upsert_rsvp_update again now' _ c e Hu').
      + by rewrite Hac.
      + by rewrite Hae.
      + by rewrite coll_create_document, decide_False.
      + by rewrite coll_create_document, decide_False.
      + by rewrite coll_create_document, decide_True.
      + rewrite Hac, Hae. by apply find_one_none.
      + rewrite Hac, Hae. apply matches_rsvp_query. simpl.
        by rewrite !lookup_insert_ne by done. }
  intros c e Hc He Hcontact Hevent Hok.
  set (q := rsvp_query (RsvpRequest.contact_id payload)
              (RsvpRequest.event_id payload)) in *.
  (* what is left to show once the first upsert is known *)
  assert (∀ d' pre r post,
            unique_ids d' →
            coll d' "rsvp" = pre ++ r :: post →
            (∀ name, name ≠ "rsvp" → coll d' name = coll d name) →
            Forall (λ x, matches q x = false) pre →
            matches q r = true →
            List.filter (matches q) post = [] →
            rsvps_for (RsvpRequest.contact_id payload)
              (RsvpRequest.event_id payload) d' = [r]
            ∧ (RsvpRequest.contact_id again = RsvpRequest.contact_id payload →
               RsvpRequest.event_id again = RsvpRequest.event_id payload →
               ∃ r' d'',
                 r' = Doc (_id r)
                        (<["status" := VStr (RsvpRequest.status again)]>
                           (<["updated_at" := VTime now']> (fields r)))
                 ∧ d'' = set_coll "rsvp" (pre ++ r' :: post) d'
                 ∧ upsert_rsvp again now' (Some d')
                   = (Returned [("id", VStr (str_oid (_id r)));
                                ("status", VStr (RsvpRequest.status again))],
                      Some d'')
                 ∧ rsvps_for (RsvpRequest.contact_id payload)
                     (RsvpRequest.event_id payload) d'' = [r']
                 ∧ List.length (coll d'' "rsvp")
                   = List.length (coll d' "rsvp"))) as Hnext.
  { intros d' pre r post Hu' Hsplit Hframe Hpre Hm Hpost. split.
    { unfold rsvps_for. rewrite Hsplit. by apply filter_middle. }
    intros Hac Hae. eexists _, _. split; [reflexivity|]. split; [reflexivity|].
    split; [|split].
    - apply (upsert_rsvp_update again now' _ c e Hu').
      + by rewrite Hac.
      + by rewrite Hae.
      + by rewrite Hframe.
      + by rewrite Hframe.
      + done.
      + by rewrite Hac, Hae.
      + by rewrite Hac, Hae.
    - unfold rsvps_for. rewrite coll_set_coll, decide_True by done.
      apply filter_middle; [done| |done].
      fold q. unfold q. by rewrite matches_rsvp_query_set.
    - rewrite coll_set_coll, decide_True by done.
      rewrite Hsplit, !length_app. done. }
  destruct (find_one q (coll d "rsvp")) as [r0|] eqn:Hf.
  - destruct (find_one_split _ _ _ Hf) as (pre & post & Hsplit & Hm & Hpre).
    pose proof (Hr (RsvpRequest.contact_id payload)
                  (RsvpRequest.event_id payload)) as Hone.
    unfold rsvps_for in Hone. fold q in Hone. rewrite Hsplit in Hone.
    pose proof (filter_after_first q pre post r0 Hm Hone) as Hpost.
    set (r := Doc (_id r0)
                (<["status" := VStr (RsvpRequest.status payload)]>
                   (<["updated_at" := VTime now]> (fields r0)))).
    assert (matches q r = true) as Hm'
      by (unfold q, r; by rewrite matches_rsvp_query_set).
    assert (unique_ids (set_coll "rsvp" (pre ++ r :: post) d)) as Hu'.
    { apply unique_ids_set_coll; [done|]. rewrite Hsplit. apply ids_update. }
    assert (coll (set_coll "rsvp" (pre ++ r :: post) d) "rsvp"
            = pre ++ r :: post) as Hsplit'
      by (by rewrite coll_set_coll, decide_True).
    assert (∀ name, name ≠ "rsvp" →
              coll (set_coll "rsvp" (pre ++ r :: post) d) name = coll d name)
      as Hframe by (intros name Hne; by rewrite coll_set_coll, decide_False).
    destruct (Hnext _ pre r post Hu' Hsplit' Hframe Hpre Hm' Hpost)
      as [Hone' Hagain].
    apply matches_rsvp_query in Hm' as [Hfc Hfe].
    exists (set_coll "rsvp" (pre ++ r :: post) d), pre, r, post.
    split.
    { exact (upsert_rsvp_update payload now d c e Hu Hc He Hcontact Hevent
               pre post r0 Hsplit Hpre Hm). }
    do 5 (split; [done|]).
    split; [by unfold r; simpl; rewrite lookup_insert_eq|].
    split; [done|exact Hagain].
  - destruct Hok as [[? [=]]|Hv].
    pose proof (Rsvp_valid (RsvpRequest.contact_id payload)
                  (RsvpRequest.event_id payload) _ Hv) as Hf'.
    set (f := set_fields _ ∅) in *.
    set (r := Doc (next_oid d)
                (<["created_at" := VTime now]>
                   (<["updated_at" := VTime now]> f))).
    assert (matches q r = true) as Hm'.
    { apply matches_rsvp_query. unfold r, f. simpl.
      by rewrite !lookup_insert_ne by done. }
    pose proof (unique_ids_create_document d "rsvp" f now Hu) as Hu'.
    assert (coll (create_document "rsvp" f now d).2 "rsvp"
            = coll d "rsvp" ++ r :: []) as Hsplit'
      by (by rewrite coll_create_document, decide_True).
    assert (∀ name, name ≠ "rsvp" →
              coll (create_document "rsvp" f now d).2 name = coll d name)
      as Hframe
      by (intros name Hne; by rewrite coll_create_document, decide_False).
    apply find_one_none in Hf as Hpre.
    destruct (Hnext _ (coll d "rsvp") r [] Hu' Hsplit' Hframe Hpre Hm' eq_refl)
      as [Hone' Hagain].
    apply matches_rsvp_query in Hm' as [Hfc Hfe].
    exists (create_document "rsvp" f now d).2, (coll d "rsvp"), r, [].
    split.
    { exact (upsert_rsvp_insert payload now d c e Hc He Hcontact Hevent
               f Hf Hf'). }
    do 5 (split; [done|]).
    split; [by unfold r, f; simpl; rewrite !lookup_insert_ne by done|].
    split; [done|exact Hagain].
Qed.

End Preservation.

Lemma sample_db_rsvp_unique : rsvp_unique sample_db.
Proof. intros c e. vm_compute. lia. Defined.

(** A first RSVP on the sample store is stored under a fresh id; the same
    RSVP again answers with that id and the pair keeps its one record. *)
Lemma upsert_rsvp_at_most_one_witness :
  unique_ids sample_db
  ∧ rsvp_unique sample_db
  ∧ ∃ d' r d'' r',
      upsert_rsvp rsvp_yes 40 (Some sample_db)
      = (Returned [("id", VStr (str_oid 2)); ("status", VStr (py "yes"))],
         Some d')
      ∧ rsvps_for (str_oid 0) (str_oid 1) d' = [r]
      ∧ _id r = 2
      ∧ fields r !! "status" = Some (VStr (py "yes"))
      ∧ upsert_rsvp rsvp_yes 41 (Some d')
        = (Returned [("id", VStr (str_oid 2)); ("status", VStr (py "yes"))],
           Some d'')
      ∧ rsvps_for (str_oid 0) (str_oid 1) d'' = [r']
      ∧ _id r' = 2
      ∧ fields r' !! "status" = Some (VStr (py "yes"))
      ∧ List.length (coll d'' "rsvp") = 1%nat.
Proof.
  split; [exact sample_db_unique_ids|]. split; [exact sample_db_rsvp_unique|].
  destruct (@upsert_rsvp_at_most_one ascii_only failing_provider
              rsvp_yes rsvp_yes 40 41 sample_db
              sample_db_unique_ids sample_db_rsvp_unique)
    as (_ & _ & Hok).
  destruct (Hok 0 1) as (d' & pre & r & post & Hup & Hsplit & _ & Hone & _ & _
                         & Hst & Hcase & Hagain).
  - vm_compute. reflexivity.
  - vm_compute. reflexivity.
  - vm_compute. by eexists.
  - vm_compute. by eexists.
  - right. vm_compute. reflexivity.
  - destruct (Hagain eq_refl eq_refl) as (r' & d'' & Hr' & Hd'' & Hup' & Hone'
                                          & Hlen).
    change (find_one _ (coll sample_db "rsvp")) with (@None doc) in Hcase.
    destruct Hcase as (Hpre & Hpost & Hr).
    assert (_id r = 2) as Hid by (by rewrite Hr).
    exists d', r, d'', r'. rewrite Hid in Hup, Hup'.
    split; [exact Hup|]. split; [exact Hone|]. split; [exact Hid|].
    split; [exact Hst|]. split; [exact Hup'|]. split; [exact Hone'|].
    split; [by rewrite Hr'|].
    split; [rewrite Hr'; simpl; by rewrite lookup_insert_eq|].
    rewrite Hlen, Hsplit, <- Hpre, Hpost. reflexivity.
Defined.

(** The sample run keeps the sample contact verified. *)
Lemma verified_stays_verified_witness :
  coll sample_db "contact" !! 0%nat = Some sample_contact
  ∧ verified sample_contact
  ∧ ∃ d' x',
      @run ascii_only failing_provider sample_ops (Some sample_db) = Some d'
      ∧ coll d' "contact" !! 0%nat = Some x'
      ∧ verified x'.
Proof.
  assert (coll sample_db "contact" !! 0%nat = Some sample_contact) as Hx
    by (vm_compute; reflexivity).
  assert (verified sample_contact) as Hv by (vm_compute; reflexivity).
  split; [exact Hx|]. split; [exact Hv|].
  destruct (@verified_stays_verified ascii_only failing_provider sample_ops
              sample_db 0%nat sample_contact Hx Hv)
    as [(d' & x' & Hrun & Hx' & _ & Hv') _].
  by exists d', x'.
Defined.

(** ** A run from the empty store

    Spec section 8, end to end, without a provider: the registration logs
    one queued row; the code it issued confirms the phone and is cleared;
    registering the phone again answers with the same id. *)
Example end_to_end :
  let r1 := @register_contact ascii_only no_provider ana 23456 10 11
              (Some empty_database) in
  let r2 := @confirm_verification ascii_only
              (VerifyConfirmRequest.Make (py "+1 555 000 1111") (py "123456"))
              20 r1.2 in
  let r3 := @register_contact ascii_only no_provider ana 7 30 31 r2.2 in
  r1.1 = Returned [("id", VStr (str_oid 0));
                   ("phone", VStr (py "+15550001111"));
                   ("message",
                    VStr (py "Registration received. Verification sent."))]
  ∧ (λ db, (λ x, fields x !! "status") <$> coll db "smsmessage") <$> r1.2
    = Some [Some (VStr (py "queued"))]
  ∧ r2.1 = Returned [("message", VStr (py "Phone verified"));
                     ("contact_id", VStr (str_oid 0))]
  ∧ (λ db, (λ x, (fields x !! "phone_verified",
                  fields x !! "verification_code")) <$> coll db "contact")
      <$> r2.2
    = Some [(Some (VBool true), Some VNull)]
  ∧ r3.1 = Returned [("id", VStr (str_oid 0));
                     ("phone", VStr (py "+15550001111"));
                     ("message",
                      VStr (py "Contact exists, verification re-sent"))]
  ∧ (λ db, List.length (coll db "contact")) <$> r3.2 = Some 1%nat.
Proof. vm_compute. repeat split; reflexivity. Qed.

(** * Further properties of the routes *)

(** ** RSVP upsert: errors come first and change nothing *)

(** A character that is neither a hexadecimal digit nor a blank makes
    [bytes.fromhex] fail, wherever it stands. *)
Lemma fromhex_bad_char (s : pystr) (c : N) :
  c ∈ s → hexval c = None → hexspace c = false → fromhex s = None.
Proof.
  intros Hin Hv Hs.
  remember (List.length s) as n eqn:Hn.
  revert s Hn Hin. induction (lt_wf n) as [n _ IH]. intros s -> Hin.
  destruct s as [|a s]; [by apply elem_of_nil in Hin|].
  cbn [fromhex]. destruct (hexspace a) eqn:Ha.
  - apply (IH (List.length s)); [simpl; lia|done|].
    apply elem_of_cons in Hin as [->|Hin]; [congruence|done].
  - destruct (hexval a) as [hi|] eqn:Hhi; [|done].
    destruct s as [|b s]; [done|].
    destruct (hexval b) as [lo|] eqn:Hlo; [|done].
    rewrite (IH (List.length s)); [done|simpl; lia|done|].
    apply elem_of_cons in Hin as [->|Hin]; [congruence|].
    apply elem_of_cons in Hin as [->|Hin]; [congruence|done].
Qed.

(** [ObjectId] raises [InvalidId] on a string that is not 24 characters
    long, and on one that holds a character other than a hexadecimal digit
    or a blank. *)
Lemma ObjectId_none (s : pystr) :
  List.length s ≠ 24%nat
  ∨ (∃ c, c ∈ s ∧ hexval c = None ∧ hexspace c = false) →
  ObjectId s = None.
Proof.
  unfold ObjectId. intros [Hl|(c & Hin & Hv & Hs)].
  - by destruct (Nat.eqb_spec (List.length s) 24).
  - rewrite (fromhex_bad_char s c) by done. by destruct (_ =? _)%nat.
Qed.

(** X1: an RSVP whose contact id or event id is not 24 characters long, or
    holds a character that is neither a hexadecimal digit nor one of the
    blanks [bytes.fromhex] skips, is answered 400 before the store is looked
    at: the answer is the same with any store and without one, and the
    store is left as it was. *)
Theorem upsert_rsvp_malformed_ids (payload : RsvpRequest.t) (now : Z)
    (db : option database) :
  (List.length (RsvpRequest.contact_id payload) ≠ 24%nat
   ∨ (∃ c, c ∈ RsvpRequest.contact_id payload
           ∧ hexval c = None ∧ hexspace c = false)
   ∨ List.length (RsvpRequest.event_id payload) ≠ 24%nat
   ∨ (∃ c, c ∈ RsvpRequest.event_id payload
           ∧ hexval c = None ∧ hexspace c = false)) →
  upsert_rsvp payload now db
  = (Raised (HTTPException 400 (py "Invalid IDs")), db).
Proof.
  intros Hbad. unfold upsert_rsvp.
  assert (ObjectId (RsvpRequest.contact_id payload) = None
          ∨ ObjectId (RsvpRequest.event_id payload) = None) as [->| ->].
  { destruct Hbad as [H|[H|[H|H]]].
    - left. apply ObjectId_none. by left.
    - left. apply ObjectId_none. by right.
    - right. apply ObjectId_none. by left.
    - right. apply ObjectId_none. by right. }
  - done.
  - by destruct (ObjectId _).
Qed.

Lemma upsert_rsvp_malformed_ids_witness :
  (List.length (str_oid 0) ≠ 24%nat
   ∨ (∃ c, c ∈ str_oid 0 ∧ hexval c = None ∧ hexspace c = false)
   ∨ List.length (py "00000000000000000000000g") ≠ 24%nat
   ∨ (∃ c, c ∈ py "00000000000000000000000g"
           ∧ hexval c = None ∧ hexspace c = false))
  ∧ upsert_rsvp
      (RsvpRequest.Make (str_oid 0) (py "00000000000000000000000g") (py "yes"))
      5 (Some sample_db)
    = (Raised (HTTPException 400 (py "Invalid IDs")), Some sample_db).
Proof.
  assert (List.length (str_oid 0) ≠ 24%nat
          ∨ (∃ c, c ∈ str_oid 0 ∧ hexval c = None ∧ hexspace c = false)
          ∨ List.length (py "00000000000000000000000g") ≠ 24%nat
          ∨ (∃ c, c ∈ py "00000000000000000000000g"
                  ∧ hexval c = None ∧ hexspace c = false)) as Hbad.
  { right; right; right. exists 103. split; [|split; reflexivity].
    apply list_elem_of_lookup. by exists 23%nat. }
  split; [exact Hbad|].
  exact (upsert_rsvp_malformed_ids
           (RsvpRequest.Make (str_oid 0) (py "00000000000000000000000g")
              (py "yes")) 5 (Some sample_db) Hbad).
Defined.

(** Blanks between the bytes are no malformed id: 24 characters that spell
    eight bytes pass [ObjectId], match no stored contact and are answered
    404 on a store, 500 without one. *)
Example upsert_rsvp_blank_id :
  let blank := RsvpRequest.Make (py "00 00 00 00 00 00 00 00 ") (str_oid 1)
                 (py "yes") in
  fromhex (py "00 00 00 00 00 00 00 00 ") = Some [0; 0; 0; 0; 0; 0; 0; 0]
  ∧ upsert_rsvp blank 5 (Some sample_db)
    = (Raised (HTTPException 404 (py "Contact not found")), Some sample_db)
  ∧ upsert_rsvp blank 5 None
    = (Raised (HTTPException 500 (py "Database not available")), None)
  ∧ ObjectId (py "0 0000000000000000000000") = None.
Proof. vm_compute. repeat split; reflexivity. Qed.

(** X2: with well-formed ids, an unknown contact is reported before the
    event is looked up, an unknown event next, and neither changes the
    store: no RSVP is stored for a reference that does not exist. *)
Theorem upsert_rsvp_unknown_reference (payload : RsvpRequest.t) (now : Z)
    (d : database) (c e : N) :
  ObjectId (RsvpRequest.contact_id payload) = Some c →
  ObjectId (RsvpRequest.event_id payload) = Some e →
  (find_one (ById c) (coll d "contact") = None →
   upsert_rsvp payload now (Some d)
   = (Raised (HTTPException 404 (py "Contact not found")), Some d))
  ∧ (is_Some (find_one (ById c) (coll d "contact")) →
     find_one (ById e) (coll d "event") = None →
     upsert_rsvp payload now (Some d)
     = (Raised (HTTPException 404 (py "Event not found")), Some d)).
Proof.
  intros Hc He. unfold upsert_rsvp, _collection. rewrite Hc, He. split.
  - intros ->. by rewrite bool_decide_eq_false_2 by (by intros [? ?]).
  - intros Hcontact ->. rewrite bool_decide_eq_true_2 by done.
    by rewrite bool_decide_eq_false_2 by (by intros [? ?]).
Qed.

Lemma upsert_rsvp_unknown_reference_witness :
  ObjectId (RsvpRequest.contact_id rsvp_stranger) = Some 7
  ∧ ObjectId (RsvpRequest.event_id rsvp_stranger) = Some 1
  ∧ upsert_rsvp rsvp_stranger 5 (Some sample_db)
    = (Raised (HTTPException 404 (py "Contact not found")), Some sample_db).
Proof.
  assert (ObjectId (RsvpRequest.contact_id rsvp_stranger) = Some 7) as Hc
    by (vm_compute; reflexivity).
  assert (ObjectId (RsvpRequest.event_id rsvp_stranger) = Some 1) as He
    by (vm_compute; reflexivity).
  split; [exact Hc|]. split; [exact He|].
  apply (upsert_rsvp_unknown_reference rsvp_stranger 5 sample_db 7 1 Hc He).
  vm_compute. reflexivity.
Defined.

(** ** RSVP upsert: what is validated, and what the pair is *)

(** X3: the status of an RSVP is checked against the schema only when a
    record is inserted.  With a status outside [yes], [not_this_time],
    [no_response], a first RSVP for the pair raises the schema's validation
    error and stores nothing, while an RSVP for a pair that has a record
    stores the status on that record and answers with success. *)
Theorem upsert_rsvp_status_checked_on_insert_only (payload : RsvpRequest.t)
    (now : Z) (d : database) (c e : N) :
  unique_ids d →
  ObjectId (RsvpRequest.contact_id payload) = Some c →
  ObjectId (RsvpRequest.event_id payload) = Some e →
  is_Some (find_one (ById c) (coll d "contact")) →
  is_Some (find_one (ById e) (coll d "event")) →
  one_of (RsvpRequest.status payload) ["yes"; "not_this_time"; "no_response"]
    = false →
  let q := rsvp_query (RsvpRequest.contact_id payload)
             (RsvpRequest.event_id payload) in
  (find_one q (coll d "rsvp") = None →
   upsert_rsvp payload now (Some d)
   = (Raised (ValidationError "Rsvp" "status"), Some d))
  ∧ (∀ r, find_one q (coll d "rsvp") = Some r →
       ∃ pre post,
         coll d "rsvp" = pre ++ r :: post
         ∧ upsert_rsvp payload now (Some d)
           = (Returned [("id", VStr (str_oid (_id r)));
                        ("status", VStr (RsvpRequest.status payload))],
              Some (set_coll "rsvp"
                      (pre ++ Doc (_id r)
                                (<["status" := VStr (RsvpRequest.status payload)]>
                                   (<["updated_at" := VTime now]> (fields r)))
                           :: post) d))).
Proof.
  intros Hu Hc He Hcontact Hevent Hbad q. split.
  - intros Hn. unfold upsert_rsvp, _collection. rewrite Hc, He.
    rewrite !bool_decide_eq_true_2 by done. cbn [negb]. fold q. rewrite Hn.
    unfold Rsvp. by rewrite Hbad.
  - intros r Hf.
    destruct (find_one_split _ _ _ Hf) as (pre & post & Hsplit & Hm & Hpre).
    exists pre, post. split; [done|].
    by apply (upsert_rsvp_update payload now d c e Hu Hc He Hcontact Hevent).
Qed.

(** The status [maybe] on the sample store: refused before the first RSVP
    of the pair exists. *)
Lemma upsert_rsvp_status_checked_on_insert_only_witness :
  unique_ids sample_db
  ∧ ObjectId (RsvpRequest.contact_id rsvp_maybe) = Some 0
  ∧ ObjectId (RsvpRequest.event_id rsvp_maybe) = Some 1
  ∧ is_Some (find_one (ById 0) (coll sample_db "contact"))
  ∧ is_Some (find_one (ById 1) (coll sample_db "event"))
  ∧ one_of (RsvpRequest.status rsvp_maybe)
      ["yes"; "not_this_time"; "no_response"] = false
  ∧ upsert_rsvp rsvp_maybe 50 (Some sample_db)
    = (Raised (ValidationError "Rsvp" "status"), Some sample_db).
Proof.
  assert (ObjectId (RsvpRequest.contact_id rsvp_maybe) = Some 0) as Hc
    by (vm_compute; reflexivity).
  assert (ObjectId (RsvpRequest.event_id rsvp_maybe) = Some 1) as He
    by (vm_compute; reflexivity).
  assert (is_Some (find_one (ById 0) (coll sample_db "contact"))) as Hcontact
    by (vm_compute; eexists; reflexivity).
  assert (is_Some (find_one (ById 1) (coll sample_db "event"))) as Hevent
    by (vm_compute; eexists; reflexivity).
  assert (one_of (RsvpRequest.status rsvp_maybe)
            ["yes"; "not_this_time"; "no_response"] = false) as Hbad
    by (vm_compute; reflexivity).
  do 6 (split; [first [exact sample_db_unique_ids | assumption]|]).
  apply (upsert_rsvp_status_checked_on_insert_only rsvp_maybe 50 sample_db 0 1
           sample_db_unique_ids Hc He Hcontact Hevent Hbad).
  vm_compute. reflexivity.
Defined.

(** X4: the pair of an RSVP is the pair of strings as sent, while the
    contact is looked up by the identifier the string spells.  Two requests
    whose contact ids differ as strings but spell the same identifier (hex
    digits in another case) are two pairs: each inserts a record, and the
    same contact ends up with two RSVPs for the same event. *)
Theorem upsert_rsvp_pair_is_textual (first second : RsvpRequest.t)
    (now now' : Z) (d : database) (c e : N) :
  ObjectId (RsvpRequest.contact_id first) = Some c →
  ObjectId (RsvpRequest.contact_id second) = Some c →
  RsvpRequest.contact_id first ≠ RsvpRequest.contact_id second →
  RsvpRequest.event_id second = RsvpRequest.event_id first →
  ObjectId (RsvpRequest.event_id first) = Some e →
  is_Some (find_one (ById c) (coll d "contact")) →
  is_Some (find_one (ById e) (coll d "event")) →
  one_of (RsvpRequest.status first) ["yes"; "not_this_time"; "no_response"]
    = true →
  one_of (RsvpRequest.status second) ["yes"; "not_this_time"; "no_response"]
    = true →
  find_one (rsvp_query (RsvpRequest.contact_id first)
              (RsvpRequest.event_id first)) (coll d "rsvp") = None →
  find_one (rsvp_query (RsvpRequest.contact_id second)
              (RsvpRequest.event_id first)) (coll d "rsvp") = None →
  ∃ d1 d2 r1 r2,
    upsert_rsvp first now (Some d)
    = (Returned [("id", VStr (str_oid (next_oid d)));
                 ("status", VStr (RsvpRequest.status first))], Some d1)
    ∧ upsert_rsvp second now' (Some d1)
      = (Returned [("id", VStr (str_oid (next_oid d + 1)));
                   ("status", VStr (RsvpRequest.status second))], Some d2)
    ∧ coll d2 "rsvp" = coll d "rsvp" ++ [r1; r2]
    ∧ _id r1 = next_oid d ∧ _id r2 = next_oid d + 1
    ∧ fields r1 !! "contact_id" = Some (VStr (RsvpRequest.contact_id first))
    ∧ fields r2 !! "contact_id" = Some (VStr (RsvpRequest.contact_id second))
    ∧ fields r1 !! "event_id" = fields r2 !! "event_id".
Proof.
  intros Hc1 Hc2 Hne Heq He Hcontact Hevent Hs1 Hs2 Hn1 Hn2.
  pose proof (Rsvp_valid (RsvpRequest.contact_id first)
                (RsvpRequest.event_id first) _ Hs1) as Hf1.
  pose proof (Rsvp_valid (RsvpRequest.contact_id second)
                (RsvpRequest.event_id second) _ Hs2) as Hf2.
  set (f1 := set_fields _ ∅) in Hf1. set (f2 := set_fields _ ∅) in Hf2.
  set (d1 := (create_document "rsvp" f1 now d).2).
  set (r1 := Doc (next_oid d)
               (<["created_at" := VTime now]> (<["updated_at" := VTime now]> f1))).
  set (r2 := Doc (next_oid d + 1)
               (<["created_at" := VTime now']> (<["updated_at" := VTime now']> f2))).
  assert (coll d1 "rsvp" = coll d "rsvp" ++ [r1]) as Hd1
    by (unfold d1; by rewrite coll_create_document, decide_True).
  exists d1, (create_document "rsvp" f2 now' d1).2, r1, r2.
  split; [by apply (upsert_rsvp_insert first now d c e)|].
  split.
  - apply (upsert_rsvp_insert second now' d1 c e); [done|by rewrite Heq| | | |done].
    + unfold d1. by rewrite coll_create_document, decide_False.
    + unfold d1. by rewrite coll_create_document, decide_False.
    + rewrite Hd1, Heq. apply find_one_none, Forall_app. split.
      * by apply find_one_none.
      * constructor; [|constructor].
        apply not_true_is_false. intros [Hm _]%matches_rsvp_query.
        subst r1 f1. simpl in Hm. rewrite !lookup_insert_ne in Hm by done.
        rewrite lookup_insert_eq in Hm. congruence.
  - split; [|split; [done|split; [done|split; [done|split; [done|]]]]].
    + rewrite coll_create_document, decide_True by done.
      by rewrite Hd1, <- app_assoc.
    + subst r1 r2 f1 f2. simpl. rewrite !lookup_insert_ne by done.
      by rewrite Heq.
Qed.

(** The contact [00000000000000000000000a], addressed in lower and in upper
    case. *)
Lemma upsert_rsvp_pair_is_textual_witness :
  ObjectId (RsvpRequest.contact_id rsvp_lower) = Some 10
  ∧ ObjectId (RsvpRequest.contact_id rsvp_upper) = Some 10
  ∧ RsvpRequest.contact_id rsvp_lower ≠ RsvpRequest.contact_id rsvp_upper
  ∧ ∃ d1 d2,
      (upsert_rsvp rsvp_lower 1 (Some hex_db)).2 = Some d1
      ∧ (upsert_rsvp rsvp_upper 2 (Some d1)).2 = Some d2
      ∧ List.length (coll d2 "rsvp") = 2%nat.
Proof.
  assert (ObjectId (RsvpRequest.contact_id rsvp_lower) = Some 10) as Hc1
    by (vm_compute; reflexivity).
  assert (ObjectId (RsvpRequest.contact_id rsvp_upper) = Some 10) as Hc2
    by (vm_compute; reflexivity).
  assert (RsvpRequest.contact_id rsvp_lower ≠ RsvpRequest.contact_id rsvp_upper)
    as Hne by (vm_compute; discriminate).
  assert (ObjectId (RsvpRequest.event_id rsvp_lower) = Some 11) as He
    by (vm_compute; reflexivity).
  assert (is_Some (find_one (ById 10) (coll hex_db "contact"))) as Hcontact
    by (vm_compute; eexists; reflexivity).
  assert (is_Some (find_one (ById 11) (coll hex_db "event"))) as Hevent
    by (vm_compute; eexists; reflexivity).
  split; [exact Hc1|]. split; [exact Hc2|]. split; [exact Hne|].
  destruct (upsert_rsvp_pair_is_textual rsvp_lower rsvp_upper 1 2 hex_db 10 11
              Hc1 Hc2 Hne eq_refl He Hcontact Hevent eq_refl eq_refl
              eq_refl eq_refl)
    as (d1 & d2 & r1 & r2 & H1 & H2 & Hcoll & _).
  exists d1, d2. rewrite H1, H2, Hcoll. split; [reflexivity|].
  split; [reflexivity|]. rewrite length_app. reflexivity.
Defined.

(** ** Verification: which code confirms, and when *)

Section CodeLifecycle.
Context `{PyUnicode} (env : Env).

Lemma normalize_again (s : pystr) :
  _normalize_phone (_normalize_phone s) = _normalize_phone s.
Proof.
  destruct (normalize_shape s) as [ds ->]. apply normalize_plus_digits.
Qed.

(** The resend steps on a store with unique identifiers: the contact is
    rewritten where it stands and one SMS row is logged. *)
Lemma resend_effect (contact : doc) (phone : pystr) (ok : body) (entropy : N)
    (now now_sms : Z) (d : database) (pre post : list doc) :
  unique_ids d →
  coll d "contact" = pre ++ contact :: post →
  ∃ d' row,
    resend env contact phone ok entropy now now_sms d = (Returned ok, Some d')
    ∧ coll d' "contact"
      = pre ++ Doc (_id contact)
                 (<["verification_code" := VStr (new_code entropy)]>
                    (<["updated_at" := VTime now]> (fields contact))) :: post
    ∧ unique_ids d'
    ∧ coll d' "smsmessage" = coll d "smsmessage" ++ [row]
    ∧ fields row !! "to" = Some (VStr (_normalize_phone phone))
    ∧ fields row !! "body"
      = Some (VStr (py "Anomaly verification code: " ++ new_code entropy))
    ∧ fields row !! "purpose" = Some (VStr (py "verify"))
    ∧ (∀ m, m ≠ "contact" → m ≠ "smsmessage" → coll d' m = coll d m).
Proof.
  intros Hu Hc.
  destruct (resend_eq env contact phone ok entropy now now_sms d)
    as (d1 & Hup & ->).
  rewrite (update_one_by_id "contact" _ d pre post contact Hu Hc) in Hup.
  assert (d1 = set_coll "contact"
                 (pre ++ Doc (_id contact)
                           (set_fields
                              [("verification_code", VStr (new_code entropy));
                               ("updated_at", VTime now)] (fields contact))
                      :: post) d) as Hd1 by congruence.
  clear Hup.
  assert (unique_ids d1) as Hu1.
  { rewrite Hd1. apply unique_ids_set_coll; [done|]. rewrite Hc.
    apply ids_update. }
  assert (∀ m, coll d1 m
               = if decide ("contact" = m)
                 then pre ++ Doc (_id contact)
                               (set_fields
                                  [("verification_code", VStr (new_code entropy));
                                   ("updated_at", VTime now)] (fields contact))
                          :: post
                 else coll d m) as Hcoll.
  { intros m. rewrite Hd1. apply coll_set_coll. }
  clear Hd1.
  destruct (send_sms_valid env phone
              (py "Anomaly verification code: " ++ new_code entropy)
              (py "verify") now_sms d1 (verify_is_purpose))
    as (sid & status & err & _ & Hs).
  rewrite Hs. cbn [snd].
  exists (create_document "smsmessage"
            (Smsmessage_fields (_normalize_phone phone)
               (py "Anomaly verification code: " ++ new_code entropy)
               (py "verify") status sid err) now_sms d1).2,
    (Doc (next_oid d1)
       (<["created_at" := VTime now_sms]>
          (<["updated_at" := VTime now_sms]>
             (Smsmessage_fields (_normalize_phone phone)
                (py "Anomaly verification code: " ++ new_code entropy)
                (py "verify") status sid err)))).
  split; [done|].
  split; [|split; [|split; [|split; [|split; [|split]]]]].
  - rewrite coll_create_document, decide_False by done.
    by rewrite Hcoll, decide_True.
  - by apply unique_ids_create_document.
  - rewrite coll_create_document, decide_True by done.
    by rewrite Hcoll, decide_False.
  - done.
  - done.
  - done.
  - intros m Hm1 Hm2. rewrite coll_create_document, decide_False by done.
    by rewrite Hcoll, decide_False.
Qed.

(** X5: only the code of the latest send confirms.  After
    [send_verification] has drawn a code for a stored contact, a
    confirmation for that phone succeeds exactly when it submits the
    decimal string of that draw; whatever code was stored before no longer
    counts. *)
Theorem latest_code_only (sent : VerifySendRequest.t)
    (confirm : VerifyConfirmRequest.t) (entropy : N) (now now_sms now' : Z)
    (d : database) (contact : doc) :
  unique_ids d →
  find_one
    (ByFields [("phone", VStr (_normalize_phone (VerifySendRequest.phone sent)))])
    (coll d "contact") = Some contact →
  _normalize_phone (VerifyConfirmRequest.phone confirm)
  = _normalize_phone (VerifySendRequest.phone sent) →
  ∃ d1,
    send_verification env sent entropy now now_sms (Some d)
    = (Returned [("message", VStr (py "Verification sent"))], Some d1)
    ∧ (confirm_verification confirm now' (Some d1)).1
      = if bool_decide (VerifyConfirmRequest.code confirm = new_code entropy)
        then Returned [("message", VStr (py "Phone verified"));
                       ("contact_id", VStr (str_oid (_id contact)))]
        else Raised (HTTPException 400 (py "Invalid verification code")).
Proof.
  intros Hu Hf Hphone.
  destruct (find_one_split _ _ _ Hf) as (pre & post & Hc & Hm & Hpre).
  destruct (resend_effect contact
              (_normalize_phone (VerifySendRequest.phone sent))
              [("message", VStr (py "Verification sent"))]
              entropy now now_sms d pre post Hu Hc)
    as (d1 & row & Hres & Hc1 & Hu1 & _).
  exists d1. split.
  { unfold send_verification, _collection. cbv zeta. by rewrite Hf. }
  unfold confirm_verification, _collection. cbv zeta.
  rewrite Hphone, Hc1. erewrite find_one_middle; [|done|].
  2:{ apply matches_phone. simpl. rewrite !lookup_insert_ne by done.
      by apply matches_phone. }
  cbn [fields _id]. rewrite lookup_insert_eq.
  case_bool_decide as Hcode.
  - rewrite bool_decide_eq_true_2 by congruence. cbn [negb].
    by destruct (update_one_set "contact" (ById (_id contact))
                   [("phone_verified", VBool true);
                    ("verification_code", VNull);
                    ("updated_at", VTime now')] d1) as (d2 & -> & _).
  - rewrite bool_decide_eq_false_2 by congruence. done.
Qed.

(** X6: a confirmation uses the code up.  After a successful
    confirmation the contact is verified and holds no code, so every
    further confirmation for that phone, with the same code or any other,
    is answered 400 and changes nothing. *)
Theorem confirmation_consumes_code (confirm again : VerifyConfirmRequest.t)
    (now now' : Z) (d : database) (contact : doc) :
  unique_ids d →
  find_one
    (ByFields
       [("phone", VStr (_normalize_phone (VerifyConfirmRequest.phone confirm)))])
    (coll d "contact") = Some contact →
  fields contact !! "verification_code"
  = Some (VStr (VerifyConfirmRequest.code confirm)) →
  _normalize_phone (VerifyConfirmRequest.phone again)
  = _normalize_phone (VerifyConfirmRequest.phone confirm) →
  ∃ d1 pre x post,
    confirm_verification confirm now (Some d)
    = (Returned [("message", VStr (py "Phone verified"));
                 ("contact_id", VStr (str_oid (_id contact)))], Some d1)
    ∧ coll d1 "contact" = pre ++ x :: post
    ∧ _id x = _id contact
    ∧ verified x
    ∧ fields x !! "verification_code" = Some VNull
    ∧ confirm_verification again now' (Some d1)
      = (Raised (HTTPException 400 (py "Invalid verification code")), Some d1).
Proof.
  intros Hu Hf Hcode Hphone.
  destruct (find_one_split _ _ _ Hf) as (pre & post & Hc & Hm & Hpre).
  set (x := Doc (_id contact)
              (<["phone_verified" := VBool true]>
                 (<["verification_code" := VNull]>
                    (<["updated_at" := VTime now]> (fields contact))))).
  exists (set_coll "contact" (pre ++ x :: post) d), pre, x, post.
  split; [|split; [|split; [done|split; [|split]]]].
  - unfold confirm_verification, _collection. cbv zeta. rewrite Hf.
    rewrite bool_decide_eq_true_2 by done. cbn [negb].
    by rewrite (update_one_by_id "contact" _ d pre post contact Hu Hc).
  - by rewrite coll_set_coll, decide_True.
  - unfold verified, x. simpl. by rewrite lookup_insert_eq.
  - unfold x. simpl. rewrite lookup_insert_ne by done.
    by rewrite lookup_insert_eq.
  - unfold confirm_verification, _collection. cbv zeta.
    rewrite Hphone, coll_set_coll, decide_True by done.
    erewrite find_one_middle; [|done|].
    2:{ apply matches_phone. unfold x. simpl.
        rewrite !lookup_insert_ne by done. by apply matches_phone. }
    rewrite bool_decide_eq_false_2; [done|].
    unfold x. simpl. rewrite lookup_insert_ne by done.
    by rewrite lookup_insert_eq.
Qed.

End CodeLifecycle.

Lemma latest_code_only_witness :
  unique_ids sample_db
  ∧ find_one
      (ByFields
         [("phone",
           VStr (@_normalize_phone ascii_only (VerifySendRequest.phone send_ana)))])
      (coll sample_db "contact") = Some sample_contact
  ∧ @_normalize_phone ascii_only (VerifyConfirmRequest.phone confirm_fresh)
    = @_normalize_phone ascii_only (VerifySendRequest.phone send_ana)
  ∧ ∃ d1,
      @send_verification ascii_only failing_provider send_ana 7 1 2
        (Some sample_db)
      = (Returned [("message", VStr (py "Verification sent"))], Some d1)
      ∧ (@confirm_verification ascii_only confirm_fresh 3 (Some d1)).1
        = Returned [("message", VStr (py "Phone verified"));
                    ("contact_id", VStr (str_oid 0))].
Proof.
  assert (find_one
            (ByFields
               [("phone",
                 VStr (@_normalize_phone ascii_only
                         (VerifySendRequest.phone send_ana)))])
            (coll sample_db "contact") = Some sample_contact) as Hf
    by (vm_compute; reflexivity).
  assert (@_normalize_phone ascii_only (VerifyConfirmRequest.phone confirm_fresh)
          = @_normalize_phone ascii_only (VerifySendRequest.phone send_ana))
    as Hp by (vm_compute; reflexivity).
  split; [exact sample_db_unique_ids|]. split; [exact Hf|]. split; [exact Hp|].
  destruct (@latest_code_only ascii_only failing_provider send_ana confirm_fresh
              7 1 2 3 sample_db sample_contact sample_db_unique_ids Hf Hp)
    as (d1 & Hs & Hc).
  exists d1. split; [exact Hs|].
  rewrite Hc. rewrite bool_decide_eq_true_2; [reflexivity|].
  vm_compute. reflexivity.
Defined.

Lemma confirmation_consumes_code_witness :
  unique_ids sample_db
  ∧ find_one
      (ByFields
         [("phone",
           VStr (@_normalize_phone ascii_only
                   (VerifyConfirmRequest.phone confirm_ana)))])
      (coll sample_db "contact") = Some sample_contact
  ∧ fields sample_contact !! "verification_code"
    = Some (VStr (VerifyConfirmRequest.code confirm_ana))
  ∧ ∃ d1,
      (@confirm_verification ascii_only confirm_ana 1 (Some sample_db)).2
      = Some d1
      ∧ @confirm_verification ascii_only confirm_ana 2 (Some d1)
        = (Raised (HTTPException 400 (py "Invalid verification code")), Some d1).
Proof.
  assert (find_one
            (ByFields
               [("phone",
                 VStr (@_normalize_phone ascii_only
                         (VerifyConfirmRequest.phone confirm_ana)))])
            (coll sample_db "contact") = Some sample_contact) as Hf
    by (vm_compute; reflexivity).
  assert (fields sample_contact !! "verification_code"
          = Some (VStr (VerifyConfirmRequest.code confirm_ana))) as Hcode
    by (vm_compute; reflexivity).
  split; [exact sample_db_unique_ids|]. split; [exact Hf|]. split; [exact Hcode|].
  destruct (@confirmation_consumes_code ascii_only confirm_ana confirm_ana 1 2
              sample_db sample_contact sample_db_unique_ids Hf Hcode eq_refl)
    as (d1 & pre & x & post & Hfirst & _ & _ & _ & _ & Hagain).
  exists d1. split; [by rewrite Hfirst|exact Hagain].
Defined.

(** ** Registration of a new phone *)

Section NewContact.
Context `{PyUnicode} (env : Env).

(** The segment [register_contact] computes is one of the two the schema
    allows, so only the brand queue can be refused. *)
Lemma contact_of_payload_cases (payload : RegistrationRequest.t)
    (phone code : pystr) :
  let brand := str_lower (py_or (RegistrationRequest.brand_queue payload)
                            (py "anomaly")) in
  if one_of brand ["anomaly"; "arcane"]
  then ∃ c segment,
         contact_of_payload payload phone code = Returned c
         ∧ (segment = py "local" ∨ segment = py "out_of_state")
         ∧ c !! "name" = Some (VStr (RegistrationRequest.name payload))
         ∧ c !! "phone" = Some (VStr phone)
         ∧ c !! "segment" = Some (VStr segment)
         ∧ c !! "brand_queue" = Some (VStr brand)
         ∧ c !! "status" = Some (VStr (py "pending"))
         ∧ c !! "phone_verified" = Some (VBool false)
         ∧ c !! "verification_code" = Some (VStr code)
  else contact_of_payload payload phone code
       = Raised (ValidationError "Contact" "brand_queue").
Proof.
  intros brand. unfold contact_of_payload, Contact. fold brand.
  destruct (one_of (str_upper _) _).
  - change (negb (one_of (py "local") ["local"; "out_of_state"])) with false.
    cbv iota. destruct (one_of brand ["anomaly"; "arcane"]); [|done].
    change (negb (one_of (py "pending") ["pending"; "approved"; "rejected"]))
      with false.
    cbv iota. cbn [negb]. eexists _, (py "local").
    split; [done|]. split; [by left|]. done.
  - change (negb (one_of (py "out_of_state") ["local"; "out_of_state"]))
      with false.
    cbv iota. destruct (one_of brand ["anomaly"; "arcane"]); [|done].
    change (negb (one_of (py "pending") ["pending"; "approved"; "rejected"]))
      with false.
    cbv iota. cbn [negb]. eexists _, (py "out_of_state").
    split; [done|]. split; [by right|]. done.
Qed.

(** X7: the brand queue of a registration is checked against the schema
    only when a contact is created.  For a phone that has no contact, a
    brand queue that is not [anomaly] or [arcane] after lower-casing raises
    the schema's validation error before anything is stored or sent; for a
    phone that has a contact, the same request is a resend and succeeds. *)
Theorem register_brand_checked_on_creation_only
    (payload : RegistrationRequest.t) (entropy : N) (now now_sms : Z)
    (d : database) :
  one_of (str_lower (py_or (RegistrationRequest.brand_queue payload)
                       (py "anomaly"))) ["anomaly"; "arcane"] = false →
  let phone := _normalize_phone (RegistrationRequest.phone payload) in
  (find_one (ByFields [("phone", VStr phone)]) (coll d "contact") = None →
   register_contact env payload entropy now now_sms (Some d)
   = (Raised (ValidationError "Contact" "brand_queue"), Some d))
  ∧ (∀ existing,
       find_one (ByFields [("phone", VStr phone)]) (coll d "contact")
       = Some existing →
       (register_contact env payload entropy now now_sms (Some d)).1
       = Returned
           [("id", VStr (str_oid (_id existing))); ("phone", VStr phone);
            ("message", VStr (py "Contact exists, verification re-sent"))]).
Proof.
  intros Hbad phone. split.
  - intros Hn. unfold register_contact, _collection. cbv zeta. fold phone.
    rewrite Hn.
    pose proof (contact_of_payload_cases payload phone (new_code entropy)) as Hc.
    cbv zeta in Hc. rewrite Hbad in Hc. by rewrite Hc.
  - intros existing Hf. unfold register_contact, _collection. cbv zeta.
    fold phone. rewrite Hf.
    by destruct (resend_eq env existing phone
                   [("id", VStr (str_oid (_id existing)));
                    ("phone", VStr phone);
                    ("message", VStr (py "Contact exists, verification re-sent"))]
                   entropy now now_sms d) as (d1 & _ & ->).
Qed.

(** X8: a first registration and the confirmation of its code.  For a
    phone without a contact and a brand queue the schema accepts, the
    registration appends one contact, unverified and [pending], holding the
    code of the draw; confirming that code for the same normalized phone
    answers with the id the registration returned and leaves that contact
    verified, without a code. *)
Theorem register_then_confirm (payload : RegistrationRequest.t)
    (confirm : VerifyConfirmRequest.t) (entropy : N) (now now_sms now' : Z)
    (d : database) :
  unique_ids d →
  one_of (str_lower (py_or (RegistrationRequest.brand_queue payload)
                       (py "anomaly"))) ["anomaly"; "arcane"] = true →
  find_one
    (ByFields
       [("phone", VStr (_normalize_phone (RegistrationRequest.phone payload)))])
    (coll d "contact") = None →
  _normalize_phone (VerifyConfirmRequest.phone confirm)
  = _normalize_phone (RegistrationRequest.phone payload) →
  VerifyConfirmRequest.code confirm = new_code entropy →
  ∃ d1 d2 x1 x2,
    register_contact env payload entropy now now_sms (Some d)
    = (Returned
         [("id", VStr (str_oid (next_oid d)));
          ("phone",
           VStr (_normalize_phone (RegistrationRequest.phone payload)));
          ("message", VStr (py "Registration received. Verification sent."))],
       Some d1)
    ∧ coll d1 "contact" = coll d "contact" ++ [x1]
    ∧ _id x1 = next_oid d
    ∧ fields x1 !! "phone_verified" = Some (VBool false)
    ∧ fields x1 !! "status" = Some (VStr (py "pending"))
    ∧ fields x1 !! "verification_code" = Some (VStr (new_code entropy))
    ∧ confirm_verification confirm now' (Some d1)
      = (Returned [("message", VStr (py "Phone verified"));
                   ("contact_id", VStr (str_oid (next_oid d)))], Some d2)
    ∧ coll d2 "contact" = coll d "contact" ++ [x2]
    ∧ _id x2 = next_oid d
    ∧ verified x2
    ∧ fields x2 !! "verification_code" = Some VNull.
Proof.
  intros Hu Hbrand Hn Hphone Hcode.
  pose proof (contact_of_payload_cases payload
                (_normalize_phone (RegistrationRequest.phone payload))
                (new_code entropy)) as Hc.
  cbv zeta in Hc. rewrite Hbrand in Hc.
  destruct Hc as (c & segment & Hc & _ & _ & Hcphone & _ & _ & Hcstatus
                  & Hcver & Hccode).
  destruct (register_new env payload entropy now now_sms d c Hu Hn Hc)
    as (d1 & Hreg & Hc1 & Hu1).
  set (x1 := Doc (next_oid d)
               (<["created_at" := VTime now]> (<["updated_at" := VTime now]> c)))
    in *.
  set (x2 := Doc (next_oid d)
               (<["phone_verified" := VBool true]>
                  (<["verification_code" := VNull]>
                     (<["updated_at" := VTime now']> (fields x1))))).
  exists d1, (set_coll "contact" (coll d "contact" ++ [x2]) d1), x1, x2.
  split; [done|]. split; [done|]. split; [done|].
  split; [by unfold x1; simpl; rewrite !lookup_insert_ne by done|].
  split; [by unfold x1; simpl; rewrite !lookup_insert_ne by done|].
  split; [by unfold x1; simpl; rewrite !lookup_insert_ne by done|].
  split; [|split; [by rewrite coll_set_coll, decide_True|split; [done|split]]].
  - unfold confirm_verification, _collection. cbv zeta. rewrite Hphone, Hc1.
    rewrite (find_one_snoc _ _ x1 Hn).
    2:{ apply matches_phone. unfold x1. simpl.
        by rewrite !lookup_insert_ne by done. }
    rewrite bool_decide_eq_true_2.
    2:{ unfold x1. simpl. rewrite !lookup_insert_ne by done. by rewrite Hcode. }
    cbn [negb].
    by rewrite (update_one_by_id "contact" _ d1 (coll d "contact") [] x1 Hu1 Hc1).
  - unfold verified, x2. simpl. by rewrite lookup_insert_eq.
  - unfold x2. simpl. rewrite lookup_insert_ne by done.
    by rewrite lookup_insert_eq.
Qed.

End NewContact.

Lemma register_brand_checked_on_creation_only_witness :
  one_of (@str_lower ascii_only
            (py_or (RegistrationRequest.brand_queue vip) (py "anomaly")))
    ["anomaly"; "arcane"] = false
  ∧ @register_contact ascii_only failing_provider vip 9 1 2 (Some sample_db)
    = (Raised (ValidationError "Contact" "brand_queue"), Some sample_db).
Proof.
  split; [vm_compute; reflexivity|].
  apply (@register_brand_checked_on_creation_only ascii_only failing_provider
           vip 9 1 2 sample_db); vm_compute; reflexivity.
Defined.

Lemma register_then_confirm_witness :
  unique_ids sample_db
  ∧ one_of (@str_lower ascii_only
              (py_or (RegistrationRequest.brand_queue bo) (py "anomaly")))
      ["anomaly"; "arcane"] = true
  ∧ VerifyConfirmRequest.code confirm_bo = new_code 9
  ∧ ∃ d1 d2,
      (@register_contact ascii_only failing_provider bo 9 1 2
         (Some sample_db)).2 = Some d1
      ∧ @confirm_verification ascii_only confirm_bo 3 (Some d1)
        = (Returned [("message", VStr (py "Phone verified"));
                     ("contact_id", VStr (str_oid 2))], Some d2).
Proof.
  assert (one_of (@str_lower ascii_only
                    (py_or (RegistrationRequest.brand_queue bo) (py "anomaly")))
            ["anomaly"; "arcane"] = true) as Hb by (vm_compute; reflexivity).
  assert (VerifyConfirmRequest.code confirm_bo = new_code 9) as Hcode
    by (vm_compute; reflexivity).
  split; [exact sample_db_unique_ids|]. split; [exact Hb|]. split; [exact Hcode|].
  destruct (@register_then_confirm ascii_only failing_provider bo confirm_bo
              9 1 2 3 sample_db sample_db_unique_ids Hb)
    as (d1 & d2 & x1 & x2 & Hreg & _ & _ & _ & _ & _ & Hconf & _);
    [vm_compute; reflexivity|vm_compute; reflexivity|exact Hcode|].
  exists d1, d2. split; [by rewrite Hreg|exact Hconf].
Defined.

(** ** Resending a code *)

Section Resend.
Context `{PyUnicode} (env : Env).

(** X9: what [send_verification] does to the store.  For a phone without
    a contact it answers 404 and changes nothing.  For a stored contact it
    stores the code of the draw on that contact, where it stands, and logs
    exactly one SMS row, addressed to the normalized phone, whose body is
    the fixed text followed by that same code; no other collection
    changes. *)
Theorem send_verification_effect (payload : VerifySendRequest.t) (entropy : N)
    (now now_sms : Z) (d : database) :
  unique_ids d →
  let phone := _normalize_phone (VerifySendRequest.phone payload) in
  (find_one (ByFields [("phone", VStr phone)]) (coll d "contact") = None →
   send_verification env payload entropy now now_sms (Some d)
   = (Raised (HTTPException 404 (py "Contact not found")), Some d))
  ∧ (∀ contact,
       find_one (ByFields [("phone", VStr phone)]) (coll d "contact")
       = Some contact →
       ∃ d1 pre post row,
         send_verification env payload entropy now now_sms (Some d)
         = (Returned [("message", VStr (py "Verification sent"))], Some d1)
         ∧ coll d "contact" = pre ++ contact :: post
         ∧ coll d1 "contact"
           = pre ++ Doc (_id contact)
                      (<["verification_code" := VStr (new_code entropy)]>
                         (<["updated_at" := VTime now]> (fields contact)))
                 :: post
         ∧ coll d1 "smsmessage" = coll d "smsmessage" ++ [row]
         ∧ fields row !! "to" = Some (VStr phone)
         ∧ fields row !! "body"
           = Some (VStr (py "Anomaly verification code: " ++ new_code entropy))
         ∧ fields row !! "purpose" = Some (VStr (py "verify"))
         ∧ (∀ m, m ≠ "contact" → m ≠ "smsmessage" → coll d1 m = coll d m)).
Proof.
  intros Hu phone. unfold send_verification, _collection. cbv zeta. fold phone.
  split; [by intros ->|].
  intros contact Hf. rewrite Hf.
  destruct (find_one_split _ _ _ Hf) as (pre & post & Hc & _ & _).
  destruct (resend_effect env contact phone
              [("message", VStr (py "Verification sent"))]
              entropy now now_sms d pre post Hu Hc)
    as (d1 & row & Hres & Hc1 & _ & Hsms & Hto & Hbody & Hpurpose & Hframe).
  exists d1, pre, post, row. rewrite Hres.
  unfold phone in Hto. rewrite normalize_again in Hto.
  by repeat (split; [done|]).
Qed.

End Resend.

Lemma send_verification_effect_witness :
  unique_ids sample_db
  ∧ ∃ d1 row,
      (@send_verification ascii_only failing_provider send_ana 7 1 2
         (Some sample_db)).2 = Some d1
      ∧ coll d1 "smsmessage" = [row]
      ∧ fields row !! "body"
        = Some (VStr (py "Anomaly verification code: 100007")).
Proof.
  split; [exact sample_db_unique_ids|].
  destruct (@send_verification_effect ascii_only failing_provider send_ana
              7 1 2 sample_db sample_db_unique_ids) as [_ Hok].
  destruct (Hok sample_contact)
    as (d1 & pre & post & row & Hs & _ & _ & Hsms & _ & Hbody & _).
  - vm_compute. reflexivity.
  - exists d1, row. rewrite Hs. split; [reflexivity|].
    split; [exact Hsms|exact Hbody].
Defined.

(** ** Sends and their callbacks *)

Lemma truthy_nonempty (s : pystr) : s ≠ [] → truthy (Some s) = true.
Proof. by destruct s. Qed.

(** A callback on a store where the first row with its sid is [row]. *)
Lemma webhook_updates (form : StatusForm.t) (now_set now_log : Z)
    (d : database) (sid : pystr) (pre post : list doc) (row : doc) :
  StatusForm.MessageSid form = Some sid →
  sid ≠ [] →
  coll d "smsmessage" = pre ++ row :: post →
  Forall (λ x, matches (ByFields [("provider_message_sid", VStr sid)]) x = false)
    pre →
  fields row !! "provider_message_sid" = Some (VStr sid) →
  array_or_missing (fields row !! "logs") = true →
  sms_status_webhook form now_set now_log (Some d)
  = (Returned [("ok", VBool true)],
     Some (set_coll "smsmessage"
             (pre ++ Doc (_id row)
                       (<["logs" :=
                            VLogs (logs_of row
                                   ++ [LogEntry (StatusForm.MessageStatus form)
                                         now_log (StatusForm.To form)
                                         (StatusForm.ErrorCode form)])]>
                          (<["status" := opt_str (StatusForm.MessageStatus form)]>
                             (<["updated_at" := VTime now_set]> (fields row))))
                  :: post) d)).
Proof.
  intros Hsid Hne Hc Hpre Hrow Hlogs.
  unfold sms_status_webhook, _collection. rewrite Hsid, truthy_nonempty by done.
  cbn [negb opt_str]. unfold update_one. rewrite Hc.
  rewrite (update_first_split _ _ pre post row Hpre).
  - by rewrite apply_status_update.
  - simpl. by rewrite bool_decide_eq_true_2.
Qed.

(** A callback on a store where no row has its sid. *)
Lemma webhook_inserts (form : StatusForm.t) (now_set now_log : Z)
    (d : database) (sid : pystr) :
  StatusForm.MessageSid form = Some sid →
  sid ≠ [] →
  find_one (ByFields [("provider_message_sid", VStr sid)]) (coll d "smsmessage")
  = None →
  sms_status_webhook form now_set now_log (Some d)
  = (Returned [("ok", VBool true)],
     Some (insert_one "smsmessage"
             (<["logs" := VLogs [LogEntry (StatusForm.MessageStatus form)
                                   now_log (StatusForm.To form)
                                   (StatusForm.ErrorCode form)]]>
                (<["status" := opt_str (StatusForm.MessageStatus form)]>
                   (<["updated_at" := VTime now_set]>
                      (<["provider_message_sid" := VStr sid]> ∅))))
             d).2).
Proof.
  intros Hsid Hne Hn%find_one_none.
  unfold sms_status_webhook, _collection. rewrite Hsid, truthy_nonempty by done.
  cbn [negb opt_str]. unfold update_one.
  by rewrite (update_first_nomatch _ _ _ Hn).
Qed.

Section SendThenCallback.
Context `{PyUnicode} (env : Env).

(** X10: a delivered send and its callback meet on one row.  When the
    provider accepts a message and returns a sid that no logged row carries
    yet, the gateway logs the row as [sent] with that sid, and a later
    callback with the sid rewrites that very row: its status becomes the
    reported one and its [logs] hold the single entry of the callback; no
    row is added. *)
Theorem callback_reconciles_sent_row (client : Client)
    (to body purpose sid : pystr) (now now_set now_log : Z)
    (form : StatusForm.t) (d : database) :
  twilio_client env = Some client →
  truthy (TWILIO_FROM_NUMBER env) = true →
  client (_normalize_phone to) (default [] (TWILIO_FROM_NUMBER env)) body
    (if truthy (TWILIO_STATUS_WEBHOOK env)
     then TWILIO_STATUS_WEBHOOK env else None) = Delivered sid →
  sid ≠ [] →
  one_of purpose purposes = true →
  find_one (ByFields [("provider_message_sid", VStr sid)]) (coll d "smsmessage")
  = None →
  StatusForm.MessageSid form = Some sid →
  ∃ d1 d2 row row',
    _send_sms env to body purpose now d = (Returned (Some sid), d1)
    ∧ coll d1 "smsmessage" = coll d "smsmessage" ++ [row]
    ∧ fields row !! "status" = Some (VStr (py "sent"))
    ∧ fields row !! "provider_message_sid" = Some (VStr sid)
    ∧ sms_status_webhook form now_set now_log (Some d1)
      = (Returned [("ok", VBool true)], Some d2)
    ∧ coll d2 "smsmessage" = coll d "smsmessage" ++ [row']
    ∧ _id row' = _id row
    ∧ fields row' !! "status" = Some (opt_str (StatusForm.MessageStatus form))
    ∧ fields row' !! "to" = Some (VStr (_normalize_phone to))
    ∧ fields row' !! "body" = Some (VStr body)
    ∧ logs_of row'
      = [LogEntry (StatusForm.MessageStatus form) now_log (StatusForm.To form)
           (StatusForm.ErrorCode form)].
Proof.
  intros Hclient Hfrom Hsent Hne Hp Hn Hsid.
  set (row := Doc (next_oid d)
                (<["created_at" := VTime now]>
                   (<["updated_at" := VTime now]>
                      (Smsmessage_fields (_normalize_phone to) body purpose
                         (py "sent") (Some sid) None)))).
  set (d1 := (create_document "smsmessage"
                (Smsmessage_fields (_normalize_phone to) body purpose
                   (py "sent") (Some sid) None) now d).2).
  assert (coll d1 "smsmessage" = coll d "smsmessage" ++ [row]) as Hc1
    by (unfold d1; by rewrite coll_create_document, decide_True).
  eexists d1, _, row, _.
  split.
  { unfold _send_sms. rewrite Hclient, Hfrom, Hsent.
    by rewrite !(Smsmessage_ok _ _ _ _ _ _ Hp) by reflexivity. }
  split; [done|]. split; [done|]. split; [done|].
  split.
  { apply (webhook_updates form now_set now_log d1 sid
             (coll d "smsmessage") [] row); try done.
    by apply find_one_none. }
  split; [by rewrite coll_set_coll, decide_True|].
  by repeat split.
Qed.

End SendThenCallback.

(** X11: callbacks with a sid that no row carries share one row.  The
    first callback appends a row that holds only the sid, the status, the
    timestamp and its log entry; a second callback with the same sid
    rewrites that row, so that the store gains one row and one identifier,
    the status is the second one, and [logs] hold both entries in the order
    of arrival. *)
Theorem callbacks_share_one_row (first second : StatusForm.t)
    (t1 t1' t2 t2' : Z) (d : database) (sid : pystr) :
  StatusForm.MessageSid first = Some sid →
  StatusForm.MessageSid second = Some sid →
  sid ≠ [] →
  find_one (ByFields [("provider_message_sid", VStr sid)]) (coll d "smsmessage")
  = None →
  ∃ d1 d2 row,
    sms_status_webhook first t1 t1' (Some d) = (Returned [("ok", VBool true)], Some d1)
    ∧ sms_status_webhook second t2 t2' (Some d1)
      = (Returned [("ok", VBool true)], Some d2)
    ∧ coll d2 "smsmessage" = coll d "smsmessage" ++ [row]
    ∧ next_oid d2 = next_oid d + 1
    ∧ _id row = next_oid d
    ∧ fields row !! "provider_message_sid" = Some (VStr sid)
    ∧ fields row !! "status" = Some (opt_str (StatusForm.MessageStatus second))
    ∧ fields row !! "updated_at" = Some (VTime t2)
    ∧ fields row !! "to" = None
    ∧ fields row !! "body" = None
    ∧ logs_of row
      = [LogEntry (StatusForm.MessageStatus first) t1' (StatusForm.To first)
           (StatusForm.ErrorCode first);
         LogEntry (StatusForm.MessageStatus second) t2' (StatusForm.To second)
           (StatusForm.ErrorCode second)].
Proof.
  intros Hs1 Hs2 Hne Hn.
  set (f1 := <["logs" := VLogs [LogEntry (StatusForm.MessageStatus first) t1'
                                  (StatusForm.To first)
                                  (StatusForm.ErrorCode first)]]>
               (<["status" := opt_str (StatusForm.MessageStatus first)]>
                  (<["updated_at" := VTime t1]>
                     (<["provider_message_sid" := VStr sid]>
                        (∅ : gmap string value))))).
  set (d1 := (insert_one "smsmessage" f1 d).2).
  assert (coll d1 "smsmessage" = coll d "smsmessage" ++ [Doc (next_oid d) f1])
    as Hc1 by (unfold d1; by rewrite coll_insert_one, decide_True).
  eexists d1, _, _.
  split; [by apply webhook_inserts|].
  split.
  { apply (webhook_updates second t2 t2' d1 sid (coll d "smsmessage") []
             (Doc (next_oid d) f1)); try done.
    by apply find_one_none. }
  split; [by rewrite coll_set_coll, decide_True|].
  by repeat split.
Qed.

Lemma callback_reconciles_sent_row_witness :
  twilio_client accepting_provider = Some (λ _ _ _ _, Delivered (py "SM1"))
  ∧ truthy (TWILIO_FROM_NUMBER accepting_provider) = true
  ∧ py "SM1" ≠ []
  ∧ one_of (py "verify") purposes = true
  ∧ find_one (ByFields [("provider_message_sid", VStr (py "SM1"))])
      (coll sample_db "smsmessage") = None
  ∧ StatusForm.MessageSid delivered_form = Some (py "SM1")
  ∧ ∃ d1 d2 row',
      @_send_sms ascii_only accepting_provider (py "555-000-1111") (py "hello")
        (py "verify") 1 sample_db = (Returned (Some (py "SM1")), d1)
      ∧ sms_status_webhook delivered_form 2 3 (Some d1)
        = (Returned [("ok", VBool true)], Some d2)
      ∧ coll d2 "smsmessage" = [row']
      ∧ fields row' !! "status" = Some (VStr (py "delivered")).
Proof.
  assert (py "SM1" ≠ []) as Hne by discriminate.
  split; [reflexivity|]. split; [reflexivity|]. split; [exact Hne|].
  split; [reflexivity|]. split; [reflexivity|]. split; [reflexivity|].
  destruct (@callback_reconciles_sent_row ascii_only accepting_provider
              (λ _ _ _ _, Delivered (py "SM1"))
              (py "555-000-1111") (py "hello") (py "verify") (py "SM1") 1 2 3
              delivered_form sample_db eq_refl eq_refl eq_refl Hne eq_refl
              eq_refl eq_refl)
    as (d1 & d2 & row & row' & Hsend & _ & _ & _ & Hcb & Hcoll & _ & Hst & _).
  exists d1, d2, row'. split; [exact Hsend|]. split; [exact Hcb|].
  split; [exact Hcoll|exact Hst].
Defined.

Lemma callbacks_share_one_row_witness :
  StatusForm.MessageSid delivered_form = Some (py "SM1")
  ∧ StatusForm.MessageSid failed_form = Some (py "SM1")
  ∧ py "SM1" ≠ []
  ∧ find_one (ByFields [("provider_message_sid", VStr (py "SM1"))])
      (coll sample_db "smsmessage") = None
  ∧ ∃ d1 d2 row,
      sms_status_webhook delivered_form 1 2 (Some sample_db)
      = (Returned [("ok", VBool true)], Some d1)
      ∧ sms_status_webhook failed_form 3 4 (Some d1)
        = (Returned [("ok", VBool true)], Some d2)
      ∧ coll d2 "smsmessage" = [row]
      ∧ fields row !! "status" = Some (VStr (py "failed"))
      ∧ List.length (logs_of row) = 2%nat.
Proof.
  assert (py "SM1" ≠ []) as Hne by discriminate.
  split; [reflexivity|]. split; [reflexivity|]. split; [exact Hne|].
  split; [reflexivity|].
  destruct (callbacks_share_one_row delivered_form failed_form 1 2 3 4
              sample_db (py "SM1") eq_refl eq_refl Hne eq_refl)
    as (d1 & d2 & row & H1 & H2 & Hcoll & _ & _ & _ & Hst & _ & _ & _ & Hlogs).
  exists d1, d2, row. split; [exact H1|]. split; [exact H2|].
  split; [exact Hcoll|]. split; [exact Hst|]. by rewrite Hlogs.
Defined.

(** ** Frames, growth and one contact per phone *)

Lemma grows_refl (d : database) : grows d d.
Proof. split; [lia|]. intros name. exists []. by rewrite app_nil_r. Qed.

Lemma grows_trans (d1 d2 d3 : database) :
  grows d1 d2 → grows d2 d3 → grows d1 d3.
Proof.
  intros [Hn1 H1] [Hn2 H2]. split; [lia|]. intros name.
  destruct (H1 name) as [e1 He1]. destruct (H2 name) as [e2 He2].
  exists (e1 ++ e2). by rewrite He2, He1, app_assoc.
Qed.

Lemma kept_refl (o : operation) (d : database) : kept o d d.
Proof. split; [done|]. split; [apply grows_refl|done]. Qed.

Lemma kept_trans (o : operation) (d1 d2 d3 : database) :
  kept o d1 d2 → kept o d2 d3 → kept o d1 d3.
Proof.
  intros (Hf1 & Hg1 & Hp1) (Hf2 & Hg2 & Hp2). split; [|split].
  - intros name Hn. by rewrite Hf2, Hf1.
  - by eapply grows_trans.
  - auto.
Qed.

(** A [$set] that leaves [phone] alone changes the number of contacts of
    no phone. *)
Lemma contacts_of_phone_set_rel (p : pystr) (l : list (string * value))
    (c c' : list doc) :
  (∀ f, set_fields l f !! "phone" = f !! "phone") →
  Forall2 (set_rel l) c c' →
  List.length (List.filter (matches (ByFields [("phone", VStr p)])) c')
  = List.length (List.filter (matches (ByFields [("phone", VStr p)])) c).
Proof.
  intros Hl. induction 1 as [|x x' c c' [_ Hf] _ IH]; [done|].
  cbn [List.filter].
  assert (matches (ByFields [("phone", VStr p)]) x'
          = matches (ByFields [("phone", VStr p)]) x) as ->.
  { simpl. destruct Hf as [->| ->]; [done|]. by rewrite Hl. }
  destruct (matches _ x); simpl; by rewrite IH.
Qed.

Lemma phone_unique_frame (d d' : database) :
  coll d' "contact" = coll d "contact" → phone_unique d → phone_unique d'.
Proof. intros Hc Hp p. rewrite Hc. apply Hp. Qed.

Lemma kept_update_set (o : operation) (name : string) (q : query)
    (l : list (string * value)) (d d1 : database) :
  update_one name q (Update l None) false d = Some d1 →
  name ∈ writes o →
  (name = "contact" → ∀ f, set_fields l f !! "phone" = f !! "phone") →
  kept o d d1.
Proof.
  intros Hup Hw Hl.
  destruct (update_one_set name q l d) as (d1' & Hup' & Hn & Hf & Hm & _).
  rewrite Hup in Hup'. injection Hup' as <-.
  split; [|split; [split|]].
  - intros m Hm'. apply Hm. by intros ->.
  - lia.
  - intros m. exists []. rewrite app_nil_r.
    destruct (decide (m = name)) as [->|Hne]; [by apply (set_rel_ids l)|].
    by rewrite Hm.
  - intros Hp p. destruct (decide (name = "contact")) as [->|Hne].
    + rewrite (contacts_of_phone_set_rel p l _ _ (Hl eq_refl) Hf). apply Hp.
    + rewrite Hm by done. apply Hp.
Qed.

Lemma kept_create (o : operation) (name : string) (f : gmap string value)
    (now : Z) (d : database) :
  name ∈ writes o →
  (name = "contact" →
   ∃ p, f !! "phone" = Some (VStr p)
        ∧ find_one (ByFields [("phone", VStr p)]) (coll d "contact") = None) →
  kept o d (create_document name f now d).2.
Proof.
  intros Hw Hphone. split; [|split; [split|]].
  - intros m Hm. rewrite coll_create_document, decide_False; [done|].
    by intros ->.
  - simpl. lia.
  - intros m. rewrite coll_create_document. case_decide.
    + subst m. eexists. by rewrite List.map_app.
    + exists []. by rewrite app_nil_r.
  - intros Hp p. rewrite coll_create_document. case_decide as Hn; [|apply Hp].
    destruct (Hphone Hn) as (p' & Hf & Hnone). subst name.
    rewrite List.filter_app, length_app. cbn [List.filter].
    destruct (matches _ _) eqn:Hm; [|specialize (Hp p); simpl; lia].
    apply matches_phone in Hm. simpl in Hm.
    rewrite !lookup_insert_ne in Hm by done.
    assert (p = p') as -> by congruence.
    rewrite filter_none; [simpl; lia|]. by apply find_one_none.
Qed.

Ltac in_writes := cbn [writes]; first [by left | by right; left].

Ltac not_in_writes :=
  let Hin := fresh "Hin" in
  cbn [writes]; intros Hin;
  repeat (apply elem_of_cons in Hin as [Hin|Hin]; [discriminate|]);
  by apply elem_of_nil in Hin.

Lemma event_not_written (o : operation) : "event" ∉ writes o.
Proof.
  destruct o; not_in_writes.
Qed.

Section Frames.
Context `{PyUnicode} (env : Env).

Lemma kept_send (o : operation) (to body purpose : pystr) (now : Z)
    (d : database) :
  "smsmessage" ∈ writes o →
  kept o d (_send_sms env to body purpose now d).2.
Proof.
  intros Hw. destruct (one_of purpose purposes) eqn:Hp.
  - destruct (send_sms_valid env to body purpose now d Hp)
      as (sid & status & err & _ & ->).
    cbn [snd]. by apply kept_create.
  - rewrite send_sms_invalid by done. apply kept_refl.
Qed.

Lemma kept_webhook (o : operation) (fl l : list (string * value))
    (e : log_entry) (d d1 : database) :
  update_one "smsmessage" (ByFields fl) (Update l (Some ("logs", e))) true d
  = Some d1 →
  "smsmessage" ∈ writes o →
  kept o d d1.
Proof.
  intros Hup Hw.
  destruct (update_one_push_effect _ _ _ _ _ Hup) as (Hm & _ & _).
  split; [|split; [|by apply phone_unique_frame, Hm]].
  { intros m Hn. apply Hm. by intros ->. }
  revert Hup. unfold update_one.
  destruct (update_first _ _ (coll d "smsmessage")) as [| |c'] eqn:Hf.
  - destruct (apply_update _ _) as [f|]; [|done]. intros Heq.
    assert (d1 = (insert_one "smsmessage" f d).2) as -> by congruence.
    split; [simpl; lia|]. intros m. rewrite coll_insert_one. case_decide.
    + subst m. eexists. by rewrite List.map_app.
    + exists []. by rewrite app_nil_r.
  - done.
  - intros Heq. assert (d1 = set_coll "smsmessage" c' d) as -> by congruence.
    split; [simpl; lia|]. intros m. exists []. rewrite app_nil_r.
    rewrite coll_set_coll. case_decide; [|done]. subst m.
    apply update_first_updated in Hf. clear -Hf.
    induction Hf as [|x x' c c' [Hid _] _ IH]; simpl; [done|]. by f_equal.
Qed.

Lemma kept_resend (o : operation) (contact : doc) (phone : pystr) (ok : body)
    (entropy : N) (now now_sms : Z) (d : database) :
  "contact" ∈ writes o → "smsmessage" ∈ writes o →
  ∃ d', (resend env contact phone ok entropy now now_sms d).2 = Some d'
        ∧ kept o d d'.
Proof.
  intros Hc Hs.
  destruct (resend_eq env contact phone ok entropy now now_sms d)
    as (d1 & Hup & ->).
  eexists. split; [done|].
  eapply kept_trans; [|by apply kept_send].
  eapply kept_update_set; [exact Hup|done|].
  intros _ f. simpl. by rewrite !lookup_insert_ne.
Qed.

(** Every operation keeps what [kept] lists. *)
Lemma step_kept (o : operation) (d : database) :
  ∃ d', step env o (Some d) = Some d' ∧ kept o d d'.
Proof.
  destruct o as [p e t t'|p e t t'|p t|p t|f t t'|to body purpose t];
    unfold step.
  - unfold register_contact, _collection. cbv zeta.
    destruct (find_one _ (coll d "contact")) as [existing|] eqn:Hf.
    + apply kept_resend; in_writes.
    + destruct (contact_of_payload _ _ _) as [c|err] eqn:Hc;
        [|exists d; split; [done|apply kept_refl]].
      destruct (send_sms_verify_eq env
                  (_normalize_phone (RegistrationRequest.phone p))
                  (py "Anomaly verification code: " ++ new_code e) t'
                  (create_document "contact" c t d).2) as [sid ->].
      eexists. split; [done|].
      eapply kept_trans; [|apply kept_send; in_writes].
      apply kept_create; [in_writes|]. intros _.
      destruct (contact_of_payload_fields _ _ _ _ Hc) as (Hphone & _).
      by eexists.
  - unfold send_verification, _collection. cbv zeta.
    destruct (find_one _ (coll d "contact")) as [contact|];
      [|exists d; split; [done|apply kept_refl]].
    apply kept_resend; in_writes.
  - unfold confirm_verification, _collection. cbv zeta.
    destruct (find_one _ (coll d "contact")) as [contact|];
      [|exists d; split; [done|apply kept_refl]].
    case_bool_decide; cbn [negb];
      [|exists d; split; [done|apply kept_refl]].
    destruct (update_one "contact" _ _ false d) as [d1|] eqn:Hup;
      [|exists d; split; [done|apply kept_refl]].
    exists d1. split; [done|].
    eapply kept_update_set; [exact Hup|in_writes|].
    intros _ f0. simpl. by rewrite !lookup_insert_ne.
  - unfold upsert_rsvp, _collection.
    destruct (ObjectId _) as [c|]; [|exists d; split; [done|apply kept_refl]].
    destruct (ObjectId _) as [ev|]; [|exists d; split; [done|apply kept_refl]].
    case_bool_decide; cbn [negb];
      [|exists d; split; [done|apply kept_refl]].
    case_bool_decide; cbn [negb];
      [|exists d; split; [done|apply kept_refl]].
    destruct (find_one _ (coll d "rsvp")) as [r|].
    + destruct (update_one "rsvp" _ _ false d) as [d1|] eqn:Hup;
        [|exists d; split; [done|apply kept_refl]].
      exists d1. split; [done|].
      eapply kept_update_set; [exact Hup|in_writes|done].
    + destruct (Rsvp _ _ _) as [rsvp|err];
        [|exists d; split; [done|apply kept_refl]].
      eexists. split; [done|]. apply kept_create; [in_writes|done].
  - unfold sms_status_webhook, _collection.
    destruct (truthy _); cbn [negb];
      [|exists d; split; [done|apply kept_refl]].
    destruct (update_one "smsmessage" _ _ true d) as [d1|] eqn:Hup;
      [|exists d; split; [done|apply kept_refl]].
    exists d1. split; [done|]. eapply kept_webhook; [exact Hup|in_writes].
  - eexists. split; [done|]. apply kept_send. in_writes.
Qed.

Lemma run_kept (ops : list operation) (d : database) :
  ∃ d', run env ops (Some d) = Some d'
        ∧ grows d d'
        ∧ coll d' "event" = coll d "event"
        ∧ (phone_unique d → phone_unique d').
Proof.
  revert d. induction ops as [|o ops IH]; intros d.
  - exists d. split; [done|]. split; [apply grows_refl|done].
  - destruct (step_kept o d) as (d1 & Hstep & Hf & Hg & Hp).
    destruct (IH d1) as (d' & Hrun & Hg' & He' & Hp').
    exists d'. split; [|split; [|split]].
    + unfold run in *. simpl. by rewrite Hstep.
    + by eapply grows_trans.
    + rewrite He'. apply Hf, event_not_written.
    + auto.
Qed.

(** X12: each operation writes to its own collections only.  A
    registration or a resend leaves the RSVPs and the events as they were,
    a confirmation writes contacts only, an RSVP upsert writes RSVPs only,
    a callback and a gateway send write the SMS log only; in particular no
    operation writes an event. *)
Theorem operations_write_their_collections_only (o : operation)
    (d : database) :
  ∃ d',
    step env o (Some d) = Some d'
    ∧ (∀ name, name ∉ writes o → coll d' name = coll d name)
    ∧ coll d' "event" = coll d "event".
Proof.
  destruct (step_kept o d) as (d' & Hstep & Hf & _).
  exists d'. split; [done|]. split; [done|]. apply Hf, event_not_written.
Qed.

(** X13: the store only grows.  After any run, every collection still
    starts with the documents it had, identifier by identifier and in the
    same order: no operation deletes, moves or re-identifies a document,
    and the store's next identifier never goes back. *)
Theorem stores_only_grow (ops : list operation) (d : database) :
  ∃ d',
    run env ops (Some d) = Some d'
    ∧ next_oid d <= next_oid d'
    ∧ ∀ name, ∃ extra,
        List.map _id (coll d' name) = List.map _id (coll d name) ++ extra.
Proof.
  destruct (run_kept ops d) as (d' & Hrun & [Hn Hg] & _).
  by exists d'.
Qed.

(** X14: one contact per phone is an invariant of every run.  On a store
    in which no two contacts share a phone, whatever the operations and
    their order, no two contacts share a phone afterwards: lookup before
    insert is enough as long as requests are handled one after another. *)
Theorem phone_unique_kept (ops : list operation) (d : database) :
  phone_unique d →
  ∃ d', run env ops (Some d) = Some d' ∧ phone_unique d'.
Proof.
  intros Hp. destruct (run_kept ops d) as (d' & Hrun & _ & _ & Hp').
  exists d'. auto.
Qed.

End Frames.

Lemma sample_db_phone_unique : phone_unique sample_db.
Proof.
  intros p. change (coll sample_db "contact") with [sample_contact].
  cbn [List.filter]. destruct (matches _ _); simpl; lia.
Defined.

Lemma phone_unique_kept_witness :
  phone_unique sample_db
  ∧ ∃ d', @run ascii_only failing_provider sample_ops (Some sample_db) = Some d'
          ∧ phone_unique d'.
Proof.
  split; [exact sample_db_phone_unique|].
  exact (@phone_unique_kept ascii_only failing_provider sample_ops sample_db
           sample_db_phone_unique).
Defined.

(** ** Callbacks are never refused *)

Lemma webhook_acknowledged (form : StatusForm.t) (now_set now_log : Z)
    (d : database) :
  logs_ok d →
  ∃ d', sms_status_webhook form now_set now_log (Some d)
        = (Returned [("ok", VBool true)], Some d').
Proof.
  intros Hl. destruct (StatusForm.MessageSid form) as [[|ch sid]|] eqn:Hsid.
  - exists d. unfold sms_status_webhook. by rewrite Hsid.
  - destruct (find_one (ByFields [("provider_message_sid", VStr (ch :: sid))])
                (coll d "smsmessage")) as [row|] eqn:Hf.
    + destruct (find_one_split _ _ _ Hf) as (pre & post & Hc & Hm & Hpre).
      eexists. apply (webhook_updates form now_set now_log d (ch :: sid)
                        pre post row); try done.
      * simpl in Hm. rewrite andb_true_r in Hm.
        by apply bool_decide_eq_true in Hm.
      * apply (logs_ok_elem d); [done|]. rewrite Hc. set_solver.
    + eexists. by apply (webhook_inserts form now_set now_log d (ch :: sid)).
  - exists d. unfold sms_status_webhook. by rewrite Hsid.
Qed.

Section Acknowledged.
Context `{PyUnicode} (env : Env).

(** X15: on a store that the operations built, a callback is never
    refused.  Starting from a store whose SMS rows have an array or no
    [logs] field (the empty store is one), after any run of the operations
    every callback, whatever its form, is acknowledged with [{ok: true}]:
    the write error the store raises for a [$push] on a field that is not
    an array cannot occur. *)
Theorem callbacks_never_refused (ops : list operation) (form : StatusForm.t)
    (now_set now_log : Z) (d : database) :
  logs_ok d →
  ∃ d' d'',
    run env ops (Some d) = Some d'
    ∧ sms_status_webhook form now_set now_log (Some d')
      = (Returned [("ok", VBool true)], Some d'').
Proof.
  intros Hl. destruct (run_preserved env ops d) as (d' & Hrun & _ & _ & Hl' & _).
  destruct (webhook_acknowledged form now_set now_log d' (Hl' Hl)) as [d'' Hw].
  by exists d', d''.
Qed.

End Acknowledged.

Lemma callbacks_never_refused_witness :
  logs_ok empty_database
  ∧ ∃ d' d'',
      @run ascii_only accepting_provider sample_ops (Some empty_database)
      = Some d'
      ∧ sms_status_webhook failed_form 5 6 (Some d')
        = (Returned [("ok", VBool true)], Some d'').
Proof.
  assert (logs_ok empty_database) as Hl by (vm_compute; constructor).
  split; [exact Hl|].
  exact (@callbacks_never_refused ascii_only accepting_provider sample_ops
           failed_form 5 6 empty_database Hl).
Defined.
(** ** Identifiers as strings *)

Lemma hexval_hexchar (v : N) : v < 16 → hexval (hexchar v) = Some v.
Proof.
  intros Hv. unfold hexchar, hexval.
  destruct (N.ltb_spec v 10) as [Hlt|Hge].
  - replace (48 <=? 48 + v) with true by (symmetry; apply N.leb_le; lia).
    replace (48 + v <=? 57) with true by (symmetry; apply N.leb_le; lia).
    simpl. f_equal. lia.
  - replace (87 + v <=? 57) with false by (symmetry; apply N.leb_gt; lia).
    rewrite andb_false_r.
    replace (97 <=? 87 + v) with true by (symmetry; apply N.leb_le; lia).
    replace (87 + v <=? 102) with true by (symmetry; apply N.leb_le; lia).
    simpl. f_equal. lia.
Qed.

Lemma length_hex_digits (k : nat) (n : N) : List.length (hex_digits k n) = k.
Proof.
  revert n. induction k as [|k IH]; intros n; simpl; [done|].
  rewrite length_app, IH. simpl. lia.
Qed.

Lemma hexspace_hexchar (v : N) : v < 16 → hexspace (hexchar v) = false.
Proof.
  intros Hv. unfold hexchar, hexspace.
  destruct (N.ltb_spec v 10).
  - replace (48 + v <=? 13) with false by (symmetry; apply N.leb_gt; lia).
    rewrite andb_false_r. apply N.eqb_neq. lia.
  - replace (87 + v <=? 13) with false by (symmetry; apply N.leb_gt; lia).
    rewrite andb_false_r. apply N.eqb_neq. lia.
Qed.

Lemma fromhex_hex_digits (k : nat) (n : N) (rest : pystr) :
  fromhex (hex_digits (2 * k) n ++ rest)
  = (bytes_of k n ++.) <$> fromhex rest.
Proof.
  revert n rest. induction k as [|k IH]; intros n rest.
  - simpl. by destruct (fromhex rest).
  - replace (2 * S k)%nat with (S (S (2 * k))) by lia.
    cbn [hex_digits bytes_of]. rewrite <- !app_assoc. cbn [app].
    rewrite IH. cbn [fromhex].
    rewrite hexspace_hexchar by (apply N.mod_lt; lia).
    rewrite !hexval_hexchar by (apply N.mod_lt; lia).
    replace (16 * ((n / 16) mod 16) + n mod 16) with (n mod 256).
    2:{ change 256 with (16 * 16). rewrite N.Div0.mod_mul_r. lia. }
    rewrite N.Div0.div_div. change (16 * 16) with 256.
    destruct (fromhex rest) as [t|]; simpl; [|done].
    by rewrite <- app_assoc.
Qed.

Lemma length_bytes_of (k : nat) (n : N) : List.length (bytes_of k n) = k.
Proof.
  revert n. induction k as [|k IH]; intros n; simpl; [done|].
  rewrite length_app, IH. simpl. lia.
Qed.

Lemma bytes_value_bytes_of (k : nat) (n : N) :
  bytes_value (bytes_of k n) = n mod 256 ^ N.of_nat k.
Proof.
  unfold bytes_value. revert n. induction k as [|k IH]; intros n.
  - simpl. by rewrite N.mod_1_r.
  - cbn [bytes_of]. rewrite fold_left_app. cbn [fold_left]. rewrite IH.
    rewrite Nat2N.inj_succ, N.pow_succ_r'.
    rewrite (N.Div0.mod_mul_r n 256 (256 ^ N.of_nat k)). lia.
Qed.

(** An identifier below 2^96 is read back from its string. *)
Lemma ObjectId_str_oid (n : N) : n < 16 ^ 24 → ObjectId (str_oid n) = Some n.
Proof.
  intros Hn. unfold ObjectId, str_oid. rewrite length_hex_digits.
  change ((24 =? 24)%nat) with true. cbv iota.
  rewrite <- (app_nil_r (hex_digits 24 n)).
  change 24%nat with (2 * 12)%nat. rewrite fromhex_hex_digits.
  cbn [fromhex fmap option_fmap option_map]. f_equal.
  unfold oid_of_bytes. rewrite app_nil_r, length_bytes_of, bytes_value_bytes_of.
  change (N.of_nat (12 - 12)) with 0. rewrite N.mul_0_r, N.add_0_l.
  apply N.mod_small. change (N.of_nat 12) with 12.
  change (256 ^ 12) with (16 ^ 24). done.
Qed.

Lemma find_one_by_id_snoc (c : list doc) (x : doc) :
  is_Some (find_one (ById (_id x)) (c ++ [x])).
Proof.
  unfold find_one. induction c as [|y c IH]; simpl.
  - rewrite N.eqb_refl. by eexists.
  - destruct (_id y =? _id x); [by eexists|done].
Qed.

Section RegisterThenRsvp.
Context `{PyUnicode} (env : Env).

(** X16: the id a registration returns is the contact id an RSVP needs.
    After a first registration of a phone, an RSVP whose [contact_id] is
    the returned id, for a stored event and with a status of the schema,
    is neither malformed nor unknown: it inserts the first RSVP of the
    pair.  The store must not have run out of 12-byte identifiers. *)
Theorem register_then_rsvp (payload : RegistrationRequest.t)
    (rsvp : RsvpRequest.t) (entropy : N) (now now_sms now' : Z)
    (d : database) (ev : N) :
  unique_ids d →
  next_oid d < 16 ^ 24 →
  one_of (str_lower (py_or (RegistrationRequest.brand_queue payload)
                       (py "anomaly"))) ["anomaly"; "arcane"] = true →
  find_one
    (ByFields
       [("phone", VStr (_normalize_phone (RegistrationRequest.phone payload)))])
    (coll d "contact") = None →
  RsvpRequest.contact_id rsvp = str_oid (next_oid d) →
  ObjectId (RsvpRequest.event_id rsvp) = Some ev →
  is_Some (find_one (ById ev) (coll d "event")) →
  one_of (RsvpRequest.status rsvp) ["yes"; "not_this_time"; "no_response"]
    = true →
  find_one (rsvp_query (RsvpRequest.contact_id rsvp) (RsvpRequest.event_id rsvp))
    (coll d "rsvp") = None →
  ∃ d1 d2 r,
    register_contact env payload entropy now now_sms (Some d)
    = (Returned
         [("id", VStr (RsvpRequest.contact_id rsvp));
          ("phone",
           VStr (_normalize_phone (RegistrationRequest.phone payload)));
          ("message", VStr (py "Registration received. Verification sent."))],
       Some d1)
    ∧ upsert_rsvp rsvp now' (Some d1)
      = (Returned [("id", VStr (str_oid (next_oid d1)));
                   ("status", VStr (RsvpRequest.status rsvp))], Some d2)
    ∧ coll d2 "rsvp" = coll d "rsvp" ++ [r]
    ∧ fields r !! "contact_id" = Some (VStr (RsvpRequest.contact_id rsvp))
    ∧ fields r !! "event_id" = Some (VStr (RsvpRequest.event_id rsvp))
    ∧ fields r !! "status" = Some (VStr (RsvpRequest.status rsvp)).
Proof.
  intros Hu Hfresh Hbrand Hn Hid Hev Hevent Hstatus Hnone.
  pose proof (contact_of_payload_cases payload
                (_normalize_phone (RegistrationRequest.phone payload))
                (new_code entropy)) as Hc.
  cbv zeta in Hc. rewrite Hbrand in Hc. destruct Hc as (c & _ & Hc & _).
  destruct (register_new env payload entropy now now_sms d c Hu Hn Hc)
    as (d1 & Hreg & Hc1 & Hu1).
  destruct (step_kept env (Register payload entropy now now_sms) d)
    as (d1' & Hstep & Hframe & _).
  cbn [step] in Hstep. rewrite Hreg in Hstep. injection Hstep as <-.
  pose proof (Rsvp_valid (RsvpRequest.contact_id rsvp)
                (RsvpRequest.event_id rsvp) _ Hstatus) as Hf.
  set (f := set_fields _ ∅) in Hf.
  exists d1, (create_document "rsvp" f now' d1).2,
    (Doc (next_oid d1)
       (<["created_at" := VTime now']> (<["updated_at" := VTime now']> f))).
  split; [by rewrite Hid|]. split.
  - apply (upsert_rsvp_insert rsvp now' d1 (next_oid d) ev); [| | | | |done].
    + rewrite Hid. by apply ObjectId_str_oid.
    + done.
    + rewrite Hc1.
      apply (find_one_by_id_snoc (coll d "contact") (Doc (next_oid d) _)).
    + rewrite Hframe; [done|not_in_writes].
    + rewrite Hframe; [done|not_in_writes].
  - split.
    + rewrite coll_create_document, decide_True by done.
      rewrite Hframe; [done|not_in_writes].
    + subst f. simpl. by rewrite !lookup_insert_ne by done.
Qed.

End RegisterThenRsvp.

Lemma register_then_rsvp_witness :
  unique_ids sample_db
  ∧ next_oid sample_db < 16 ^ 24
  ∧ RsvpRequest.contact_id rsvp_bo = str_oid (next_oid sample_db)
  ∧ ∃ d1 d2 r,
      (@register_contact ascii_only failing_provider bo 9 1 2
         (Some sample_db)).2 = Some d1
      ∧ (upsert_rsvp rsvp_bo 3 (Some d1)).2 = Some d2
      ∧ coll d2 "rsvp" = [r]
      ∧ fields r !! "status" = Some (VStr (py "not_this_time")).
Proof.
  assert (next_oid sample_db < 16 ^ 24) as Hfresh by (vm_compute; reflexivity).
  assert (ObjectId (RsvpRequest.event_id rsvp_bo) = Some 1) as Hev
    by (vm_compute; reflexivity).
  assert (is_Some (find_one (ById 1) (coll sample_db "event"))) as Hevent
    by (vm_compute; eexists; reflexivity).
  split; [exact sample_db_unique_ids|]. split; [exact Hfresh|].
  split; [reflexivity|].
  destruct (@register_then_rsvp ascii_only failing_provider bo rsvp_bo 9 1 2 3
              sample_db 1 sample_db_unique_ids Hfresh eq_refl eq_refl eq_refl
              Hev Hevent eq_refl eq_refl)
    as (d1 & d2 & r & Hreg & Hrsvp & Hcoll & _ & _ & Hst).
  exists d1, d2, r. rewrite Hreg, Hrsvp. split; [reflexivity|].
  split; [reflexivity|]. split; [exact Hcoll|exact Hst].
Defined.

(** ** Listing contacts *)


(** ** Without a store *)

(** X18: what the routes answer when no database is configured.
    Registration, resend and confirmation answer 500 from the collection
    guard; an RSVP with an id that [ObjectId] rejects is still answered 400,
    before the guard is reached, and any other RSVP gets 500, ids with
    blanks between the bytes among them; a callback without a sid is still
    acknowledged, and gets 500 otherwise.  Nothing is stored. *)
Theorem routes_without_store `{PyUnicode} (env : Env)
    (registration : RegistrationRequest.t) (resent : VerifySendRequest.t)
    (confirm : VerifyConfirmRequest.t) (rsvp : RsvpRequest.t)
    (form : StatusForm.t) (entropy : N) (t t' : Z) :
  let unavailable : exn := HTTPException 500 (py "Database not available") in
  register_contact env registration entropy t t' None
  = (Raised unavailable, None)
  ∧ send_verification env resent entropy t t' None = (Raised unavailable, None)
  ∧ confirm_verification confirm t None = (Raised unavailable, None)
  ∧ upsert_rsvp rsvp t None
    = (Raised
         (match ObjectId (RsvpRequest.contact_id rsvp),
                ObjectId (RsvpRequest.event_id rsvp) with
          | Some _, Some _ => unavailable
          | _, _ => HTTPException 400 (py "Invalid IDs")
          end), None)
  ∧ sms_status_webhook form t t' None
    = (if truthy (StatusForm.MessageSid form)
       then Raised unavailable
       else Returned [("ok", VBool true)], None).
Proof.
  intros unavailable. do 3 (split; [done|]). split.
  - unfold upsert_rsvp.
    by destruct (ObjectId (RsvpRequest.contact_id rsvp)),
         (ObjectId (RsvpRequest.event_id rsvp)).
  - unfold sms_status_webhook. by destruct (truthy _).
Qed.

(** ** Spellings of one number *)

Section Spellings.
Context `{PyUnicode}.

Lemma In_lstrip (x : N) (s : pystr) : In x (lstrip s) → In x s.
Proof.
  induction s as [|c s IH]; simpl; [done|].
  destruct (isspace c); [|done]. intros Hx. right. by apply IH.
Qed.

Lemma In_strip (x : N) (s : pystr) : In x (strip s) → In x s.
Proof.
  unfold strip, rstrip. intros Hx%in_rev%In_lstrip%in_rev. by apply In_lstrip.
Qed.

(** A string of digits does not start with a plus sign, stripped or not. *)
Lemma digits_strip_no_plus (ds : pystr) :
  forallb isdigit ds = true → startswith (py "+") (strip ds) = false.
Proof.
  intros Hd. destruct (strip ds) as [|c t] eqn:Hs; [done|].
  change (startswith (py "+") (c :: t)) with ((43 =? c) && true).
  destruct (N.eqb_spec 43 c) as [<-|]; [|done].
  assert (In 43 ds) as Hin by (apply In_strip; rewrite Hs; by left).
  rewrite forallb_forall in Hd. apply Hd in Hin. by rewrite isdigit_plus in Hin.
Qed.

(** X19: three spellings of a ten-digit number are one phone.  For ten
    digits [ds], the bare digits, the digits after a [1], and the digits
    after [+1] all normalize to [+1] followed by [ds]; so does any string
    that does not start with a plus sign and whose digits are [ds],
    whatever punctuation it has. *)
Theorem ten_digit_spellings (ds : pystr) :
  forallb isdigit ds = true →
  List.length ds = 10%nat →
  _normalize_phone ds = py "+1" ++ ds
  ∧ _normalize_phone (py "1" ++ ds) = py "+1" ++ ds
  ∧ _normalize_phone (py "+1" ++ ds) = py "+1" ++ ds
  ∧ (∀ s, List.filter isdigit s = ds →
          startswith (py "+") (strip s) = false →
          _normalize_phone s = py "+1" ++ ds).
Proof.
  intros Hd Hl.
  assert (∀ s, List.filter isdigit s = ds →
               startswith (py "+") (strip s) = false →
               _normalize_phone s = py "+1" ++ ds) as Hgen.
  { intros s Hs Hp. unfold _normalize_phone. rewrite Hp, Hs, Hl. done. }
  split; [|split; [|split; [|done]]].
  - apply Hgen; [by apply filter_isdigit_id|by apply digits_strip_no_plus].
  - unfold _normalize_phone.
    rewrite digits_strip_no_plus by (simpl; by rewrite Hd).
    rewrite filter_isdigit_id by (simpl; by rewrite Hd).
    change (List.length (py "1" ++ ds)) with (S (List.length ds)).
    rewrite Hl. reflexivity.
  - change (py "+1" ++ ds) with (43 :: 49 :: ds).
    rewrite <- (filter_isdigit_id (49 :: ds)) by (simpl; by rewrite Hd).
    apply normalize_plus_digits.
Qed.

End Spellings.

Lemma ten_digit_spellings_witness :
  forallb (@isdigit ascii_only) (py "5551234567") = true
  ∧ List.length (py "5551234567") = 10%nat
  ∧ @_normalize_phone ascii_only (py "1" ++ py "5551234567")
    = py "+1" ++ py "5551234567".
Proof.
  split; [reflexivity|]. split; [reflexivity|].
  destruct (@ten_digit_spellings ascii_only (py "5551234567") eq_refl eq_refl)
    as (_ & Hone & _).
  exact Hone.
Defined.
